(** * DLWP cubed-sphere layers: [CubeSpherePadding2D] and [CubeSphereConv2D]

    A shallow embedding of the two cubed-sphere Keras layers of
    [DLWP/custom.py].  Tensors are dense arrays read through an index
    function, with their static shape carried along, so that the shape checks
    of the backend (which are where the layers fail) are part of the model.
    Python integers are [Z]; Python exceptions are values of [exn]. *)

From Stdlib Require Import ZArith List Lia Bool String Ascii.
Import ListNotations.
Local Open Scope string_scope.
Local Open Scope list_scope.
Local Open Scope Z_scope.

Set Implicit Arguments.

(** ** Exceptions and the error monad *)

Inductive exn : Type :=
| ValueError (msg : string)
| IndexError
| AssertionError
| ZeroDivisionError
| InvalidArgument.

Inductive result (X : Type) : Type :=
| Ok (x : X)
| Raise (e : exn).

Arguments Ok {X} x.
Arguments Raise {X} e.

Definition bind {X Y : Type} (m : result X) (k : X -> result Y) : result Y :=
  match m with
  | Ok x => k x
  | Raise e => Raise e
  end.

Notation "x <- m ;; k" := (bind m (fun x => k))
  (at level 61, m at next level, right associativity).

(** Evaluation of the elements of a Python list display, left to right: the
    first exception wins. *)
Fixpoint sequence {X : Type} (ms : list (result X)) : result (list X) :=
  match ms with
  | [] => Ok []
  | m :: ms' => x <- m ;; xs <- sequence ms' ;; Ok (x :: xs)
  end.

Definition is_ok {X : Type} (m : result X) : bool :=
  match m with Ok _ => true | Raise _ => false end.

(** ** Python slices

    The slice forms that occur in the two layers, with the clamping of
    [slice.indices]: a negative bound counts from the end, and every bound is
    clamped into [0, len].  Note that [From (- p)] at [p = 0] is [From 0]. *)

Inductive pyslice : Type :=
| All                 (* [:]     *)
| From (a : Z)        (* [a:]    *)
| To (b : Z)          (* [:b]    *)
| Range (a b : Z)     (* [a:b]   *)
| Rev.                (* [::-1]  *)

Definition clamp (len i : Z) : Z :=
  if i <? 0 then Z.max (i + len) 0 else Z.min i len.

Definition slice_start (len : Z) (s : pyslice) : Z :=
  match s with
  | All | To _ | Rev => 0
  | From a | Range a _ => clamp len a
  end.

Definition slice_stop (len : Z) (s : pyslice) : Z :=
  match s with
  | All | From _ | Rev => len
  | To b | Range _ b => clamp len b
  end.

(** Number of selected positions. *)
Definition slice_len (len : Z) (s : pyslice) : Z :=
  match s with
  | All | Rev => len
  | _ => Z.max 0 (slice_stop len s - slice_start len s)
  end.

(** Source position of the [i]-th selected element. *)
Definition slice_src (len : Z) (s : pyslice) (i : Z) : Z :=
  match s with
  | Rev => len - 1 - i
  | _ => slice_start len s + i
  end.

Definition norm_axis (rank axis : Z) : Z :=
  if axis <? 0 then axis + rank else axis.

(** [l[s]] on a Python list or tuple. *)
Definition list_slice {X : Type} (s : pyslice) (l : list X) : list X :=
  let len := Z.of_nat (List.length l) in
  match s with
  | Rev => rev l
  | _ => firstn (Z.to_nat (slice_len len s)) (skipn (Z.to_nat (slice_start len s)) l)
  end.

(** [l[i]] on a Python list or tuple. *)
Definition list_item {X : Type} (l : list X) (i : Z) : result X :=
  let i' := norm_axis (Z.of_nat (List.length l)) i in
  if i' <? 0 then Raise IndexError
  else match nth_error l (Z.to_nat i') with
       | Some x => Ok x
       | None => Raise IndexError
       end.

(** [str.lower] on ASCII strings. *)
Definition lower_ascii (c : ascii) : ascii :=
  let n := nat_of_ascii c in
  if (Nat.leb 65 n) && (Nat.leb n 90) then ascii_of_nat (n + 32) else c.

Fixpoint lower (s : string) : string :=
  match s with
  | EmptyString => EmptyString
  | String c s' => String (lower_ascii c) (lower s')
  end.

Definition str_in (s : string) (l : list string) : bool :=
  existsb (String.eqb s) l.

(** ** Tensors

    Modelled from the spec: the host tensor engine (section 6: concatenation
    along an axis, slicing, axis reversal, transpose, the 2D convolution
    primitive and the bias add) is the Keras backend [K] and TensorFlow, which
    are not part of the repository.  The operations below follow their
    documented behaviour, including the rejection of a concatenation whose
    operands disagree on another axis. *)

Section Tensors.

Context {A : Type}.

  (** A rank-4 tensor; for a cube face the axes are
      (batch, channels, height, width). *)
Record tensor4 : Type := Tensor4 {
    n0 : Z; n1 : Z; n2 : Z; n3 : Z;
    at4 : Z -> Z -> Z -> Z -> A
  }.

  (** A rank-5 tensor; for cubed-sphere data the axes are
      (batch, channels, height, width, face). *)
Record tensor5 : Type := Tensor5 {
    m0 : Z; m1 : Z; m2 : Z; m3 : Z; m4 : Z;
    at5 : Z -> Z -> Z -> Z -> Z -> A
  }.

Definition shape4 (x : tensor4) : list Z := [n0 x; n1 x; n2 x; n3 x].
Definition shape5 (x : tensor5) : list Z := [m0 x; m1 x; m2 x; m3 x; m4 x].

  (** [x[:, :, s2, s3, f]]: slices on the two spatial axes and an integer
      index on the face axis. *)
Definition getitem (x : tensor5) (s2 s3 : pyslice) (f : Z) : result tensor4 :=
    let f' := norm_axis (m4 x) f in
    if (0 <=? f') && (f' <? m4 x) then
      Ok (Tensor4 (m0 x) (m1 x) (slice_len (m2 x) s2) (slice_len (m3 x) s3)
            (fun b c r w =>
               at5 x b c (slice_src (m2 x) s2 r) (slice_src (m3 x) s3 w) f'))
    else Raise IndexError.

  (** [x[..., f]] *)
Definition ellipsis (x : tensor5) (f : Z) : result tensor4 :=
    getitem x All All f.

  (** [K.reverse(x, axis)] on a rank-4 tensor. *)
Definition reverse4 (x : tensor4) (axis : Z) : result tensor4 :=
    match norm_axis 4 axis with
    | 0 => Ok (Tensor4 (n0 x) (n1 x) (n2 x) (n3 x)
                 (fun b c r w => at4 x (n0 x - 1 - b) c r w))
    | 1 => Ok (Tensor4 (n0 x) (n1 x) (n2 x) (n3 x)
                 (fun b c r w => at4 x b (n1 x - 1 - c) r w))
    | 2 => Ok (Tensor4 (n0 x) (n1 x) (n2 x) (n3 x)
                 (fun b c r w => at4 x b c (n2 x - 1 - r) w))
    | 3 => Ok (Tensor4 (n0 x) (n1 x) (n2 x) (n3 x)
                 (fun b c r w => at4 x b c r (n3 x - 1 - w)))
    | _ => Raise InvalidArgument
    end.

Definition K_reverse (x : result tensor4) (axis : Z) : result tensor4 :=
    t <- x ;; reverse4 t axis.

  (** Position of axis [a] in the permutation [perm]. *)
Fixpoint index_of (a : Z) (perm : list Z) : nat :=
    match perm with
    | [] => O
    | k :: rest => if k =? a then O else S (index_of a rest)
    end.

Definition is_perm4 (perm : list Z) : bool :=
    (Nat.eqb (List.length perm) 4)
    && forallb (fun a => existsb (Z.eqb a) perm) [0; 1; 2; 3].

  (** [tf.transpose(x, perm)]: axis [k] of the result is axis [perm[k]] of
      [x]. *)
Definition transpose4 (x : tensor4) (perm : list Z) : result tensor4 :=
    if is_perm4 perm then
      let d k := nth (Z.to_nat (nth k perm 0)) (shape4 x) 0 in
      Ok (Tensor4 (d 0%nat) (d 1%nat) (d 2%nat) (d 3%nat)
            (fun i0 i1 i2 i3 =>
               let src a := nth (index_of a perm) [i0; i1; i2; i3] 0 in
               at4 x (src 0) (src 1) (src 2) (src 3)))
    else Raise InvalidArgument.

Definition tf_transpose (x : result tensor4) (perm : list Z) : result tensor4 :=
    t <- x ;; transpose4 t perm.

  (** Shape test of a concatenation: all axes but [axis] agree. *)
Definition agree (axis : Z) (s1 s2 : list Z) : bool :=
    (Nat.eqb (List.length s1) (List.length s2))
    && forallb (fun k => (Z.of_nat k =? axis)
                         || (nth k s1 0 =? nth k s2 0))
               (seq 0 (List.length s1)).

Definition cat4 (axis : Z) (x y : tensor4) : tensor4 :=
    match axis with
    | 0 => Tensor4 (n0 x + n0 y) (n1 x) (n2 x) (n3 x)
             (fun b c r w => if b <? n0 x then at4 x b c r w
                             else at4 y (b - n0 x) c r w)
    | 1 => Tensor4 (n0 x) (n1 x + n1 y) (n2 x) (n3 x)
             (fun b c r w => if c <? n1 x then at4 x b c r w
                             else at4 y b (c - n1 x) r w)
    | 2 => Tensor4 (n0 x) (n1 x) (n2 x + n2 y) (n3 x)
             (fun b c r w => if r <? n2 x then at4 x b c r w
                             else at4 y b c (r - n2 x) w)
    | _ => Tensor4 (n0 x) (n1 x) (n2 x) (n3 x + n3 y)
             (fun b c r w => if w <? n3 x then at4 x b c r w
                             else at4 y b c r (w - n3 x))
    end.

Definition concat4 (axis : Z) (x y : tensor4) : result tensor4 :=
    let ax := norm_axis 4 axis in
    if (0 <=? ax) && (ax <? 4) && agree ax (shape4 x) (shape4 y)
    then Ok (cat4 ax x y) else Raise InvalidArgument.

  (** [K.concatenate([t1, ..., tn], axis)] on rank-4 tensors: the list
      display is evaluated first, then the tensors are joined; a mismatch in
      any other axis is rejected by the backend. *)
Definition K_concatenate (ts : list (result tensor4)) (axis : Z)
    : result tensor4 :=
    xs <- sequence ts ;;
    match xs with
    | [] => Raise (ValueError "need at least one tensor to concatenate")
    | x :: rest => fold_left (fun acc y => a <- acc ;; concat4 axis a y) rest (Ok x)
    end.

  (** [K.expand_dims(x, axis)] from rank 4 to rank 5. *)
Definition expand_dims (x : tensor4) (axis : Z) : result tensor5 :=
    match norm_axis 5 axis with
    | 0 => Ok (Tensor5 1 (n0 x) (n1 x) (n2 x) (n3 x)
                 (fun _ b c r w => at4 x b c r w))
    | 1 => Ok (Tensor5 (n0 x) 1 (n1 x) (n2 x) (n3 x)
                 (fun b _ c r w => at4 x b c r w))
    | 2 => Ok (Tensor5 (n0 x) (n1 x) 1 (n2 x) (n3 x)
                 (fun b c _ r w => at4 x b c r w))
    | 3 => Ok (Tensor5 (n0 x) (n1 x) (n2 x) 1 (n3 x)
                 (fun b c r _ w => at4 x b c r w))
    | 4 => Ok (Tensor5 (n0 x) (n1 x) (n2 x) (n3 x) 1
                 (fun b c r w _ => at4 x b c r w))
    | _ => Raise InvalidArgument
    end.

Definition K_expand_dims (x : result tensor4) (axis : Z) : result tensor5 :=
    t <- x ;; expand_dims t axis.

Definition cat5 (axis : Z) (x y : tensor5) : tensor5 :=
    match axis with
    | 0 => Tensor5 (m0 x + m0 y) (m1 x) (m2 x) (m3 x) (m4 x)
             (fun b c r w f => if b <? m0 x then at5 x b c r w f
                               else at5 y (b - m0 x) c r w f)
    | 1 => Tensor5 (m0 x) (m1 x + m1 y) (m2 x) (m3 x) (m4 x)
             (fun b c r w f => if c <? m1 x then at5 x b c r w f
                               else at5 y b (c - m1 x) r w f)
    | 2 => Tensor5 (m0 x) (m1 x) (m2 x + m2 y) (m3 x) (m4 x)
             (fun b c r w f => if r <? m2 x then at5 x b c r w f
                               else at5 y b c (r - m2 x) w f)
    | 3 => Tensor5 (m0 x) (m1 x) (m2 x) (m3 x + m3 y) (m4 x)
             (fun b c r w f => if w <? m3 x then at5 x b c r w f
                               else at5 y b c r (w - m3 x) f)
    | _ => Tensor5 (m0 x) (m1 x) (m2 x) (m3 x) (m4 x + m4 y)
             (fun b c r w f => if f <? m4 x then at5 x b c r w f
                               else at5 y b c r w (f - m4 x))
    end.

Definition concat5 (axis : Z) (x y : tensor5) : result tensor5 :=
    let ax := norm_axis 5 axis in
    if (0 <=? ax) && (ax <? 5) && agree ax (shape5 x) (shape5 y)
    then Ok (cat5 ax x y) else Raise InvalidArgument.

  (** [K.concatenate] on rank-5 tensors. *)
Definition K_concatenate5 (ts : list (result tensor5)) (axis : Z)
    : result tensor5 :=
    xs <- sequence ts ;;
    match xs with
    | [] => Raise (ValueError "need at least one tensor to concatenate")
    | x :: rest => fold_left (fun acc y => a <- acc ;; concat5 axis a y) rest (Ok x)
    end.

  (** A rank-1 tensor (a bias vector). *)
Record tensor1 : Type := Tensor1 {
    k0 : Z;
    at1 : Z -> A
  }.

  (** Reading a tensor back as nested lists, for concrete examples. *)
Definition zrange (n : Z) : list Z := map Z.of_nat (seq 0 (Z.to_nat n)).

Definition face_rows (x : tensor5) (b c f : Z) : list (list A) :=
    map (fun r => map (fun w => at5 x b c r w f) (zrange (m3 x))) (zrange (m2 x)).

Definition rows4 (x : tensor4) (b c : Z) : list (list A) :=
    map (fun r => map (fun w => at4 x b c r w) (zrange (n3 x))) (zrange (n2 x)).

End Tensors.

Arguments tensor1 A : clear implicits.
Arguments tensor4 A : clear implicits.
Arguments tensor5 A : clear implicits.

Definition channels_first : string := "channels_first".
Definition channels_last : string := "channels_last".

(** [K.normalize_data_format]; [image_data_format] is the value of the Keras
    configuration file. *)
Definition K_normalize_data_format (image_data_format : string)
    (value : option string) : result string :=
  let value := match value with None => image_data_format | Some v => v end in
  let data_format := lower value in
  if negb (str_in data_format [channels_first; channels_last]) then
    Raise (ValueError "The `data_format` argument must be one of channels_first, channels_last.")
  else Ok data_format.

(** ** [keras.utils.conv_utils] *)

(** An argument that is an int or a tuple of ints. *)
Inductive int_or_tuple : Type :=
| PyInt (n : Z)
| PyTuple (l : list Z).

Definition normalize_tuple (value : int_or_tuple) (n : nat) (name : string)
  : result (list Z) :=
  match value with
  | PyInt v => Ok (repeat v n)
  | PyTuple l =>
      if negb (Nat.eqb (List.length l) n) then
        Raise (ValueError ("The `" ++ name ++ "` argument must be a tuple of the given length"))
      else Ok l
  end.

Definition normalize_padding (value : string) : result string :=
  let padding := lower value in
  if negb (str_in padding ["valid"; "same"; "causal"]%string) then
    Raise (ValueError "The `padding` argument must be one of valid, same (or causal for Conv1D).")
  else Ok padding.

(** Modelled from the spec: the "standard convolution arithmetic" of the
    output shape is [conv_utils.conv_output_length] of Keras, which is not
    part of the repository. *)
Definition conv_output_length (input_length : option Z) (filter_size : Z)
    (padding : string) (stride : Z) (dilation : Z) : result (option Z) :=
  match input_length with
  | None => Ok None
  | Some input_length =>
      if negb (str_in padding ["same"; "valid"; "full"; "causal"]%string) then
        Raise AssertionError
      else
        let dilated_filter_size := filter_size + (filter_size - 1) * (dilation - 1) in
        let output_length :=
          if (padding =? "same")%string then input_length
          else if (padding =? "valid")%string then input_length - dilated_filter_size + 1
          else if (padding =? "causal")%string then input_length
          else input_length + dilated_filter_size - 1 in
        if stride =? 0 then Raise ZeroDivisionError
        else Ok (Some ((output_length + stride - 1) / stride))
  end.

(** ** The convolution primitive *)

Class Scalar (A : Type) : Type := {
  zero : A;
  add : A -> A -> A;
  mul : A -> A -> A
}.

#[export] Instance Z_scalar : Scalar Z := {| zero := 0; add := Z.add; mul := Z.mul |}.

Section Convolution.

Context {A : Type} `{Scalar A}.

Definition sum_over (n : Z) (f : Z -> A) : A :=
    fold_left (fun acc i => add acc (f i)) (zrange n) zero.

  (** Output size and leading padding of one spatial axis, as the backend
      computes them. *)
Definition window_out (same : bool) (n k s d : Z) : Z :=
    if same then (n + s - 1) / s else (n - ((k - 1) * d + 1) + s) / s.

Definition window_pad (same : bool) (n k s d : Z) : Z :=
    if same then Z.max 0 ((window_out true n k s d - 1) * s + ((k - 1) * d + 1) - n) / 2
    else 0.

  (** Cross-correlation of an input in (batch, channels, rows, cols) layout
      with a kernel in (rows, cols, in channels, out channels) layout. *)
Definition conv_nchw (x kernel : tensor4 A) (same : bool) (sh sw dh dw : Z)
    : tensor4 A :=
    let ph := window_pad same (n2 x) (n0 kernel) sh dh in
    let pw := window_pad same (n3 x) (n1 kernel) sw dw in
    Tensor4 (n0 x) (n3 kernel)
      (window_out same (n2 x) (n0 kernel) sh dh)
      (window_out same (n3 x) (n1 kernel) sw dw)
      (fun b o i j =>
         sum_over (n0 kernel) (fun di =>
         sum_over (n1 kernel) (fun dj =>
         sum_over (n2 kernel) (fun c =>
           let r := i * sh + di * dh - ph in
           let w := j * sw + dj * dw - pw in
           if (0 <=? r) && (r <? n2 x) && (0 <=? w) && (w <? n3 x)
           then mul (at4 x b c r w) (at4 kernel di dj c o)
           else zero)))).

  (** [K.conv2d(x, kernel, strides, padding, data_format, dilation_rate)].
      A missing kernel ([None]), a padding mode other than valid/same, a
      stride together with a dilation, a channel mismatch and a kernel that
      does not fit are rejected. *)
Definition K_conv2d (x : result (tensor4 A)) (kernel : option (tensor4 A))
      (strides : list Z) (padding : string) (data_format : string)
      (dilation_rate : list Z) : result (tensor4 A) :=
    x <- x ;;
    match kernel with
    | None => Raise (ValueError "None values not supported.")
    | Some kernel =>
        if negb (str_in data_format [channels_first; channels_last]) then
          Raise (ValueError "Unknown data_format")
        else if negb (str_in padding ["same"; "valid"]%string) then
          Raise (ValueError "Invalid padding")
        else
          sh <- list_item strides 0 ;; sw <- list_item strides 1 ;;
          dh <- list_item dilation_rate 0 ;; dw <- list_item dilation_rate 1 ;;
          x <- (if (data_format =? channels_first)%string then Ok x
                else transpose4 x [0; 3; 1; 2]) ;;
          let same := (padding =? "same")%string in
          if (sh <=? 0) || (sw <=? 0) || (dh <=? 0) || (dw <=? 0) then
            Raise InvalidArgument
          else if negb ((sh =? 1) && (sw =? 1)) && negb ((dh =? 1) && (dw =? 1)) then
            Raise (ValueError "strides > 1 not supported in conjunction with dilation_rate > 1")
          else if negb (n1 x =? n2 kernel) then Raise InvalidArgument
          else if (window_out same (n2 x) (n0 kernel) sh dh <? 0)
                  || (window_out same (n3 x) (n1 kernel) sw dw <? 0) then
            Raise InvalidArgument
          else
            let y := conv_nchw x kernel same sh sw dh dw in
            if (data_format =? channels_first)%string then Ok y
            else transpose4 y [0; 2; 3; 1]
    end.

  (** [K.bias_add(x, bias, data_format)] on a rank-4 tensor. *)
Definition K_bias_add (x : result (tensor4 A)) (bias : option (tensor1 A))
      (data_format : string) : result (tensor4 A) :=
    x <- x ;;
    match bias with
    | None => Raise (ValueError "None values not supported.")
    | Some bias =>
        if negb (str_in data_format [channels_first; channels_last]) then
          Raise (ValueError "Unknown data_format")
        else if (data_format =? channels_first)%string then
          if n1 x =? k0 bias then
            Ok (Tensor4 (n0 x) (n1 x) (n2 x) (n3 x)
                  (fun b c r w => add (at4 x b c r w) (at1 bias c)))
          else Raise InvalidArgument
        else
          if n3 x =? k0 bias then
            Ok (Tensor4 (n0 x) (n1 x) (n2 x) (n3 x)
                  (fun b r w c => add (at4 x b r w c) (at1 bias c)))
          else Raise InvalidArgument
    end.

End Convolution.

(** ** [CubeSphereConv2D] *)

Module CubeSphereConv2D.
Section Layer.

Context {A : Type} `{Scalar A}.

  (** The arguments of [__init__].  An activation is a callable on tensors or
      [None]; the initializers are given by the values they draw, one draw
      per weight in creation order. *)
Record arguments : Type := {
    arg_filters : Z;
    arg_kernel_size : int_or_tuple;
    arg_strides : int_or_tuple;
    arg_padding : string;
    arg_data_format : option string;
    arg_dilation_rate : int_or_tuple;
    arg_activation : option (tensor5 A -> tensor5 A);
    arg_use_bias : bool;
    arg_flip_north_pole : bool;
    arg_independent_north_pole : bool;
    arg_kernel_initializer : nat -> Z -> Z -> Z -> Z -> A;
    arg_bias_initializer : nat -> Z -> A
  }.

  (** The defaults of the signature of [__init__]. *)
Definition defaults (filters : Z) (kernel_size : int_or_tuple)
      (kernel_initializer : nat -> Z -> Z -> Z -> Z -> A)
      (bias_initializer : nat -> Z -> A) : arguments :=
    {| arg_filters := filters;
       arg_kernel_size := kernel_size;
       arg_strides := PyInt 1;
       arg_padding := "valid";
       arg_data_format := Some channels_first;
       arg_dilation_rate := PyInt 1;
       arg_activation := None;
       arg_use_bias := true;
       arg_flip_north_pole := true;
       arg_independent_north_pole := false;
       arg_kernel_initializer := kernel_initializer;
       arg_bias_initializer := bias_initializer |}.

  (** The attributes of a layer object. *)
Record layer : Type := {
    filters : Z;
    kernel_size : list Z;
    strides : list Z;
    padding : string;
    data_format : string;
    dilation_rate : list Z;
    activation : tensor5 A -> tensor5 A;
    use_bias : bool;
    flip_north_pole : bool;
    independent_north_pole : bool;
    kernel_initializer : nat -> Z -> Z -> Z -> Z -> A;
    bias_initializer : nat -> Z -> A;
    equatorial_kernel : option (tensor4 A);
    equatorial_bias : option (tensor1 A);
    polar_kernel : option (tensor4 A);
    polar_bias : option (tensor1 A);
    north_pole_kernel : option (tensor4 A);
    north_pole_bias : option (tensor1 A);
    built : bool
  }.

  (** [activations.get]: [None] stands for the linear activation. *)
Definition linear (x : tensor5 A) : tensor5 A := x.

Definition activations_get (a : option (tensor5 A -> tensor5 A))
    : tensor5 A -> tensor5 A :=
    match a with
    | None => linear
    | Some f => f
    end.

Definition init (image_data_format : string) (args : arguments) : result layer :=
    kernel_size <- normalize_tuple (arg_kernel_size args) 2 "kernel_size" ;;
    strides <- normalize_tuple (arg_strides args) 2 "strides" ;;
    padding <- normalize_padding (arg_padding args) ;;
    data_format <- K_normalize_data_format image_data_format (arg_data_format args) ;;
    if negb (data_format =? channels_first)%string then
      Raise (ValueError "CubeSphereConv2D must have 'channels_first' order")
    else
      dilation_rate <- normalize_tuple (arg_dilation_rate args) 2 "dilation_rate" ;;
      Ok {| filters := arg_filters args;
            kernel_size := kernel_size;
            strides := strides;
            padding := padding;
            data_format := data_format;
            dilation_rate := dilation_rate;
            activation := activations_get (arg_activation args);
            use_bias := arg_use_bias args;
            flip_north_pole := arg_flip_north_pole args;
            independent_north_pole := arg_independent_north_pole args;
            kernel_initializer := arg_kernel_initializer args;
            bias_initializer := arg_bias_initializer args;
            equatorial_kernel := None;
            equatorial_bias := None;
            polar_kernel := None;
            polar_bias := None;
            north_pole_kernel := None;
            north_pole_bias := None;
            built := false |}.

  (** [self.add_weight(shape=kernel_shape, ...)]: the [n]-th draw of the
      kernel initializer. *)
Definition add_kernel (self : layer) (n : nat) (kernel_shape : list Z)
    : result (tensor4 A) :=
    kh <- list_item kernel_shape 0 ;; kw <- list_item kernel_shape 1 ;;
    ci <- list_item kernel_shape 2 ;; co <- list_item kernel_shape 3 ;;
    Ok (Tensor4 kh kw ci co (kernel_initializer self n)).

Definition add_bias (self : layer) (n : nat) : tensor1 A :=
    Tensor1 (filters self) (bias_initializer self n).

Definition build (self : layer) (input_shape : list (option Z)) : result layer :=
    let channel_axis := if (data_format self =? channels_first)%string then 1 else -1 in
    d <- list_item input_shape channel_axis ;;
    match d with
    | None => Raise (ValueError "The channel dimension of the inputs should be defined. Found `None`.")
    | Some input_dim =>
        let kernel_shape := (kernel_size self ++ [input_dim; filters self])%list in
        equatorial_kernel <- add_kernel self 0 kernel_shape ;;
        polar_kernel <- add_kernel self 1 kernel_shape ;;
        north_pole_kernel <-
          (if independent_north_pole self
           then k <- add_kernel self 2 kernel_shape ;; Ok (Some k)
           else Ok (north_pole_kernel self)) ;;
        Ok {| filters := filters self;
              kernel_size := kernel_size self;
              strides := strides self;
              padding := padding self;
              data_format := data_format self;
              dilation_rate := dilation_rate self;
              activation := activation self;
              use_bias := use_bias self;
              flip_north_pole := flip_north_pole self;
              independent_north_pole := independent_north_pole self;
              kernel_initializer := kernel_initializer self;
              bias_initializer := bias_initializer self;
              equatorial_kernel := Some equatorial_kernel;
              equatorial_bias :=
                if use_bias self then Some (add_bias self 0) else equatorial_bias self;
              polar_kernel := Some polar_kernel;
              polar_bias :=
                if use_bias self then Some (add_bias self 1) else polar_bias self;
              north_pole_kernel := north_pole_kernel;
              north_pole_bias :=
                if use_bias self && independent_north_pole self
                then Some (add_bias self 2) else north_pole_bias self;
              built := true |}
    end.

Definition call (self : layer) (inputs : tensor5 A) : result (tensor5 A) :=
    (* Equatorial faces *)
    let equatorial :=
      map (fun f =>
             let o := K_conv2d (ellipsis inputs f) (equatorial_kernel self)
                        (strides self) (padding self) (data_format self)
                        (dilation_rate self) in
             let o := if use_bias self
                      then K_bias_add o (equatorial_bias self) (data_format self)
                      else o in
             K_expand_dims o (-1))
          [0; 1; 2; 3] in
    (* South pole face *)
    let south :=
      let o := K_conv2d (ellipsis inputs 4) (polar_kernel self)
                 (strides self) (padding self) (data_format self)
                 (dilation_rate self) in
      let o := if use_bias self
               then K_bias_add o (polar_bias self) (data_format self)
               else o in
      K_expand_dims o (-1) in
    (* North pole face *)
    let north :=
      let o :=
        if flip_north_pole self then
          K_conv2d (K_reverse (ellipsis inputs 5) (-2))
            (if independent_north_pole self then north_pole_kernel self
             else polar_kernel self)
            (strides self) (padding self) (data_format self) (dilation_rate self)
        else
          K_conv2d (ellipsis inputs 5)
            (if independent_north_pole self then north_pole_kernel self
             else polar_kernel self)
            (strides self) (padding self) (data_format self) (dilation_rate self) in
      let o := if use_bias self
               then K_bias_add o
                      (if independent_north_pole self then north_pole_bias self
                       else polar_bias self)
                      (data_format self)
               else o in
      let o := if flip_north_pole self then K_reverse o (-2) else o in
      K_expand_dims o (-1) in
    outputs <- K_concatenate5 (equatorial ++ [south; north])%list (-1) ;;
    Ok (activation self outputs).

Definition compute_output_shape (self : layer) (input_shape : list (option Z))
    : result (option (list (option Z))) :=
    let new_space (space : list (option Z)) :=
      sequence
        (map (fun i =>
                d <- list_item space i ;;
                k <- list_item (kernel_size self) i ;;
                s <- list_item (strides self) i ;;
                dl <- list_item (dilation_rate self) i ;;
                conv_output_length d k (padding self) s dl)
             (zrange (Z.of_nat (List.length space)))) in
    if (data_format self =? channels_last)%string then
      b <- list_item input_shape 0 ;;
      sp <- new_space (list_slice (Range 1 (-3)) input_shape) ;;
      Ok (Some ([b] ++ sp ++ [Some (filters self); Some 6])%list)
    else if (data_format self =? channels_first)%string then
      b <- list_item input_shape 0 ;;
      sp <- new_space (list_slice (Range 2 (-1)) input_shape) ;;
      Ok (Some ([b; Some (filters self)] ++ sp ++ [Some 6])%list)
    else Ok None.

  (** The per-face computations, in the words of the specification. *)

  (** "Standard 2D convolution with the kernel and bias": a plain 2D
      convolution of one face, plus the bias when [use_bias]. *)
Definition plain_conv (self : layer) (kernel : option (tensor4 A))
      (bias : option (tensor1 A)) (x : result (tensor4 A)) : result (tensor4 A) :=
    let o := K_conv2d x kernel (strides self) (padding self) (data_format self)
               (dilation_rate self) in
    if use_bias self then K_bias_add o bias (data_format self) else o.

Definition north_kernel (self : layer) : option (tensor4 A) :=
    if independent_north_pole self then north_pole_kernel self else polar_kernel self.

Definition north_bias (self : layer) : option (tensor1 A) :=
    if independent_north_pole self then north_pole_bias self else polar_bias self.

  (** The north face as the specification words it: reversed along the
      width axis (the last axis of a face) before and after the
      convolution. *)
Definition north_conv_width (self : layer) (x : result (tensor4 A))
    : result (tensor4 A) :=
    if flip_north_pole self then
      K_reverse (plain_conv self (north_kernel self) (north_bias self) (K_reverse x (-1))) (-1)
    else plain_conv self (north_kernel self) (north_bias self) x.

  (** The north face with the reversal along axis [-2] of a face, the
      height axis. *)
Definition north_conv_height (self : layer) (x : result (tensor4 A))
    : result (tensor4 A) :=
    if flip_north_pole self then
      K_reverse (plain_conv self (north_kernel self) (north_bias self) (K_reverse x (-2))) (-2)
    else plain_conv self (north_kernel self) (north_bias self) x.

  (** The result computed for face [f] before the faces are joined. *)
Definition face_result (self : layer) (inputs : tensor5 A) (f : Z)
    : result (tensor4 A) :=
    if f <? 4 then
      plain_conv self (equatorial_kernel self) (equatorial_bias self) (ellipsis inputs f)
    else if f =? 4 then
      plain_conv self (polar_kernel self) (polar_bias self) (ellipsis inputs 4)
    else north_conv_height self (ellipsis inputs 5).

End Layer.

Arguments arguments A : clear implicits.
Arguments layer A : clear implicits.

End CubeSphereConv2D.

(** ** [CubeSpherePadding2D] *)

Module CubeSpherePadding2D.

  (** The [padding] argument: an int, or a tuple of three entries, each an
      int or a pair of ints. *)
Inductive padding_arg : Type :=
  | PadInt (p : Z)
  | PadTuple (l : list int_or_tuple).

Record layer : Type := {
    padding : list (Z * Z);
    data_format : string
  }.

Definition pair_of (l : list Z) : Z * Z := (nth 0 l 0, nth 1 l 0).

  (** Modelled from the spec: the base class [ZeroPadding3D] of Keras is not
      part of the repository; its constructor normalises the padding
      argument to three (low, high) pairs and the data format. *)
Definition ZeroPadding3D_init (image_data_format : string)
      (padding : padding_arg) (data_format : option string) : result layer :=
    normalized <-
      match padding with
      | PadInt p => Ok [(p, p); (p, p); (p, p)]
      | PadTuple l =>
          if negb (Nat.eqb (List.length l) 3) then
            Raise (ValueError "`padding` should have 3 elements.")
          else
            d1 <- (v <- list_item l 0 ;; normalize_tuple v 2 "1st entry of padding") ;;
            d2 <- (v <- list_item l 1 ;; normalize_tuple v 2 "2nd entry of padding") ;;
            d3 <- (v <- list_item l 2 ;; normalize_tuple v 2 "3rd entry of padding") ;;
            Ok [pair_of d1; pair_of d2; pair_of d3]
      end ;;
    data_format <- K_normalize_data_format image_data_format data_format ;;
    Ok {| padding := normalized; data_format := data_format |}.

Definition pair_eqb (x y : Z * Z) : bool :=
    (fst x =? fst y) && (snd x =? snd y).

Definition init (image_data_format : string) (padding_ : padding_arg)
      (data_format_ : option string) : result layer :=
    data_format_ <- K_normalize_data_format image_data_format data_format_ ;;
    if negb (data_format_ =? channels_first)%string then
      Raise (ValueError "CubeSpherePadding2D must have 'channels_first' order")
    else
      self <- ZeroPadding3D_init image_data_format padding_ (Some data_format_) ;;
      p0 <- list_item (padding self) 0 ;;
      p1 <- list_item (padding self) 1 ;;
      if negb (pair_eqb p0 p1) then
        Raise (ValueError "CubeSpherePadding2D must have the same padding in the height and width dimensions")
      else if negb (fst p0 =? snd p0) then
        Raise (ValueError "CubeSpherePadding2D must have equal padding on opposite edges")
      else
        Ok {| padding := (list_slice (To 2) (padding self) ++ [(0, 0)])%list;
              data_format := data_format self |}.

Section Call.

Context {A : Type}.

Definition tr : list Z := [0; 1; 3; 2].

  (** Pass 1: "Pad the equatorial upper/lower boundaries and the polar
      upper/lower boundaries". *)
Definition height_pass (p : Z) (inputs : tensor5 A) : result (tensor5 A) :=
    let out :=
      [ (* Face 0 *)
        K_expand_dims (K_concatenate [
            getitem inputs (From (- p)) All 4;
            ellipsis inputs 0;
            getitem inputs (To p) All 5 ] 2) (-1);
        (* Face 1 *)
        K_expand_dims (K_concatenate [
            tf_transpose (getitem inputs Rev (From (- p)) 4) tr;
            ellipsis inputs 1;
            tf_transpose (K_reverse (getitem inputs All (From (- p)) 5) 3) tr ] 2) (-1);
        (* Face 2 *)
        K_expand_dims (K_concatenate [
            K_reverse (getitem inputs (To p) Rev 4) 2;
            ellipsis inputs 2;
            K_reverse (getitem inputs (From (- p)) Rev 5) 2 ] 2) (-1);
        (* Face 3 *)
        K_expand_dims (K_concatenate [
            tf_transpose (K_reverse (getitem inputs All (To p) 4) 3) tr;
            ellipsis inputs 3;
            tf_transpose (getitem inputs Rev (To p) 5) tr ] 2) (-1);
        (* Face 4 (south pole) *)
        K_expand_dims (K_concatenate [
            K_reverse (getitem inputs (To p) Rev 2) 2;
            ellipsis inputs 4;
            getitem inputs (To p) All 0 ] 2) (-1);
        (* Face 5 (north pole) *)
        K_expand_dims (K_concatenate [
            getitem inputs (From (- p)) All 0;
            ellipsis inputs 5;
            K_reverse (getitem inputs (From (- p)) Rev 2) 2 ] 2) (-1)
      ] in
    K_concatenate5 out (-1).

  (** Pass 2: "Pad the equatorial periodic lateral boundaries and the polar
      left/right boundaries".  The pole faces read from [out[3]] and
      [out[1]], the faces already padded in this pass. *)
Definition width_pass (p : Z) (out1 : tensor5 A) : result (tensor5 A) :=
    let out_0 :=
      K_expand_dims (K_concatenate [
          getitem out1 All (From (- p)) 3;
          ellipsis out1 0;
          getitem out1 All (To p) 1 ] 3) (-1) in
    let out_1 :=
      K_expand_dims (K_concatenate [
          getitem out1 All (From (- p)) 0;
          ellipsis out1 1;
          getitem out1 All (To p) 2 ] 3) (-1) in
    let out_2 :=
      K_expand_dims (K_concatenate [
          getitem out1 All (From (- p)) 1;
          ellipsis out1 2;
          getitem out1 All (To p) 3 ] 3) (-1) in
    let out_3 :=
      K_expand_dims (K_concatenate [
          getitem out1 All (From (- p)) 2;
          ellipsis out1 3;
          getitem out1 All (To p) 0 ] 3) (-1) in
    let out_4 :=
      K_expand_dims (K_concatenate [
          tf_transpose (K_reverse (o <- out_3 ;; getitem o (Range p (2 * p)) All 0) 2) tr;
          ellipsis out1 4;
          tf_transpose (o <- out_1 ;; getitem o (Range p (2 * p)) Rev 0) tr ] 3) (-1) in
    let out_5 :=
      K_expand_dims (K_concatenate [
          tf_transpose (o <- out_3 ;; getitem o (Range (-2 * p) (- p)) Rev 0) tr;
          ellipsis out1 5;
          tf_transpose (K_reverse (o <- out_1 ;; getitem o (Range (-2 * p) (- p)) All 0) 2) tr ] 3) (-1) in
    K_concatenate5 [out_0; out_1; out_2; out_3; out_4; out_5] (-1).

Definition call (self : layer) (inputs : tensor5 A) : result (tensor5 A) :=
    p0 <- list_item (padding self) 0 ;;
    let p := fst p0 in
    out1 <- height_pass p inputs ;;
    width_pass p out1.

End Call.
End CubeSpherePadding2D.

(** ** Cube topology

    The adjacency that the slices of the two passes encode.  Faces 0-3 are
    the equatorial belt, face 4 is the south pole and face 5 the north pole. *)

Inductive face : Type := F0 | F1 | F2 | F3 | F4 | F5.

Definition face_index (f : face) : Z :=
  match f with F0 => 0 | F1 => 1 | F2 => 2 | F3 => 3 | F4 => 4 | F5 => 5 end.

Definition all_faces : list face := [F0; F1; F2; F3; F4; F5].

(** [Top] is the side of row 0, [Left] the side of column 0. *)
Inductive edge : Type := Top | Bottom | Left | Right.

Definition all_edges : list edge := [Top; Bottom; Left; Right].

(** The reorientations that the padder applies to a neighbouring face:
    - [Identity]: the face as stored;
    - [Reverse]: both spatial axes reversed ([K.reverse(x[..., ::-1], 2)]);
    - [TransposeFlipRows]: [tf.transpose(x[:, :, ::-1, :], tr)];
    - [TransposeFlipCols]: [tf.transpose(K.reverse(x, 3), tr)]. *)
Inductive transform : Type :=
| Identity
| Reverse
| TransposeFlipRows
| TransposeFlipCols.

(** Where cell [(r, c)] of the reoriented face is read in the stored face of
    side [N]. *)
Definition coord (t : transform) (N : Z) (rc : Z * Z) : Z * Z :=
  let (r, c) := rc in
  match t with
  | Identity => (r, c)
  | Reverse => (N - 1 - r, N - 1 - c)
  | TransposeFlipRows => (N - 1 - c, r)
  | TransposeFlipCols => (c, N - 1 - r)
  end.

Definition inverse (t : transform) : transform :=
  match t with
  | Identity => Identity
  | Reverse => Reverse
  | TransposeFlipRows => TransposeFlipCols
  | TransposeFlipCols => TransposeFlipRows
  end.

(** [neighbor f e = (g, e2, t)]: the halo beyond edge [e] of face [f] is read
    from face [g], at its edge [e2], reoriented by [t].  Each entry is the
    strip expression of [call] for that face and side:
    the face is the last index of the slice, the edge is the axis that
    carries [:p] (first rows or columns) or [-p:] (last ones), and the
    transform is the composition of [::-1], [K.reverse] and [tf.transpose]
    around it. *)
Definition neighbor (f : face) (e : edge) : face * edge * transform :=
  match f, e with
  | F0, Top    => (F4, Bottom, Identity)          (* inputs[:, :, -p:, :, 4] *)
  | F0, Bottom => (F5, Top, Identity)             (* inputs[:, :, :p, :, 5] *)
  | F0, Left   => (F3, Right, Identity)           (* out1[:, :, :, -p:, 3] *)
  | F0, Right  => (F1, Left, Identity)            (* out1[:, :, :, :p, 1] *)
  | F1, Top    => (F4, Right, TransposeFlipRows)  (* transpose(inputs[:, :, ::-1, -p:, 4]) *)
  | F1, Bottom => (F5, Right, TransposeFlipCols)  (* transpose(reverse(inputs[:, :, :, -p:, 5], 3)) *)
  | F1, Left   => (F0, Right, Identity)           (* out1[:, :, :, -p:, 0] *)
  | F1, Right  => (F2, Left, Identity)            (* out1[:, :, :, :p, 2] *)
  | F2, Top    => (F4, Top, Reverse)              (* reverse(inputs[:, :, :p, ::-1, 4], 2) *)
  | F2, Bottom => (F5, Bottom, Reverse)           (* reverse(inputs[:, :, -p:, ::-1, 5], 2) *)
  | F2, Left   => (F1, Right, Identity)           (* out1[:, :, :, -p:, 1] *)
  | F2, Right  => (F3, Left, Identity)            (* out1[:, :, :, :p, 3] *)
  | F3, Top    => (F4, Left, TransposeFlipCols)   (* transpose(reverse(inputs[:, :, :, :p, 4], 3)) *)
  | F3, Bottom => (F5, Left, TransposeFlipRows)   (* transpose(inputs[:, :, ::-1, :p, 5]) *)
  | F3, Left   => (F2, Right, Identity)           (* out1[:, :, :, -p:, 2] *)
  | F3, Right  => (F0, Left, Identity)            (* out1[:, :, :, :p, 0] *)
  | F4, Top    => (F2, Top, Reverse)              (* reverse(inputs[:, :, :p, ::-1, 2], 2) *)
  | F4, Bottom => (F0, Top, Identity)             (* inputs[:, :, :p, :, 0] *)
  | F4, Left   => (F3, Top, TransposeFlipRows)    (* transpose(reverse(out[3][:, :, p:2*p, :, 0], 2)) *)
  | F4, Right  => (F1, Top, TransposeFlipCols)    (* transpose(out[1][:, :, p:2*p, ::-1, 0]) *)
  | F5, Top    => (F0, Bottom, Identity)          (* inputs[:, :, -p:, :, 0] *)
  | F5, Bottom => (F2, Bottom, Reverse)           (* reverse(inputs[:, :, -p:, ::-1, 2], 2) *)
  | F5, Left   => (F3, Bottom, TransposeFlipCols) (* transpose(out[3][:, :, -2*p:-p, ::-1, 0]) *)
  | F5, Right  => (F1, Bottom, TransposeFlipRows) (* transpose(reverse(out[1][:, :, -2*p:-p, :, 0], 2)) *)
  end.

Definition neighbor_face (f : face) (e : edge) : face := fst (fst (neighbor f e)).

(** A cell position: a face and (row, column) coordinates relative to the
    unpadded face, so that halo cells have a coordinate outside [0, N). *)
Definition position : Type := face * (Z * Z).

(** The neighbour across [e] is laid out next to the face, one face width
    away in the direction of [e]. *)
Definition shift (e : edge) (N : Z) (rc : Z * Z) : Z * Z :=
  let (r, c) := rc in
  match e with
  | Top => (r + N, c)
  | Bottom => (r - N, c)
  | Left => (r, c + N)
  | Right => (r, c - N)
  end.

(** One step across edge [e] of face [f]. *)
Definition cross (N : Z) (f : face) (e : edge) (rc : Z * Z) : position :=
  let '(g, _, t) := neighbor f e in
  (g, coord t N (shift e N rc)).

(** One step out of a face, crossing a row edge when the row is outside. *)
Definition hop_h (N : Z) (x : position) : position :=
  let '(f, (r, c)) := x in
  if r <? 0 then cross N f Top (r, c)
  else if N <=? r then cross N f Bottom (r, c)
  else if c <? 0 then cross N f Left (r, c)
  else if N <=? c then cross N f Right (r, c)
  else x.

(** One step out of a face, crossing a column edge when the column is
    outside. *)
Definition hop_w (N : Z) (x : position) : position :=
  let '(f, (r, c)) := x in
  if c <? 0 then cross N f Left (r, c)
  else if N <=? c then cross N f Right (r, c)
  else if r <? 0 then cross N f Top (r, c)
  else if N <=? r then cross N f Bottom (r, c)
  else x.

(** Two-hop traces of a halo cell back to a stored cell: across the
    left/right edge first, or across the top/bottom edge first. *)
Definition trace_wf (N : Z) (x : position) : position := hop_h N (hop_w N x).
Definition trace_hf (N : Z) (x : position) : position := hop_w N (hop_h N x).

Definition face_of (k : Z) : face :=
  match k with 0 => F0 | 1 => F1 | 2 => F2 | 3 => F3 | 4 => F4 | _ => F5 end.

Definition at_pos {A : Type} (x : tensor5 A) (b c : Z) (q : position) : A :=
  at5 x b c (fst (snd q)) (snd (snd q)) (face_index (fst q)).

(** The side of the padded face (of side [N + 2p]) on which a halo cell
    lies; a corner cell is counted with its row. *)
Definition edge_of (N p r w : Z) : option edge :=
  if r <? p then Some Top
  else if N + p <=? r then Some Bottom
  else if w <? p then Some Left
  else if N + p <=? w then Some Right
  else None.



(** The halo strip of depth [p] beyond edge [e] of a face of side [N], and the
    strip of stored cells of depth [p] along edge [e], both in coordinates
    relative to the unpadded face; corner cells belong to neither. *)
Definition beyond (N p : Z) (e : edge) (rc : Z * Z) : bool :=
  let (r, c) := rc in
  match e with
  | Top => (- p <=? r) && (r <? 0) && (0 <=? c) && (c <? N)
  | Bottom => (N <=? r) && (r <? N + p) && (0 <=? c) && (c <? N)
  | Left => (0 <=? r) && (r <? N) && (- p <=? c) && (c <? 0)
  | Right => (0 <=? r) && (r <? N) && (N <=? c) && (c <? N + p)
  end.

Definition along (N p : Z) (e : edge) (rc : Z * Z) : bool :=
  let (r, c) := rc in
  match e with
  | Top => (0 <=? r) && (r <? p) && (0 <=? c) && (c <? N)
  | Bottom => (N - p <=? r) && (r <? N) && (0 <=? c) && (c <? N)
  | Left => (0 <=? r) && (r <? N) && (0 <=? c) && (c <? p)
  | Right => (0 <=? r) && (r <? N) && (N - p <=? c) && (c <? N)
  end.

(** ** The padding operation of the specification

    [pad(T, p)]: a padding layer constructed for the halo width [p] (with the
    default [data_format] argument of the constructor), applied to [T]. *)
Definition pad {A : Type} (p : Z) (T : tensor5 A) : result (tensor5 A) :=
  self <- CubeSpherePadding2D.init channels_last (CubeSpherePadding2D.PadInt p)
            (Some channels_first) ;;
  CubeSpherePadding2D.call self T.

(** A halo cell of the padded face that lies beyond two edges at once. *)
Definition is_corner (N p r w : Z) : bool :=
  ((r <? p) || (N + p <=? r)) && ((w <? p) || (N + p <=? w)).

(** A position that denotes a stored cell of a face of side [N]. *)
Definition in_face (N : Z) (q : position) : bool :=
  (0 <=? fst (snd q)) && (fst (snd q) <? N)
  && (0 <=? snd (snd q)) && (snd (snd q) <? N).

(** Example data: every face filled with its own index, and faces whose
    cells spell out their own position. *)
Definition face_filled (N : Z) : tensor5 Z :=
  Tensor5 1 1 N N 6 (fun _ _ _ _ f => f).

Definition cell_named (N : Z) : tensor5 Z :=
  Tensor5 1 1 N N 6 (fun _ _ r w f => 100 * f + 10 * r + w).


(** Two rank-4 tensors with the same shape and the same cells. *)
Definition same4 {A : Type} (x y : tensor4 A) : Prop :=
  shape4 x = shape4 y /\ forall b c r w, at4 x b c r w = at4 y b c r w.

(** Example layers and inputs over the integers. *)

Definition example_kernel (a b : Z) : tensor4 Z :=
  Tensor4 1 2 1 1 (fun _ dj _ _ => if dj =? 0 then a else b).

Definition unit_kernel : tensor4 Z := Tensor4 1 1 1 1 (fun _ _ _ _ => 1).

Definition zero_bias : tensor1 Z := Tensor1 1 (fun _ => 0).

Definition relu (x : tensor5 Z) : tensor5 Z :=
  Tensor5 (m0 x) (m1 x) (m2 x) (m3 x) (m4 x)
    (fun b c r w f => Z.max 0 (at5 x b c r w f)).

(** A built layer with a 1 x 2 kernel, bias and the north pole flipped. *)
Definition example_layer : CubeSphereConv2D.layer Z :=
  {| CubeSphereConv2D.filters := 1;
     CubeSphereConv2D.kernel_size := [1; 2];
     CubeSphereConv2D.strides := [1; 1];
     CubeSphereConv2D.padding := "valid";
     CubeSphereConv2D.data_format := channels_first;
     CubeSphereConv2D.dilation_rate := [1; 1];
     CubeSphereConv2D.activation := CubeSphereConv2D.linear;
     CubeSphereConv2D.use_bias := true;
     CubeSphereConv2D.flip_north_pole := true;
     CubeSphereConv2D.independent_north_pole := false;
     CubeSphereConv2D.kernel_initializer := fun _ _ _ _ _ => 0;
     CubeSphereConv2D.bias_initializer := fun _ _ => 0;
     CubeSphereConv2D.equatorial_kernel := Some (example_kernel 1 2);
     CubeSphereConv2D.equatorial_bias := Some zero_bias;
     CubeSphereConv2D.polar_kernel := Some (example_kernel 2 3);
     CubeSphereConv2D.polar_bias := Some zero_bias;
     CubeSphereConv2D.north_pole_kernel := None;
     CubeSphereConv2D.north_pole_bias := None;
     CubeSphereConv2D.built := true |}.

(** A built layer with a 1 x 1 kernel of weight 1, no bias, and a
    rectifier as activation. *)
Definition relu_layer : CubeSphereConv2D.layer Z :=
  {| CubeSphereConv2D.filters := 1;
     CubeSphereConv2D.kernel_size := [1; 1];
     CubeSphereConv2D.strides := [1; 1];
     CubeSphereConv2D.padding := "valid";
     CubeSphereConv2D.data_format := channels_first;
     CubeSphereConv2D.dilation_rate := [1; 1];
     CubeSphereConv2D.activation := relu;
     CubeSphereConv2D.use_bias := false;
     CubeSphereConv2D.flip_north_pole := true;
     CubeSphereConv2D.independent_north_pole := false;
     CubeSphereConv2D.kernel_initializer := fun _ _ _ _ _ => 1;
     CubeSphereConv2D.bias_initializer := fun _ _ => 0;
     CubeSphereConv2D.equatorial_kernel := Some unit_kernel;
     CubeSphereConv2D.equatorial_bias := None;
     CubeSphereConv2D.polar_kernel := Some unit_kernel;
     CubeSphereConv2D.polar_bias := None;
     CubeSphereConv2D.north_pole_kernel := None;
     CubeSphereConv2D.north_pole_bias := None;
     CubeSphereConv2D.built := true |}.

(** Faces [[1, 2], [3, 4]], and faces of negative cells. *)
Definition example_input : tensor5 Z :=
  Tensor5 1 1 2 2 6 (fun _ _ r w _ => 1 + 2 * r + w).

Definition negative_input : tensor5 Z :=
  Tensor5 1 1 2 2 6 (fun _ _ r w _ => - (1 + 2 * r + w)).

(** What a successful call returns, for the concrete examples. *)
Definition returned {X : Type} (dflt : X) (m : result X) : X :=
  match m with Ok x => x | Raise _ => dflt end.

(** Weights of the shapes that [build] creates for [C] input channels. *)
Definition kernel_ok {A : Type} (k : option (tensor4 A)) (s : list Z) : Prop :=
  match k with
  | Some t => shape4 t = s
  | None => False
  end.

Definition bias_ok {A : Type} (b : option (tensor1 A)) (n : Z) : Prop :=
  match b with
  | Some t => k0 t = n
  | None => False
  end.

Definition well_built {A : Type} (l : CubeSphereConv2D.layer A) (C kh kw : Z) : Prop :=
  CubeSphereConv2D.data_format l = channels_first
  /\ CubeSphereConv2D.kernel_size l = [kh; kw]
  /\ kernel_ok (CubeSphereConv2D.equatorial_kernel l) [kh; kw; C; CubeSphereConv2D.filters l]
  /\ kernel_ok (CubeSphereConv2D.polar_kernel l) [kh; kw; C; CubeSphereConv2D.filters l]
  /\ kernel_ok (CubeSphereConv2D.north_kernel l) [kh; kw; C; CubeSphereConv2D.filters l]
  /\ (CubeSphereConv2D.use_bias l = true ->
      bias_ok (CubeSphereConv2D.equatorial_bias l) (CubeSphereConv2D.filters l)
      /\ bias_ok (CubeSphereConv2D.polar_bias l) (CubeSphereConv2D.filters l)
      /\ bias_ok (CubeSphereConv2D.north_bias l) (CubeSphereConv2D.filters l)).

(** The end-to-end example of the specification: an input of shape
    (1, 2, 8, 8, 6), and a layer of 4 filters with a 3 x 3 kernel, valid
    padding and stride 1, built for the padded input. *)
Definition end_to_end_input : tensor5 Z :=
  Tensor5 1 2 8 8 6 (fun b c r w f => 100 * f + 10 * r + w + c).

Definition end_to_end_args : CubeSphereConv2D.arguments Z :=
  CubeSphereConv2D.defaults 4 (PyTuple [3; 3])
    (fun n di dj c o => Z.of_nat n + di + dj + c + o) (fun _ _ => 0).

Definition end_to_end_layer : result (CubeSphereConv2D.layer Z) :=
  l <- CubeSphereConv2D.init channels_last end_to_end_args ;;
  CubeSphereConv2D.build l [None; Some 2; Some 10; Some 10; Some 6].

(** The arguments from which [example_layer] is built: its kernels and
    biases are the draws of these initializers. *)
Definition example_args : CubeSphereConv2D.arguments Z :=
  CubeSphereConv2D.defaults 1 (PyTuple [1; 2])
    (fun n _ dj _ _ => if dj =? 0 then Z.of_nat n + 1 else Z.of_nat n + 2)
    (fun _ _ => 0).

(** The layer that [init] and [build] make from [example_args] for an input
    of one channel. *)
Definition built_example : CubeSphereConv2D.layer Z :=
  returned example_layer
    (CubeSphereConv2D.build
       (returned example_layer (CubeSphereConv2D.init channels_last example_args))
       [None; Some 1; Some 2; Some 2; Some 6]).


(** * Further layers and callbacks of [custom.py] *)

(** ** More backend operations *)

Section MoreTensorOps.

Context {A : Type}.

  (** [x[s0, s1, s2, s3]] on a rank-4 tensor; a shorter index leaves the
      trailing axes whole. *)
Definition getitem4 (x : tensor4 A) (s0 s1 s2 s3 : pyslice) : tensor4 A :=
    Tensor4 (slice_len (n0 x) s0) (slice_len (n1 x) s1)
      (slice_len (n2 x) s2) (slice_len (n3 x) s3)
      (fun b c r w =>
         at4 x (slice_src (n0 x) s0 b) (slice_src (n1 x) s1 c)
           (slice_src (n2 x) s2 r) (slice_src (n3 x) s3 w)).

  (** [x[s0, s1, s2, s3, s4]] on a rank-5 tensor. *)
Definition getitem5 (x : tensor5 A) (s0 s1 s2 s3 s4 : pyslice) : tensor5 A :=
    Tensor5 (slice_len (m0 x) s0) (slice_len (m1 x) s1) (slice_len (m2 x) s2)
      (slice_len (m3 x) s3) (slice_len (m4 x) s4)
      (fun b c r w f =>
         at5 x (slice_src (m0 x) s0 b) (slice_src (m1 x) s1 c)
           (slice_src (m2 x) s2 r) (slice_src (m3 x) s3 w)
           (slice_src (m4 x) s4 f)).

  (** A rank-3 tensor. *)
Record tensor3 : Type := Tensor3 {
    j0 : Z; j1 : Z; j2 : Z;
    at3 : Z -> Z -> Z -> A
  }.

Definition shape3 (x : tensor3) : list Z := [j0 x; j1 x; j2 x].

  (** An integer index [i] on one axis of a rank-4 tensor, as in
      [x[:, :, 0]] or [x[:, :, :, -1]]: the axis disappears; an index outside
      the axis is an error. *)
Definition index4 (x : tensor4 A) (axis : Z) (i : Z) : result tensor3 :=
    let len := nth (Z.to_nat axis) (shape4 x) 0 in
    let i' := norm_axis len i in
    if (0 <=? i') && (i' <? len) then
      match axis with
      | 0 => Ok (Tensor3 (n1 x) (n2 x) (n3 x) (fun c r w => at4 x i' c r w))
      | 1 => Ok (Tensor3 (n0 x) (n2 x) (n3 x) (fun b r w => at4 x b i' r w))
      | 2 => Ok (Tensor3 (n0 x) (n1 x) (n3 x) (fun b c w => at4 x b c i' w))
      | 3 => Ok (Tensor3 (n0 x) (n1 x) (n2 x) (fun b c r => at4 x b c r i'))
      | _ => Raise IndexError
      end
    else Raise IndexError.

  (** [K.stack(xs, axis)] on rank-3 tensors: a new axis of length [len(xs)]
      at position [axis]; the tensors must have one shape. *)
Definition K_stack (xs : list (result tensor3)) (axis : Z) : result (tensor4 A) :=
    ts <- sequence xs ;;
    match ts with
    | [] => Raise (ValueError "need at least one tensor to stack")
    | t :: rest =>
        if negb (forallb (fun u => agree (-1) (shape3 t) (shape3 u)) rest) then
          Raise InvalidArgument
        else
          let n := Z.of_nat (List.length ts) in
          let pick k := nth (Z.to_nat k) ts t in
          match norm_axis 4 axis with
          | 0 => Ok (Tensor4 n (j0 t) (j1 t) (j2 t) (fun k a b c => at3 (pick k) a b c))
          | 1 => Ok (Tensor4 (j0 t) n (j1 t) (j2 t) (fun a k b c => at3 (pick k) a b c))
          | 2 => Ok (Tensor4 (j0 t) (j1 t) n (j2 t) (fun a b k c => at3 (pick k) a b c))
          | 3 => Ok (Tensor4 (j0 t) (j1 t) (j2 t) n (fun a b c k => at3 (pick k) a b c))
          | _ => Raise InvalidArgument
          end
    end.

  (** An integer index on one axis of a rank-5 tensor. *)
Definition index5 (x : tensor5 A) (axis : Z) (i : Z) : result (tensor4 A) :=
    let len := nth (Z.to_nat axis) (shape5 x) 0 in
    let i' := norm_axis len i in
    if (0 <=? i') && (i' <? len) then
      match axis with
      | 0 => Ok (Tensor4 (m1 x) (m2 x) (m3 x) (m4 x) (fun c r w f => at5 x i' c r w f))
      | 1 => Ok (Tensor4 (m0 x) (m2 x) (m3 x) (m4 x) (fun b r w f => at5 x b i' r w f))
      | 2 => Ok (Tensor4 (m0 x) (m1 x) (m3 x) (m4 x) (fun b c w f => at5 x b c i' w f))
      | 3 => Ok (Tensor4 (m0 x) (m1 x) (m2 x) (m4 x) (fun b c r f => at5 x b c r i' f))
      | 4 => Ok (Tensor4 (m0 x) (m1 x) (m2 x) (m3 x) (fun b c r w => at5 x b c r w i'))
      | _ => Raise IndexError
      end
    else Raise IndexError.

  (** [K.stack(xs, axis)] on rank-4 tensors. *)
Definition K_stack5 (xs : list (result (tensor4 A))) (axis : Z)
    : result (tensor5 A) :=
    ts <- sequence xs ;;
    match ts with
    | [] => Raise (ValueError "need at least one tensor to stack")
    | t :: rest =>
        if negb (forallb (fun u => agree (-1) (shape4 t) (shape4 u)) rest) then
          Raise InvalidArgument
        else
          let n := Z.of_nat (List.length ts) in
          let pick k := nth (Z.to_nat k) ts t in
          match norm_axis 5 axis with
          | 0 => Ok (Tensor5 n (n0 t) (n1 t) (n2 t) (n3 t)
                       (fun k a b c d => at4 (pick k) a b c d))
          | 1 => Ok (Tensor5 (n0 t) n (n1 t) (n2 t) (n3 t)
                       (fun a k b c d => at4 (pick k) a b c d))
          | 2 => Ok (Tensor5 (n0 t) (n1 t) n (n2 t) (n3 t)
                       (fun a b k c d => at4 (pick k) a b c d))
          | 3 => Ok (Tensor5 (n0 t) (n1 t) (n2 t) n (n3 t)
                       (fun a b c k d => at4 (pick k) a b c d))
          | 4 => Ok (Tensor5 (n0 t) (n1 t) (n2 t) (n3 t) n
                       (fun a b c d k => at4 (pick k) a b c d))
          | _ => Raise InvalidArgument
          end
    end.

  (** [[x] * n] *)
Definition times {X : Type} (x : X) (n : Z) : list X := repeat x (Z.to_nat n).

End MoreTensorOps.

Arguments tensor3 A : clear implicits.

(** ** The periodic and fill padding layers *)

(** The attributes that [ZeroPadding2D.__init__] and [ZeroPadding3D.__init__]
    of Keras leave on a padding layer: one (low, high) pair per padded axis,
    and the normalised data format. *)
Record padding_layer : Type := {
  pl_padding : list (Z * Z);
  pl_data_format : string
}.

(** [self.padding[i][0]] and [self.padding[i][1]] *)
Definition padding_low (self : padding_layer) (i : Z) : result Z :=
  p <- list_item (pl_padding self) i ;; Ok (fst p).

Definition padding_high (self : padding_layer) (i : Z) : result Z :=
  p <- list_item (pl_padding self) i ;; Ok (snd p).

Module PeriodicPadding2D.
Section Call.

Context {A : Type}.

Definition call (self : padding_layer) (inputs : tensor4 A) : result (tensor4 A) :=
    let shape := shape4 inputs in
    if (pl_data_format self =? "channels_first")%string then
      s2 <- list_item shape 2 ;; t <- padding_low self 0 ;;
      let top_slice := Range (s2 - t) s2 in
      b <- padding_high self 0 ;;
      let bottom_slice := Range 0 b in
      s3 <- list_item shape 3 ;; l <- padding_low self 1 ;;
      let left_slice := Range (s3 - l) s3 in
      r <- padding_high self 1 ;;
      let right_slice := Range 0 r in
      (* Pad the horizontal *)
      outputs <- K_concatenate [Ok (getitem4 inputs All All All left_slice);
                                Ok inputs;
                                Ok (getitem4 inputs All All All right_slice)] 3 ;;
      (* Pad the vertical *)
      K_concatenate [Ok (getitem4 outputs All All top_slice All);
                     Ok outputs;
                     Ok (getitem4 outputs All All bottom_slice All)] 2
    else
      s1 <- list_item shape 1 ;; t <- padding_low self 0 ;;
      let top_slice := Range (s1 - t) s1 in
      b <- padding_high self 0 ;;
      let bottom_slice := Range 0 b in
      s2 <- list_item shape 2 ;; l <- padding_low self 1 ;;
      let left_slice := Range (s2 - l) s2 in
      r <- padding_high self 1 ;;
      let right_slice := Range 0 r in
      (* Pad the horizontal *)
      outputs <- K_concatenate [Ok (getitem4 inputs All All left_slice All);
                                Ok inputs;
                                Ok (getitem4 inputs All All right_slice All)] 2 ;;
      (* Pad the vertical *)
      K_concatenate [Ok (getitem4 outputs All top_slice All All);
                     Ok outputs;
                     Ok (getitem4 outputs All bottom_slice All All)] 1.

End Call.
End PeriodicPadding2D.

Module PeriodicPadding3D.
Section Call.

Context {A : Type}.

Definition call (self : padding_layer) (inputs : tensor5 A) : result (tensor5 A) :=
    let shape := shape5 inputs in
    if (pl_data_format self =? "channels_first")%string then
      s2 <- list_item shape 2 ;; lo <- padding_low self 0 ;;
      let low_slice := Range (s2 - lo) s2 in
      hi <- padding_high self 0 ;;
      let high_slice := Range 0 hi in
      s3 <- list_item shape 3 ;; t <- padding_low self 1 ;;
      let top_slice := Range (s3 - t) s3 in
      b <- padding_high self 1 ;;
      let bottom_slice := Range 0 b in
      s4 <- list_item shape 4 ;; l <- padding_low self 2 ;;
      let left_slice := Range (s4 - l) s4 in
      r <- padding_high self 2 ;;
      let right_slice := Range 0 r in
      (* Pad the horizontal *)
      outputs <- K_concatenate5 [Ok (getitem5 inputs All All All All left_slice);
                                 Ok inputs;
                                 Ok (getitem5 inputs All All All All right_slice)] 4 ;;
      (* Pad the vertical *)
      outputs <- K_concatenate5 [Ok (getitem5 outputs All All All top_slice All);
                                 Ok outputs;
                                 Ok (getitem5 outputs All All All bottom_slice All)] 3 ;;
      (* Pad the depth *)
      K_concatenate5 [Ok (getitem5 outputs All All low_slice All All);
                      Ok outputs;
                      Ok (getitem5 outputs All All high_slice All All)] 2
    else
      s1 <- list_item shape 1 ;; lo <- padding_low self 0 ;;
      let low_slice := Range (s1 - lo) s1 in
      hi <- padding_high self 0 ;;
      let high_slice := Range 0 hi in
      s2 <- list_item shape 2 ;; t <- padding_low self 1 ;;
      let top_slice := Range (s2 - t) s2 in
      b <- padding_high self 1 ;;
      let bottom_slice := Range 0 b in
      s3 <- list_item shape 3 ;; l <- padding_low self 2 ;;
      let left_slice := Range (s3 - l) s3 in
      r <- padding_high self 2 ;;
      let right_slice := Range 0 r in
      (* Pad the horizontal *)
      outputs <- K_concatenate5 [Ok (getitem5 inputs All All All left_slice All);
                                 Ok inputs;
                                 Ok (getitem5 inputs All All All right_slice All)] 3 ;;
      (* Pad the vertical *)
      outputs <- K_concatenate5 [Ok (getitem5 outputs All All top_slice All All);
                                 Ok outputs;
                                 Ok (getitem5 outputs All All bottom_slice All All)] 2 ;;
      (* Pad the depth *)
      K_concatenate5 [Ok (getitem5 outputs All low_slice All All All);
                      Ok outputs;
                      Ok (getitem5 outputs All high_slice All All All)] 1.

End Call.
End PeriodicPadding3D.

Module FillPadding2D.
Section Call.

Context {A : Type}.

Definition call (self : padding_layer) (inputs : tensor4 A) : result (tensor4 A) :=
    if (pl_data_format self =? "channels_first")%string then
      (* Pad the vertical *)
      top_slice <-
        (n <- padding_low self 0 ;;
         if 0 <? n then K_stack (times (index4 inputs 2 0) n) 2
         else Ok (getitem4 inputs All All (Range 0 0) All)) ;;
      bottom_slice <-
        (n <- padding_high self 0 ;;
         if 0 <? n then K_stack (times (index4 inputs 2 (-1)) n) 2
         else Ok (getitem4 inputs All All (Range 0 0) All)) ;;
      outputs <- K_concatenate [Ok top_slice; Ok inputs; Ok bottom_slice] 2 ;;
      (* Pad the horizontal *)
      left_slice <-
        (n <- padding_low self 1 ;;
         if 0 <? n then K_stack (times (index4 outputs 3 0) n) 3
         else Ok (getitem4 outputs All All All (Range 0 0))) ;;
      right_slice <-
        (n <- padding_high self 1 ;;
         if 0 <? n then K_stack (times (index4 outputs 3 (-1)) n) 3
         else Ok (getitem4 outputs All All All (Range 0 0))) ;;
      K_concatenate [Ok left_slice; Ok outputs; Ok right_slice] 3
    else
      (* Pad the vertical *)
      top_slice <-
        (n <- padding_low self 0 ;;
         if 0 <? n then K_stack (times (index4 inputs 1 0) n) 1
         else Ok (getitem4 inputs All (Range 0 0) All All)) ;;
      bottom_slice <-
        (n <- padding_high self 0 ;;
         if 0 <? n then K_stack (times (index4 inputs 1 (-1)) n) 1
         else Ok (getitem4 inputs All (Range 0 0) All All)) ;;
      outputs <- K_concatenate [Ok top_slice; Ok inputs; Ok bottom_slice] 1 ;;
      (* Pad the horizontal *)
      left_slice <-
        (n <- padding_low self 1 ;;
         if 0 <? n then K_stack (times (index4 outputs 2 0) n) 2
         else Ok (getitem4 outputs All All (Range 0 0) All)) ;;
      right_slice <-
        (n <- padding_high self 1 ;;
         if 0 <? n then K_stack (times (index4 outputs 2 (-1)) n) 2
         else Ok (getitem4 outputs All All (Range 0 0) All)) ;;
      K_concatenate [Ok left_slice; Ok outputs; Ok right_slice] 2.

End Call.
End FillPadding2D.

Module FillPadding3D.
Section Call.

Context {A : Type}.

Definition call (self : padding_layer) (inputs : tensor5 A) : result (tensor5 A) :=
    if (pl_data_format self =? "channels_first")%string then
      (* Pad the depth *)
      low_slice <-
        (n <- padding_low self 0 ;;
         if 0 <? n then K_stack5 (times (index5 inputs 2 0) n) 2
         else Ok (getitem5 inputs All All (Range 0 0) All All)) ;;
      high_slice <-
        (n <- padding_high self 0 ;;
         if 0 <? n then K_stack5 (times (index5 inputs 2 (-1)) n) 2
         else Ok (getitem5 inputs All All (Range 0 0) All All)) ;;
      outputs <- K_concatenate5 [Ok low_slice; Ok inputs; Ok high_slice] 2 ;;
      (* Pad the vertical *)
      top_slice <-
        (n <- padding_low self 1 ;;
         if 0 <? n then K_stack5 (times (index5 outputs 3 0) n) 3
         else Ok (getitem5 outputs All All All (Range 0 0) All)) ;;
      bottom_slice <-
        (n <- padding_high self 1 ;;
         if 0 <? n then K_stack5 (times (index5 outputs 3 (-1)) n) 3
         else Ok (getitem5 outputs All All All (Range 0 0) All)) ;;
      outputs <- K_concatenate5 [Ok top_slice; Ok outputs; Ok bottom_slice] 3 ;;
      (* Pad the horizontal *)
      left_slice <-
        (n <- padding_low self 2 ;;
         if 0 <? n then K_stack5 (times (index5 outputs 4 0) n) 4
         else Ok (getitem5 outputs All All All All (Range 0 0))) ;;
      right_slice <-
        (n <- padding_high self 2 ;;
         if 0 <? n then K_stack5 (times (index5 outputs 4 (-1)) n) 4
         else Ok (getitem5 outputs All All All All (Range 0 0))) ;;
      K_concatenate5 [Ok left_slice; Ok outputs; Ok right_slice] 4
    else
      (* Pad the depth *)
      low_slice <-
        (n <- padding_low self 0 ;;
         if 0 <? n then K_stack5 (times (index5 inputs 1 0) n) 1
         else Ok (getitem5 inputs All (Range 0 0) All All All)) ;;
      high_slice <-
        (n <- padding_high self 0 ;;
         if 0 <? n then K_stack5 (times (index5 inputs 1 (-1)) n) 1
         else Ok (getitem5 inputs All (Range 0 0) All All All)) ;;
      outputs <- K_concatenate5 [Ok low_slice; Ok inputs; Ok high_slice] 1 ;;
      (* Pad the vertical *)
      top_slice <-
        (n <- padding_low self 1 ;;
         if 0 <? n then K_stack5 (times (index5 outputs 2 0) n) 2
         else Ok (getitem5 outputs All All (Range 0 0) All All)) ;;
      bottom_slice <-
        (n <- padding_high self 1 ;;
         if 0 <? n then K_stack5 (times (index5 outputs 2 (-1)) n) 2
         else Ok (getitem5 outputs All All (Range 0 0) All All)) ;;
      outputs <- K_concatenate5 [Ok top_slice; Ok outputs; Ok bottom_slice] 2 ;;
      (* Pad the horizontal *)
      left_slice <-
        (n <- padding_low self 2 ;;
         if 0 <? n then K_stack5 (times (index5 outputs 3 0) n) 3
         else Ok (getitem5 outputs All All All (Range 0 0) All)) ;;
      right_slice <-
        (n <- padding_high self 2 ;;
         if 0 <? n then K_stack5 (times (index5 outputs 3 (-1)) n) 3
         else Ok (getitem5 outputs All All All (Range 0 0) All)) ;;
      K_concatenate5 [Ok left_slice; Ok outputs; Ok right_slice] 3.

End Call.
End FillPadding3D.

(** The nearest position inside an axis of length [n]. *)
Definition nearest (n i : Z) : Z := Z.min (Z.max i 0) (n - 1).

(** Example data for the padding layers: a 2 x 3 image whose cells spell
    out their position. *)
Definition image_2x3 : tensor4 Z :=
  Tensor4 1 1 2 3 (fun _ _ r w => 10 * r + w).

Definition padding_2d (t b l r : Z) (data_format : string) : padding_layer :=
  {| pl_padding := [(t, b); (l, r)]; pl_data_format := data_format |}.

Definition volume_2x2x3 : tensor5 Z :=
  Tensor5 1 1 2 2 3 (fun _ _ k r w => 100 * k + 10 * r + w).

Definition padding_3d (lo hi t b l r : Z) (data_format : string) : padding_layer :=
  {| pl_padding := [(lo, hi); (t, b); (l, r)]; pl_data_format := data_format |}.

(** The first six faces of cubed-sphere data. *)
Definition six_faces {A : Type} (T : tensor5 A) : tensor5 A :=
  Tensor5 (m0 T) (m1 T) (m2 T) (m3 T) 6 (at5 T).

(** ** Python dictionaries and lists as the callbacks use them *)

(** A dictionary with string keys, in insertion order. *)
Definition pydict (V : Type) : Type := list (string * V).

(** [d.get(k)] *)
Fixpoint dict_get {V : Type} (k : string) (d : pydict V) : option V :=
  match d with
  | [] => None
  | (k', v) :: d' => if (k' =? k)%string then Some v else dict_get k d'
  end.

(** [d.setdefault(k, []).append(v)]: the list under [k] grows by [v]; a key
    that is not there yet is added at the end with the list [[v]]. *)
Fixpoint setdefault_append {V : Type} (k : string) (v : V) (d : pydict (list V))
  : pydict (list V) :=
  match d with
  | [] => [(k, [v])]
  | (k', l) :: d' =>
      if (k' =? k)%string then (k', l ++ [v]) :: d'
      else (k', l) :: setdefault_append k v d'
  end.

(** The list [l] after its item [i] was replaced by [x] ([i] as [list_item]
    accepts it). *)
Definition list_replace {X : Type} (l : list X) (i : Z) (x : X) : list X :=
  let i' := Z.to_nat (norm_axis (Z.of_nat (List.length l)) i) in
  (firstn i' l ++ x :: skipn (S i') l)%list.

(** [logs or {}] *)
Definition logs_or_empty {V : Type} (logs : option (pydict V)) : pydict V :=
  match logs with
  | Some l => l
  | None => []
  end.

(** ** [BatchHistory] *)

Module BatchHistory.
Section Callback.

Context {V : Type}.

Record callback : Type := {
    history : list (pydict (list V));
    epoch : Z
  }.

Definition on_train_begin (self : callback) : callback :=
    {| history := []; epoch := 0 |}.

Definition on_epoch_begin (self : callback) : callback :=
    {| history := (history self ++ [[]])%list; epoch := epoch self |}.

Definition on_epoch_end (self : callback) : callback :=
    {| history := history self; epoch := epoch self + 1 |}.

Definition on_batch_end (self : callback) (logs : option (pydict V))
    : result callback :=
    let logs := logs_or_empty logs in
    fold_left
      (fun acc kv =>
         self <- acc ;;
         d <- list_item (history self) (epoch self) ;;
         Ok {| history := list_replace (history self) (epoch self)
                            (setdefault_append (fst kv) (snd kv) d);
               epoch := epoch self |})
      logs (Ok self).

End Callback.
Arguments callback V : clear implicits.
End BatchHistory.

(** ** [RunHistory] *)

Module RunHistory.
Section Callback.

Context {V : Type}.

  (** The callback with the calls it has made to [run.log], oldest first. *)
Record callback : Type := {
    epoch : list Z;
    history : pydict (list V);
    run_log : list (string * V)
  }.

Definition on_train_begin (self : callback) : callback :=
    {| epoch := []; history := []; run_log := run_log self |}.

Definition on_epoch_end (self : callback) (epoch_ : Z) (logs : option (pydict V))
    : callback :=
    let logs := logs_or_empty logs in
    fold_left
      (fun self kv =>
         {| epoch := epoch self;
            history := setdefault_append (fst kv) (snd kv) (history self);
            run_log := (run_log self ++ [(fst kv, snd kv)])%list |})
      logs
      {| epoch := (epoch self ++ [epoch_])%list;
         history := history self;
         run_log := run_log self |}.

End Callback.
Arguments callback V : clear implicits.
End RunHistory.

(** ** [EarlyStoppingMin] *)

Module EarlyStoppingMin.
Section Callback.

  (** [V] is the type of the monitored value, [W] that of the weights of
      the model; [sub] is the subtraction of monitored values. *)
Context {V W : Type}.
Variable sub : V -> V -> V.

  (** The attributes that [on_epoch_end] uses: those of the base class
      [EarlyStopping] of Keras and the two of this class. *)
Record callback : Type := {
    monitor : string;
    min_delta : V;
    patience : Z;
    verbose : Z;
    restore_best_weights : bool;
    monitor_op : V -> V -> bool;
    best : V;
    wait : Z;
    stopped_epoch : Z;
    best_weights : option W;
    min_epochs : Z;
    max_epochs : option Z
  }.

  (** What the callback does to the model and to the console. *)
Inductive event : Type :=
  | Print (msg : string)
  | StopTraining
  | SetWeights (weights : option W).

  (** [self.get_monitor_value(logs)] of Keras: the entry of the monitored
      quantity in the dictionary of the metrics of the epoch, [None] when it
      is missing. *)
Definition get_monitor_value (self : callback) (logs : pydict V) : option V :=
    dict_get (monitor self) logs.

Definition improved (self : callback) (current : V) (weights : W) : callback :=
    {| monitor := monitor self; min_delta := min_delta self;
       patience := patience self; verbose := verbose self;
       restore_best_weights := restore_best_weights self;
       monitor_op := monitor_op self;
       best := current;
       wait := 0;
       stopped_epoch := stopped_epoch self;
       best_weights :=
         if restore_best_weights self then Some weights else best_weights self;
       min_epochs := min_epochs self; max_epochs := max_epochs self |}.

Definition waited (self : callback) : callback :=
    {| monitor := monitor self; min_delta := min_delta self;
       patience := patience self; verbose := verbose self;
       restore_best_weights := restore_best_weights self;
       monitor_op := monitor_op self;
       best := best self;
       wait := wait self + 1;
       stopped_epoch := stopped_epoch self;
       best_weights := best_weights self;
       min_epochs := min_epochs self; max_epochs := max_epochs self |}.

Definition stopped (self : callback) (epoch : Z) : callback :=
    {| monitor := monitor self; min_delta := min_delta self;
       patience := patience self; verbose := verbose self;
       restore_best_weights := restore_best_weights self;
       monitor_op := monitor_op self;
       best := best self;
       wait := wait self;
       stopped_epoch := epoch;
       best_weights := best_weights self;
       min_epochs := min_epochs self; max_epochs := max_epochs self |}.

  (** [self.model.stop_training = True] and the restoring of the weights
      that follows it in both places. *)
Definition stop_events (self : callback) (msg : string) : list event :=
    StopTraining ::
    (if restore_best_weights self then
       ((if 0 <? verbose self then [Print msg] else []) ++
        [SetWeights (best_weights self)])%list
     else []).

  (** [on_epoch_end(epoch, logs)], with the dictionary [logs] that Keras
      passes; [weights] is what [self.model.get_weights()] returns at this
      moment. *)
Definition on_epoch_end (self : callback) (epoch : Z) (logs : pydict V)
      (weights : W) : callback * list event :=
    if epoch <? min_epochs self then (self, [])
    else
      match get_monitor_value self logs with
      | None => (self, [])
      | Some current =>
          let '(self, events) :=
            if monitor_op self (sub current (min_delta self)) (best self) then
              (improved self current weights, [])
            else
              let self := waited self in
              if patience self <=? wait self then
                (stopped self epoch,
                 stop_events self
                   "Restoring model weights from the end of the best epoch")
              else (self, []) in
          match max_epochs self with
          | Some m =>
              if m <=? epoch then
                (stopped self epoch,
                 (events ++
                  stop_events self
                    "Maximum epochs reached; restoring model weights from the end of the best epoch")%list)
              else (self, events)
          | None => (self, events)
          end
      end.

  (** The calls that a training of several epochs makes: [on_epoch_end] for
      the epochs [epoch], [epoch + 1], ... with the logs and the weights of
      each, the events of all calls in order. *)
Fixpoint on_epochs (self : callback) (epoch : Z)
      (calls : list (pydict V * W)) : callback * list (list event) :=
    match calls with
    | [] => (self, [])
    | (logs, weights) :: rest =>
        let '(self, events) := on_epoch_end self epoch logs weights in
        let '(self, later) := on_epochs self (epoch + 1) rest in
        (self, events :: later)
    end.

End Callback.
Arguments callback V W : clear implicits.
Arguments event W : clear implicits.
End EarlyStoppingMin.

(** ** The calls that Keras makes to the history callbacks *)

(** The values that one [logs] dictionary holds under [k] (none or one). *)
Definition values_of {V : Type} (k : string) (logs : pydict V) : list V :=
  map snd (filter (fun kv => (fst kv =? k)%string) logs).

(** The values logged under [k] by a sequence of [logs], oldest first. *)
Definition series {V : Type} (k : string) (batches : list (option (pydict V)))
  : list V :=
  flat_map (fun logs => values_of k (logs_or_empty logs)) batches.

(** The entry of a history dictionary that holds [vs]: no entry when
    nothing was logged. *)
Definition entry {V : Type} (vs : list V) : option (list V) :=
  match vs with
  | [] => None
  | _ => Some vs
  end.

(** One epoch with the given batches: [on_epoch_begin], [on_batch_end] for
    every batch, [on_epoch_end]. *)
Definition batch_history_epoch {V : Type} (self : BatchHistory.callback V)
    (batches : list (option (pydict V))) : result (BatchHistory.callback V) :=
  self <- fold_left (fun acc logs => s <- acc ;; BatchHistory.on_batch_end s logs)
            batches (Ok (BatchHistory.on_epoch_begin self)) ;;
  Ok (BatchHistory.on_epoch_end self).

(** A training: [on_train_begin], then the epochs in turn. *)
Definition batch_history_train {V : Type} (self : BatchHistory.callback V)
    (epochs : list (list (option (pydict V)))) : result (BatchHistory.callback V) :=
  fold_left (fun acc batches => s <- acc ;; batch_history_epoch s batches)
    epochs (Ok (BatchHistory.on_train_begin self)).

(** A training as [RunHistory] sees it: [on_train_begin], then
    [on_epoch_end] with the number and the logs of every epoch. *)
Definition run_history_train {V : Type} (self : RunHistory.callback V)
    (epochs : list (Z * option (pydict V))) : RunHistory.callback V :=
  fold_left (fun s c => RunHistory.on_epoch_end s (fst c) (snd c))
    epochs (RunHistory.on_train_begin self).

(** The entry [o] of a history dictionary after the values [vs] were
    appended to it. *)
Definition grow {V : Type} (o : option (list V)) (vs : list V) : option (list V) :=
  match vs with
  | [] => o
  | _ => Some (match o with Some l => l | None => [] end ++ vs)%list
  end.

(** Example: a callback that watches [val_loss] for a decrease, with a
    patience of two epochs, from the first epoch on. *)
Definition early_stopping_example : EarlyStoppingMin.callback Z Z :=
  {| EarlyStoppingMin.monitor := "val_loss";
     EarlyStoppingMin.min_delta := 0;
     EarlyStoppingMin.patience := 2;
     EarlyStoppingMin.verbose := 0;
     EarlyStoppingMin.restore_best_weights := true;
     EarlyStoppingMin.monitor_op := Z.ltb;
     EarlyStoppingMin.best := 5;
     EarlyStoppingMin.wait := 0;
     EarlyStoppingMin.stopped_epoch := 0;
     EarlyStoppingMin.best_weights := None;
     EarlyStoppingMin.min_epochs := 1;
     EarlyStoppingMin.max_epochs := Some 10 |}.

Definition early_stopping_calls : list (pydict Z * Z) :=
  [([("loss", 3); ("val_loss", 7)], 101); ([("val_loss", 6)], 102)].

(** ** [row_conv2d] *)

(** [a, b = l]: unpacking a sequence of exactly two items. *)
Definition unpack2 {X : Type} (l : list X) : result (X * X) :=
  match l with
  | [a; b] => Ok (a, b)
  | [] | [_] => Raise (ValueError "not enough values to unpack (expected 2)")
  | _ => Raise (ValueError "too many values to unpack (expected 2)")
  end.

Section RowConv.

Context {A : Type} `{Scalar A}.

  (** [kernel] has the axes (output row, kernel row, kernel column, input
      channel, filter); [kernel[i]] is the kernel of output row [i]. *)
Definition row_conv2d (image_data_format : string) (inputs : tensor4 A)
      (kernel : tensor5 A) (kernel_size strides output_shape : list Z)
      (data_format : option string) : result (tensor4 A) :=
    data_format <- K_normalize_data_format image_data_format data_format ;;
    st <- unpack2 strides ;;
    let stride_row := fst st in
    let stride_col := snd st in
    os <- unpack2 output_shape ;;
    let output_row := fst os in
    let out :=
      map (fun i =>
             (* Slice the rows with the neighbors they need *)
             k0 <- list_item kernel_size 0 ;;
             let slice_row := Range (i * stride_row) (i * stride_col + k0) in
             let x :=
               if (data_format =? channels_first)%string
               then getitem4 inputs All All slice_row All
               else getitem4 inputs All slice_row All All in
             (* Convolve, resulting in an array with only one row *)
             ki <- index5 kernel 0 i ;;
             K_conv2d (Ok x) (Some ki) strides "valid" data_format [1; 1])
          (zrange output_row) in
    if (data_format =? channels_first)%string
    then K_concatenate out 2
    else K_concatenate out 1.

End RowConv.

(** Example data for [row_conv2d]: a 4 x 2 image of one channel and a
    kernel of three output rows, window 2 x 1, whose weights are 1 for the
    first output row, 10 for the second and 100 for the third. *)
Definition rows_image : tensor4 Z :=
  Tensor4 1 1 4 2 (fun _ _ r w => 10 * r + w + 1).

Definition rows_kernel : tensor5 Z :=
  Tensor5 3 2 1 1 1 (fun i _ _ _ _ => 10 ^ i).

(** ** Comparing tensors cell by cell *)

(** Two rank-4 tensors of one shape that agree on every cell inside it. *)
Definition same_cells4 {A : Type} (x y : tensor4 A) : Prop :=
  shape4 x = shape4 y /\
  forall b c r w,
    0 <= b < n0 x -> 0 <= c < n1 x -> 0 <= r < n2 x -> 0 <= w < n3 x ->
    at4 x b c r w = at4 y b c r w.

(** Two outcomes that are the same error, or tensors with the same cells. *)
Definition same_result4 {A : Type} (m m' : result (tensor4 A)) : Prop :=
  match m, m' with
  | Ok y, Ok y' => same_cells4 y y'
  | Raise e, Raise e' => e = e'
  | _, _ => False
  end.

(** [example_input] with every face but face 2 blanked. *)
Definition example_input_face2 : tensor5 Z :=
  Tensor5 1 1 2 2 6 (fun _ _ r w f => if f =? 2 then 1 + 2 * r + w else 0).

(** Cubed-sphere data whose north face is the south face turned upside
    down. *)
Definition mirrored_poles : tensor5 Z :=
  Tensor5 1 1 2 2 6
    (fun _ _ r w f => if f =? 5 then 1 + 2 * (1 - r) + w else 1 + 2 * r + w).
(** ** Slice arithmetic *)

Lemma slice_len_all len : 0 <= len -> slice_len len All = len.
Proof. unfold slice_len, slice_stop, slice_start. lia. Qed.

Lemma slice_len_rev len : slice_len len Rev = len.
Proof. reflexivity. Qed.

Lemma slice_len_last len p : 1 <= p <= len -> slice_len len (From (- p)) = p.
Proof. unfold slice_len, slice_stop, slice_start, clamp. intros. destruct (Z.ltb_spec (- p) 0); lia. Qed.

Lemma slice_len_first len p : 0 <= p <= len -> slice_len len (To p) = p.
Proof. unfold slice_len, slice_stop, slice_start, clamp. intros. destruct (Z.ltb_spec p 0); lia. Qed.

Lemma slice_src_all len i : slice_src len All i = i.
Proof. reflexivity. Qed.

Lemma slice_src_rev len i : slice_src len Rev i = len - 1 - i.
Proof. reflexivity. Qed.

Lemma slice_src_last len p i : 1 <= p <= len -> slice_src len (From (- p)) i = len - p + i.
Proof. unfold slice_src, slice_start, clamp. intros. destruct (Z.ltb_spec (- p) 0); lia. Qed.

Lemma slice_src_first len p i : slice_src len (To p) i = i.
Proof. reflexivity. Qed.

Lemma slice_len_range len a b :
  0 <= a <= b -> b <= len -> slice_len len (Range a b) = b - a.
Proof.
  unfold slice_len, slice_stop, slice_start, clamp. intros.
  destruct (Z.ltb_spec a 0), (Z.ltb_spec b 0); lia.
Qed.

Lemma slice_len_range_neg len p :
  1 <= p -> 2 * p <= len -> slice_len len (Range (-2 * p) (- p)) = p.
Proof.
  unfold slice_len, slice_stop, slice_start, clamp. intros.
  destruct (Z.ltb_spec (-2 * p) 0), (Z.ltb_spec (- p) 0); lia.
Qed.

Lemma slice_src_range len a b i :
  0 <= a <= len -> slice_src len (Range a b) i = a + i.
Proof.
  unfold slice_src, slice_start, clamp. intros.
  destruct (Z.ltb_spec a 0); lia.
Qed.

Lemma slice_src_range_neg len p b i :
  1 <= p -> 2 * p <= len -> slice_src len (Range (-2 * p) b) i = len - 2 * p + i.
Proof.
  unfold slice_src, slice_start, clamp. intros.
  destruct (Z.ltb_spec (-2 * p) 0); lia.
Qed.

(** The same lengths when the slice may be clamped. *)

Lemma slice_len_last_min len p :
  1 <= p -> 0 <= len -> slice_len len (From (- p)) = Z.min p len.
Proof.
  unfold slice_len, slice_stop, slice_start, clamp. intros.
  destruct (Z.ltb_spec (- p) 0); lia.
Qed.

Lemma slice_len_first_min len p :
  0 <= p -> 0 <= len -> slice_len len (To p) = Z.min p len.
Proof.
  unfold slice_len, slice_stop, slice_start, clamp. intros.
  destruct (Z.ltb_spec p 0); lia.
Qed.

Lemma slice_len_range_min len a b :
  0 <= a <= b -> 0 <= len -> slice_len len (Range a b) = Z.min b len - Z.min a len.
Proof.
  unfold slice_len, slice_stop, slice_start, clamp. intros.
  destruct (Z.ltb_spec a 0), (Z.ltb_spec b 0); lia.
Qed.

Lemma slice_len_range_neg_min len p :
  1 <= p -> 0 <= len ->
  slice_len len (Range (-2 * p) (- p)) = Z.max (len - p) 0 - Z.max (len - 2 * p) 0.
Proof.
  unfold slice_len, slice_stop, slice_start, clamp. intros.
  destruct (Z.ltb_spec (-2 * p) 0), (Z.ltb_spec (- p) 0); lia.
Qed.

Lemma slice_len_last_clamped len p :
  1 <= p -> 0 <= len <= p -> slice_len len (From (- p)) = len.
Proof. intros. rewrite slice_len_last_min by lia. lia. Qed.

Lemma slice_len_first_clamped len p :
  0 <= len <= p -> slice_len len (To p) = len.
Proof. intros. rewrite slice_len_first_min by lia. lia. Qed.

Lemma slice_len_from_zero len : 0 <= len -> slice_len len (From 0) = len.
Proof. unfold slice_len, slice_stop, slice_start, clamp. cbn. lia. Qed.

(** ** Evaluation of the backend operations on well-shaped arguments *)

Section BackendEval.
Context {A : Type}.
Implicit Types (x y z : tensor4 A) (u v : tensor5 A).

Lemma getitem_ok u s2 s3 f :
    0 <= f < m4 u ->
    getitem u s2 s3 f =
    Ok (Tensor4 (m0 u) (m1 u) (slice_len (m2 u) s2) (slice_len (m3 u) s3)
          (fun b c r w => at5 u b c (slice_src (m2 u) s2 r) (slice_src (m3 u) s3 w) f)).
  Proof.
    intros Hf. unfold getitem, norm_axis.
    destruct (Z.ltb_spec f 0); [lia|].
    destruct (Z.leb_spec 0 f); [|lia].
    destruct (Z.ltb_spec f (m4 u)); [reflexivity|lia].
  Qed.

Lemma getitem_out_of_range u s2 s3 f :
    m4 u <= f -> 0 <= f -> getitem u s2 s3 f = Raise IndexError.
  Proof.
    intros Hf H0. unfold getitem, norm_axis.
    destruct (Z.ltb_spec f 0); [lia|].
    destruct (Z.ltb_spec f (m4 u)); [lia|]. now rewrite andb_false_r.
  Qed.

Lemma K_reverse_rows x :
    K_reverse (Ok x) 2 =
    Ok (Tensor4 (n0 x) (n1 x) (n2 x) (n3 x) (fun b c r w => at4 x b c (n2 x - 1 - r) w)).
  Proof. reflexivity. Qed.

Lemma K_reverse_cols x :
    K_reverse (Ok x) 3 =
    Ok (Tensor4 (n0 x) (n1 x) (n2 x) (n3 x) (fun b c r w => at4 x b c r (n3 x - 1 - w))).
  Proof. reflexivity. Qed.

Lemma tf_transpose_tr x :
    tf_transpose (Ok x) CubeSpherePadding2D.tr =
    Ok (Tensor4 (n0 x) (n1 x) (n3 x) (n2 x) (fun b c r w => at4 x b c w r)).
  Proof. reflexivity. Qed.

Lemma K_expand_dims_last x :
    K_expand_dims (Ok x) (-1) =
    Ok (Tensor5 (n0 x) (n1 x) (n2 x) (n3 x) 1 (fun b c r w _ => at4 x b c r w)).
  Proof. reflexivity. Qed.

Lemma concat4_rows x y :
    concat4 2 x y =
    if (n0 x =? n0 y) && (n1 x =? n1 y) && (n3 x =? n3 y)
    then Ok (cat4 2 x y) else Raise InvalidArgument.
  Proof.
    unfold concat4, agree. cbn.
    destruct (n0 x =? n0 y), (n1 x =? n1 y), (n3 x =? n3 y); reflexivity.
  Qed.

Lemma concat4_cols x y :
    concat4 3 x y =
    if (n0 x =? n0 y) && (n1 x =? n1 y) && (n2 x =? n2 y)
    then Ok (cat4 3 x y) else Raise InvalidArgument.
  Proof.
    unfold concat4, agree. cbn.
    destruct (n0 x =? n0 y), (n1 x =? n1 y), (n2 x =? n2 y); reflexivity.
  Qed.

Lemma concat5_faces u v :
    concat5 (-1) u v =
    if (m0 u =? m0 v) && (m1 u =? m1 v) && (m2 u =? m2 v) && (m3 u =? m3 v)
    then Ok (cat5 4 u v) else Raise InvalidArgument.
  Proof.
    unfold concat5, agree. cbn.
    destruct (m0 u =? m0 v), (m1 u =? m1 v), (m2 u =? m2 v), (m3 u =? m3 v); reflexivity.
  Qed.

Lemma K_expand_dims_raise e axis :
    K_expand_dims (A:=A) (Raise e) axis = Raise e.
  Proof. reflexivity. Qed.

Lemma tf_transpose_raise e perm :
    tf_transpose (A:=A) (Raise e) perm = Raise e.
  Proof. reflexivity. Qed.

Lemma K_reverse_raise e axis :
    K_reverse (A:=A) (Raise e) axis = Raise e.
  Proof. reflexivity. Qed.

Lemma K_concatenate_rows3 x y z :
    K_concatenate [Ok x; Ok y; Ok z] 2 = (a <- concat4 2 x y ;; concat4 2 a z).
  Proof. reflexivity. Qed.

Lemma K_concatenate_cols3 x y z :
    K_concatenate [Ok x; Ok y; Ok z] 3 = (a <- concat4 3 x y ;; concat4 3 a z).
  Proof. reflexivity. Qed.

Lemma K_concatenate5_faces6 u0 u1 u2 u3 u4 u5 :
    K_concatenate5 [Ok u0; Ok u1; Ok u2; Ok u3; Ok u4; Ok u5] (-1) =
    (a <- concat5 (-1) u0 u1 ;; a <- concat5 (-1) a u2 ;; a <- concat5 (-1) a u3 ;;
     a <- concat5 (-1) a u4 ;; concat5 (-1) a u5).
  Proof.
    unfold K_concatenate5. cbn [sequence bind fold_left].
    destruct (concat5 (-1) u0 u1) as [a1|]; cbn [bind]; [|reflexivity].
    destruct (concat5 (-1) a1 u2) as [a2|]; cbn [bind]; [|reflexivity].
    destruct (concat5 (-1) a2 u3) as [a3|]; cbn [bind]; [|reflexivity].
    destruct (concat5 (-1) a3 u4) as [a4|]; cbn [bind]; reflexivity.
  Qed.

Lemma shape5_inv u a0 a1 a2 a3 a4 :
    shape5 u = [a0; a1; a2; a3; a4] ->
    u = Tensor5 a0 a1 a2 a3 a4 (at5 u).
  Proof.
    destruct u as [b0 b1 b2 b3 b4 g]. unfold shape5. cbn [m0 m1 m2 m3 m4 at5].
    intros E. injection E as E0 E1 E2 E3 E4. now subst.
  Qed.

Lemma bind_Ok {X Y : Type} (a : X) (k : X -> result Y) : bind (Ok a) k = k a.
  Proof. reflexivity. Qed.

Lemma if_true_eq {X : Type} (c : bool) (a b : X) : c = true -> (if c then a else b) = a.
  Proof. now intros ->. Qed.

Lemma if_false_eq {X : Type} (c : bool) (a b : X) : c = false -> (if c then a else b) = b.
  Proof. now intros ->. Qed.

End BackendEval.

(** Tactics: [fields] exposes the shape and index function of the tensors
    built by the backend, [zif] decides the comparisons of an index
    computation from the hypotheses. *)
Ltac fields :=
  cbn [n0 n1 n2 n3 at4 m0 m1 m2 m3 m4 at5 cat4 cat5 shape4 shape5 bind
       fst snd face_index].

Ltac slices :=
  rewrite ?slice_len_all, ?slice_len_rev, ?slice_len_last, ?slice_len_first,
    ?slice_len_range, ?slice_len_range_neg by lia.

Ltac shape_ok :=
  fields; slices;
  rewrite ?andb_true_iff; repeat split; apply Z.eqb_eq; lia.

Ltac slices_min :=
  change (- 0) with 0;
  rewrite ?slice_len_all, ?slice_len_rev, ?slice_len_from_zero, ?slice_len_last_min,
    ?slice_len_first_min, ?slice_len_range_min, ?slice_len_range_neg_min by lia.

Ltac eval_ops :=
  first [ rewrite getitem_ok by (fields; lia)
        | rewrite K_reverse_rows
        | rewrite K_reverse_cols
        | rewrite tf_transpose_tr
        | rewrite K_concatenate_rows3
        | rewrite K_concatenate_cols3
        | rewrite K_expand_dims_last
        | rewrite K_expand_dims_raise
        | rewrite tf_transpose_raise
        | rewrite K_reverse_raise
        | rewrite K_concatenate5_faces6
        | rewrite concat4_rows
        | rewrite concat4_cols
        | rewrite concat5_faces ].

Ltac decide_shapes :=
  repeat match goal with
         | |- context [?a =? ?b] =>
             first [ rewrite (proj2 (Z.eqb_eq a b)) by lia
                   | rewrite (proj2 (Z.eqb_neq a b)) by lia ]
         end;
  cbn [andb bind].

Ltac eval_step := eval_ops; fields; slices; decide_shapes.

Ltac eval_step_min := eval_ops; fields; slices_min; decide_shapes.

Ltac slices_clamped :=
  rewrite ?slice_len_all, ?slice_len_rev, ?slice_len_last_clamped,
    ?slice_len_first_clamped, ?slice_len_range_min, ?slice_len_range_neg_min by lia.

Ltac eval_step_clamped := eval_ops; fields; slices_clamped; decide_shapes.

Ltac zif :=
  repeat match goal with
  | |- context [if ?a <? ?b then _ else _] =>
      first [ rewrite (@if_true_eq _ (a <? b)) by (apply Z.ltb_lt; lia)
            | rewrite (@if_false_eq _ (a <? b)) by (apply Z.ltb_ge; lia) ]
  | |- context [if ?a <=? ?b then _ else _] =>
      first [ rewrite (@if_true_eq _ (a <=? b)) by (apply Z.leb_le; lia)
            | rewrite (@if_false_eq _ (a <=? b)) by (apply Z.leb_gt; lia) ]
  end.

Ltac zcase :=
  zif;
  repeat (match goal with
          | |- context [if ?a <? ?b then _ else _] => destruct (Z.ltb_spec a b)
          | |- context [if ?a <=? ?b then _ else _] => destruct (Z.leb_spec a b)
          end; zif).

Ltac srcs :=
  rewrite ?slice_src_all, ?slice_src_rev, ?slice_src_first;
  rewrite ?slice_src_last, ?slice_src_range, ?slice_src_range_neg by lia.

Section PaddingProofs.
Context {A : Type}.
Implicit Types T : tensor5 A.

Lemma height_pass_spec p N B C T :
    1 <= p <= N ->
    shape5 T = [B; C; N; N; 6] ->
    exists out1,
      CubeSpherePadding2D.height_pass p T = Ok out1 /\
      shape5 out1 = [B; C; N + 2 * p; N; 6] /\
      forall f b c r w,
        0 <= r < N + 2 * p -> 0 <= w < N ->
        at5 out1 b c r w (face_index f) = at_pos T b c (hop_h N (f, (r - p, w))).
  Proof.
    intros Hp Hs. rewrite (shape5_inv Hs). generalize (at5 T) as g. intros g.
    unfold CubeSpherePadding2D.height_pass, ellipsis.
    repeat eval_step.
    eexists; split; [reflexivity|]. split; [unfold shape5; fields; repeat (f_equal; try lia)|].
    intros f b c r w Hr Hw.
    destruct f; fields; unfold at_pos, hop_h, cross; cbn [neighbor coord shift fst snd face_index];
      zcase; fields; srcs; f_equal; lia.
  Qed.

Lemma pad_unfold p T :
    pad p T =
    (out1 <- CubeSpherePadding2D.height_pass p T ;; CubeSpherePadding2D.width_pass p out1).
  Proof.
    unfold pad, CubeSpherePadding2D.init.
    change (K_normalize_data_format channels_last (Some channels_first))
      with (Ok (X:=string) channels_first).
    cbn [bind]. change (negb (channels_first =? channels_first)%string) with false.
    cbn [CubeSpherePadding2D.ZeroPadding3D_init bind].
    change (K_normalize_data_format channels_last (Some channels_first))
      with (Ok (X:=string) channels_first).
    cbn [bind CubeSpherePadding2D.padding].
    change (list_item [(p, p); (p, p); (p, p)] 0) with (Ok (p, p)).
    change (list_item [(p, p); (p, p); (p, p)] 1) with (Ok (p, p)).
    cbn [bind]. unfold CubeSpherePadding2D.pair_eqb. cbn [fst snd].
    rewrite Z.eqb_refl. cbn [andb negb].
    unfold CubeSpherePadding2D.call. cbn [CubeSpherePadding2D.padding].
    reflexivity.
  Qed.

Lemma pad_trace p N B C T :
    1 <= p <= N ->
    shape5 T = [B; C; N; N; 6] ->
    exists out,
      pad p T = Ok out /\
      shape5 out = [B; C; N + 2 * p; N + 2 * p; 6] /\
      forall f b c r w,
        0 <= r < N + 2 * p -> 0 <= w < N + 2 * p ->
        at5 out b c r w (face_index f) =
        at_pos T b c (trace_wf N (f, (r - p, w - p))).
  Proof.
    intros Hp Hs.
    destruct (height_pass_spec Hp Hs) as (out1 & E1 & S1 & P1).
    rewrite pad_unfold, E1. cbn [bind].
    assert (P1' : forall k b c r w, 0 <= k < 6 -> 0 <= r < N + 2 * p -> 0 <= w < N ->
              at5 out1 b c r w k = at_pos T b c (hop_h N (face_of k, (r - p, w)))).
    { intros k b c r w Hk Hr Hw. rewrite <- P1 by assumption. f_equal.
      assert (k = 0 \/ k = 1 \/ k = 2 \/ k = 3 \/ k = 4 \/ k = 5) as HK by lia.
      destruct HK as [->|[->|[->|[->|[->| ->]]]]]; reflexivity. }
    clear P1 E1.
    rewrite (shape5_inv S1). revert P1'. generalize (at5 out1) as g. intros g P1'.
    unfold CubeSpherePadding2D.width_pass, ellipsis.
    repeat eval_step.
    eexists; split; [reflexivity|]. split; [unfold shape5; fields; repeat (f_equal; try lia)|].
    intros f b c r w Hr Hw.
    destruct f; fields; srcs; zcase; srcs; rewrite P1' by lia;
      unfold at_pos, trace_wf, hop_w, cross; cbn [neighbor coord shift face_of]; zcase;
      unfold hop_h, cross; cbn [neighbor coord shift]; zcase;
      cbn [fst snd face_index]; f_equal; lia.
  Qed.
End PaddingProofs.


(** ** Traces over the adjacency table *)

Ltac traces :=
  unfold trace_wf, trace_hf;
  repeat (unfold hop_w, hop_h, cross; cbn [neighbor coord shift]; zcase).

Lemma in_face_true N f r w :
  in_face N (f, (r, w)) = true <-> 0 <= r < N /\ 0 <= w < N.
Proof.
  unfold in_face. cbn [fst snd].
  rewrite !andb_true_iff, !Z.leb_le, !Z.ltb_lt. lia.
Qed.

Lemma in_face_false N f r w :
  in_face N (f, (r, w)) = false <-> ~ (0 <= r < N /\ 0 <= w < N).
Proof.
  rewrite <- (in_face_true N f r w).
  destruct (in_face N (f, (r, w))); split; intros; congruence.
Qed.

Lemma trace_wf_in_face p N f r w :
  1 <= p <= N -> 0 <= r < N + 2 * p -> 0 <= w < N + 2 * p ->
  in_face N (trace_wf N (f, (r - p, w - p))) = true.
Proof.
  intros Hp Hr Hw. destruct f; traces; apply in_face_true; lia.
Qed.

Lemma inverse_undoes t N rc :
  coord t N (coord (inverse t) N rc) = rc /\ coord (inverse t) N (coord t N rc) = rc.
Proof.
  destruct rc as [r c]. destruct t; cbn [coord inverse]; split; f_equal; lia.
Qed.

Section PaddingClaims.
Context {A : Type}.
Implicit Types T : tensor5 A.

Lemma pad_shape p N B C T :
    1 <= p <= N ->
    shape5 T = [B; C; N; N; 6] ->
    exists out, pad p T = Ok out /\ shape5 out = [B; C; N + 2 * p; N + 2 * p; 6].
  Proof.
    intros Hp Hs. destruct (pad_trace Hp Hs) as (out & E & S & _). eauto.
  Qed.

  (** The halo beyond one edge is the neighbour of [neighbor], laid next to
      the face after its reorientation. *)
Lemma pad_edge_halo p N B C T :
    1 <= p <= N ->
    shape5 T = [B; C; N; N; 6] ->
    exists out,
      pad p T = Ok out /\
      forall f e b c r w,
        0 <= r < N + 2 * p -> 0 <= w < N + 2 * p ->
        is_corner N p r w = false ->
        edge_of N p r w = Some e ->
        at5 out b c r w (face_index f) = at_pos T b c (cross N f e (r - p, w - p)).
  Proof.
    intros Hp Hs. destruct (pad_trace Hp Hs) as (out & E & _ & P).
    exists out. split; [exact E|].
    intros f e b c r w Hr Hw Hc He. rewrite P by assumption. f_equal.
    unfold is_corner in Hc. unfold edge_of in He.
    rewrite andb_false_iff, !orb_false_iff, !Z.ltb_ge, !Z.leb_gt in Hc.
    revert He. zcase; intros He; try discriminate; injection He as <-;
      destruct f; traces; try lia; reflexivity.
  Qed.

Lemma pad_zero_raises N B C T :
    1 <= N ->
    shape5 T = [B; C; N; N; 6] ->
    pad 0 T = Raise InvalidArgument.
  Proof.
    intros HN Hs. rewrite pad_unfold, (shape5_inv Hs). generalize (at5 T) as g. intros g.
    unfold CubeSpherePadding2D.height_pass, ellipsis.
    repeat eval_step_min. reflexivity.
  Qed.

Lemma pad_not_square_raises p H W B C T :
    0 <= W -> H <> W ->
    shape5 T = [B; C; H; W; 6] ->
    pad p T = Raise InvalidArgument.
  Proof.
    intros HW Hne Hs. rewrite pad_unfold, (shape5_inv Hs). generalize (at5 T) as g. intros g.
    unfold CubeSpherePadding2D.height_pass, ellipsis.
    rewrite !getitem_ok by (fields; lia).
    rewrite !K_reverse_rows, !K_reverse_cols, !tf_transpose_tr, !K_concatenate_rows3.
    rewrite !concat4_rows. fields. rewrite !slice_len_all, !slice_len_rev by lia.
    rewrite !Z.eqb_refl. cbn [andb bind].
    rewrite (proj2 (Z.eqb_neq H W)) by lia. rewrite ?andb_false_r. cbn [bind].
    rewrite concat4_rows. fields. rewrite !Z.eqb_refl. cbn [andb].
    rewrite K_expand_dims_last, K_expand_dims_raise.
    unfold K_concatenate5. cbn [sequence bind]. reflexivity.
  Qed.

Lemma pad_too_deep_raises p N B C T :
    1 <= N -> N < p -> p <> 2 * N ->
    shape5 T = [B; C; N; N; 6] ->
    pad p T = Raise InvalidArgument.
  Proof.
    intros HN Hp Hne Hs. rewrite pad_unfold, (shape5_inv Hs). generalize (at5 T) as g. intros g.
    unfold CubeSpherePadding2D.height_pass, ellipsis.
    repeat eval_step_clamped.
    match goal with
    | |- context [Tensor5 _ _ _ _ _ ?h] => generalize h; intros g1
    end.
    unfold CubeSpherePadding2D.width_pass, ellipsis.
    repeat eval_step_clamped. reflexivity.
  Qed.

Lemma pad_double_depth p N B C T :
    1 <= N -> p = 2 * N ->
    shape5 T = [B; C; N; N; 6] ->
    exists out, pad p T = Ok out /\ shape5 out = [B; C; 3 * N; 3 * N; 6].
  Proof.
    intros HN Hp Hs. rewrite pad_unfold, (shape5_inv Hs). generalize (at5 T) as g. intros g.
    unfold CubeSpherePadding2D.height_pass, ellipsis.
    repeat eval_step_clamped.
    match goal with
    | |- context [Tensor5 _ _ _ _ _ ?h] => generalize h; intros g1
    end.
    unfold CubeSpherePadding2D.width_pass, ellipsis.
    repeat eval_step_clamped.
    eexists; split; [reflexivity|]. unfold shape5; fields. repeat (f_equal; try lia).
  Qed.

  (** C1.  When every face [i] is filled with one value [v i], then after
      [pad(T, 1)] every halo cell of every face holds the value of the face
      that [neighbor] gives for the side on which the cell lies (a corner cell
      being counted with its row). *)
Theorem halo_constant_faces (v : face -> A) N B C T :
    1 <= N ->
    shape5 T = [B; C; N; N; 6] ->
    (forall f b c r w,
        0 <= b < B -> 0 <= c < C -> 0 <= r < N -> 0 <= w < N ->
        at5 T b c r w (face_index f) = v f) ->
    exists out,
      pad 1 T = Ok out /\
      forall f e b c r w,
        0 <= b < B -> 0 <= c < C -> 0 <= r < N + 2 -> 0 <= w < N + 2 ->
        edge_of N 1 r w = Some e ->
        at5 out b c r w (face_index f) = v (neighbor_face f e).
  Proof.
    intros HN Hs Hv.
    destruct (@pad_trace A 1 N B C T ltac:(lia) Hs) as (out & E & _ & P).
    exists out. split; [exact E|].
    intros f e b c r w Hb Hc Hr Hw He.
    rewrite P by lia.
    pose proof (@trace_wf_in_face 1 N f r w ltac:(lia) ltac:(lia) ltac:(lia)) as Hin.
    destruct (trace_wf N (f, (r - 1, w - 1))) as [g [r' w']] eqn:Et.
    apply in_face_true in Hin. unfold at_pos. cbn [fst snd].
    rewrite Hv by lia. f_equal.
    change g with (fst (g, (r', w'))). rewrite <- Et. clear Et Hin.
    unfold edge_of in He. unfold neighbor_face. revert He.
    zcase; intros He; try discriminate; injection He as <-;
      destruct f; traces; try lia; reflexivity.
  Qed.

  (** C3 (as amended).  Each corner halo cell of the padded tensor holds the
      stored cell reached by a two-hop trace over [neighbor] that crosses the
      left or right edge first; that trace needs both hops, and the trace that
      crosses the top or bottom edge first ends on another face. *)
Theorem corner_halo_width_first p N B C T :
    1 <= p <= N ->
    shape5 T = [B; C; N; N; 6] ->
    exists out,
      pad p T = Ok out /\
      forall f b c r w,
        0 <= r < N + 2 * p -> 0 <= w < N + 2 * p ->
        is_corner N p r w = true ->
        at5 out b c r w (face_index f) = at_pos T b c (trace_wf N (f, (r - p, w - p))) /\
        in_face N (hop_w N (f, (r - p, w - p))) = false /\
        in_face N (trace_wf N (f, (r - p, w - p))) = true /\
        in_face N (trace_hf N (f, (r - p, w - p))) = true /\
        fst (trace_hf N (f, (r - p, w - p))) <> fst (trace_wf N (f, (r - p, w - p))).
  Proof.
    intros Hp Hs. destruct (pad_trace Hp Hs) as (out & E & _ & P).
    exists out. split; [exact E|].
    intros f b c r w Hr Hw Hc.
    split; [apply P; assumption|].
    unfold is_corner in Hc.
    rewrite andb_true_iff, !orb_true_iff, !Z.ltb_lt, !Z.leb_le in Hc.
    destruct f; (repeat split);
      traces; try lia;
      first [ apply in_face_true; lia | apply in_face_false; lia | discriminate ].
  Qed.

End PaddingClaims.

Lemma beyond_edge_of N p e r c :
  1 <= p <= N -> beyond N p e (r, c) = true ->
  0 <= r + p < N + 2 * p /\ 0 <= c + p < N + 2 * p /\
  is_corner N p (r + p) (c + p) = false /\ edge_of N p (r + p) (c + p) = Some e.
Proof.
  intros Hp Hb. unfold beyond in Hb.
  destruct e; rewrite !andb_true_iff, !Z.leb_le, !Z.ltb_lt in Hb;
    (split; [lia|]); (split; [lia|]); split;
    try (unfold is_corner; apply andb_false_iff;
         rewrite !orb_false_iff, !Z.ltb_ge, !Z.leb_gt; lia);
    unfold edge_of; zif; reflexivity.
Qed.

(** C2.  The adjacency that the padder realises is symmetric under the
    inverse transform.  For every face [f] and edge [e], with
    [neighbor f e = (g, e2, t)]:
    - the table has [neighbor g e2 = (f, e, inverse t)];
    - the padder realises the entry: the halo that [pad] puts beyond edge [e]
      of [f] holds the cells of [g] that lie along its edge [e2], each read
      at the position that [t] gives;
    - the padder realises the reverse entry: the halo beyond edge [e2] of [g]
      holds the cells of [f] that lie along its edge [e], read through
      [inverse t];
    - the two readings undo each other, and [inverse t] undoes [t]. *)
Theorem neighbor_symmetric {A : Type} p N B C (T : tensor5 A) :
  1 <= p <= N ->
  shape5 T = [B; C; N; N; 6] ->
  exists out,
    pad p T = Ok out /\
    forall f e,
      let '(g, e2, t) := neighbor f e in
      neighbor g e2 = (f, e, inverse t) /\
      (forall b c rc,
         beyond N p e rc = true ->
         along N p e2 (coord t N (shift e N rc)) = true /\
         at5 out b c (fst rc + p) (snd rc + p) (face_index f)
         = at_pos T b c (g, coord t N (shift e N rc))) /\
      (forall b c rc,
         beyond N p e2 rc = true ->
         along N p e (coord (inverse t) N (shift e2 N rc)) = true /\
         at5 out b c (fst rc + p) (snd rc + p) (face_index g)
         = at_pos T b c (f, coord (inverse t) N (shift e2 N rc))) /\
      (forall rc,
         coord (inverse t) N (shift e2 N (coord t N (shift e N rc))) = rc /\
         coord t N (shift e N (coord (inverse t) N (shift e2 N rc))) = rc /\
         coord t N (coord (inverse t) N rc) = rc).
Proof.
  intros Hp Hs. destruct (pad_edge_halo Hp Hs) as (out & E & Hhalo).
  exists out. split; [exact E|].
  assert (Hread : forall f e b c rc,
            beyond N p e rc = true ->
            at5 out b c (fst rc + p) (snd rc + p) (face_index f)
            = at_pos T b c (cross N f e rc)).
  { intros f e b c [r w] Hb. cbn [fst snd].
    destruct (@beyond_edge_of N p e r w Hp Hb) as (Hr & Hw & Hc & He).
    rewrite (Hhalo f e b c (r + p) (w + p) Hr Hw Hc He).
    f_equal. f_equal. f_equal; lia. }
  intros f e.
  destruct (neighbor f e) as [[g e2] t] eqn:En.
  assert (Hsym : neighbor g e2 = (f, e, inverse t))
    by (destruct f, e; cbn [neighbor] in En; injection En as <- <- <-; reflexivity).
  split; [exact Hsym|]. split; [|split].
  - intros b c rc Hb. split.
    + destruct rc as [r w]. unfold beyond in Hb. unfold along.
      destruct f, e; cbn [neighbor] in En; injection En as <- <- <-;
        cbn [shift coord]; rewrite !andb_true_iff, !Z.leb_le, !Z.ltb_lt in *; lia.
    + rewrite (Hread f e b c rc Hb). unfold cross. now rewrite En.
  - intros b c rc Hb. split.
    + destruct rc as [r w]. unfold beyond in Hb. unfold along.
      destruct f, e; cbn [neighbor] in En; injection En as <- <- <-;
        cbn [shift coord inverse]; rewrite !andb_true_iff, !Z.leb_le, !Z.ltb_lt in *; lia.
    + rewrite (Hread g e2 b c rc Hb). unfold cross. now rewrite Hsym.
  - intros [r w].
    destruct f, e; cbn [neighbor] in En; injection En as <- <- <-;
      cbn [shift coord inverse]; repeat split; f_equal; lia.
Qed.

Lemma neighbor_symmetric_witness :
  exists out,
    pad 1 (cell_named 2) = Ok out /\
    forall f e,
      let '(g, e2, t) := neighbor f e in
      neighbor g e2 = (f, e, inverse t) /\
      (forall b c rc,
         beyond 2 1 e rc = true ->
         along 2 1 e2 (coord t 2 (shift e 2 rc)) = true /\
         at5 out b c (fst rc + 1) (snd rc + 1) (face_index f)
         = at_pos (cell_named 2) b c (g, coord t 2 (shift e 2 rc))) /\
      (forall b c rc,
         beyond 2 1 e2 rc = true ->
         along 2 1 e (coord (inverse t) 2 (shift e2 2 rc)) = true /\
         at5 out b c (fst rc + 1) (snd rc + 1) (face_index g)
         = at_pos (cell_named 2) b c (f, coord (inverse t) 2 (shift e2 2 rc))) /\
      (forall rc,
         coord (inverse t) 2 (shift e2 2 (coord t 2 (shift e 2 rc))) = rc /\
         coord t 2 (shift e 2 (coord (inverse t) 2 (shift e2 2 rc))) = rc /\
         coord t 2 (coord (inverse t) 2 rc) = rc).
Proof.
  apply (@neighbor_symmetric Z 1 2 1 1 (cell_named 2)); [lia | reflexivity].
Defined.

(** ** Failure modes of the padder *)

Lemma returned_ok {X : Type} (d : X) (m : result X) :
  is_ok m = true -> m = Ok (returned d m).
Proof. destruct m; [reflexivity|discriminate]. Qed.

(** C3 (claim as stated, refuted).  On the cube of 1 x 1 faces filled with
    their own index, the top-left corner of padded face 0 holds 4, the value
    of the trace that crosses the left edge first, while the trace that
    crosses the top edge first reads 3. *)
Lemma corner_height_first_differs :
  exists out,
    pad 1 (face_filled 1) = Ok out /\
    at5 out 0 0 0 0 (face_index F0) = 4 /\
    at_pos (face_filled 1) 0 0 (trace_wf 1 (F0, (0 - 1, 0 - 1))) = 4 /\
    at_pos (face_filled 1) 0 0 (trace_hf 1 (F0, (0 - 1, 0 - 1))) = 3 /\
    at5 out 0 0 0 0 (face_index F0)
      <> at_pos (face_filled 1) 0 0 (trace_hf 1 (F0, (0 - 1, 0 - 1))).
Proof.
  destruct (@pad_trace Z 1 1 1 1 (face_filled 1) ltac:(lia) eq_refl) as (out & E & _ & P).
  exists out. split; [exact E|].
  rewrite (P F0 0 0 0 0) by lia.
  repeat split; try (vm_compute; reflexivity). vm_compute. discriminate.
Qed.

Lemma corner_halo_width_first_witness :
  exists out,
    pad 1 (cell_named 2) = Ok out /\
    forall f b c r w,
      0 <= r < 2 + 2 * 1 -> 0 <= w < 2 + 2 * 1 ->
      is_corner 2 1 r w = true ->
      at5 out b c r w (face_index f)
        = at_pos (cell_named 2) b c (trace_wf 2 (f, (r - 1, w - 1))) /\
      in_face 2 (hop_w 2 (f, (r - 1, w - 1))) = false /\
      in_face 2 (trace_wf 2 (f, (r - 1, w - 1))) = true /\
      in_face 2 (trace_hf 2 (f, (r - 1, w - 1))) = true /\
      fst (trace_hf 2 (f, (r - 1, w - 1))) <> fst (trace_wf 2 (f, (r - 1, w - 1))).
Proof.
  apply (@corner_halo_width_first Z 1 2 1 1 (cell_named 2)); [lia | reflexivity].
Defined.

Lemma halo_constant_faces_witness :
  exists out,
    pad 1 (face_filled 3) = Ok out /\
    forall f e b c r w,
      0 <= b < 1 -> 0 <= c < 1 -> 0 <= r < 3 + 2 -> 0 <= w < 3 + 2 ->
      edge_of 3 1 r w = Some e ->
      at5 out b c r w (face_index f) = face_index (neighbor_face f e).
Proof.
  apply (@halo_constant_faces Z face_index 3 1 1 (face_filled 3));
    [lia | reflexivity | reflexivity].
Defined.

(** C4 (the code at the failing input).  With a halo width of 0 the padder
    does not return its input: on 2 x 2 faces the call is rejected by the
    shape check of the concatenation, because [-p:] at [p = 0] selects the
    whole axis. *)
Theorem pad_zero_not_identity :
  pad 0 (face_filled 2) = Raise InvalidArgument.
Proof. apply (@pad_zero_raises Z 2 1 1); [lia | reflexivity]. Qed.

(** C5 (claim as stated, refuted).  A halo of width 2 on 1 x 1 faces is
    deeper than the face, yet the call returns a tensor, of face shape
    3 x 3. *)
Lemma pad_double_depth_accepted :
  exists out, pad 2 (face_filled 1) = Ok out /\ shape5 out = [1; 1; 3; 3; 6].
Proof. exact (@pad_double_depth Z 2 1 1 1 (face_filled 1) ltac:(lia) eq_refl eq_refl). Qed.

(** C5 (as amended).  The call raises [InvalidArgument], and so returns no
    tensor at all, whenever the faces are not square, and whenever the halo
    is deeper than a square face of side at least 1 unless it is exactly
    twice as deep. *)
Theorem pad_rejects (A : Type) p H W B C (T : tensor5 A) :
  shape5 T = [B; C; H; W; 6] ->
  0 <= W ->
  H <> W \/ (1 <= H /\ H < p /\ p <> 2 * H) ->
  pad p T = Raise InvalidArgument.
Proof.
  intros Hs HW Hc.
  destruct (Z.eq_dec H W) as [->|Hne].
  - destruct Hc as [Hc|(H1 & H2 & H3)]; [congruence|].
    now apply (pad_too_deep_raises H1 H2 H3 Hs).
  - now apply (pad_not_square_raises p HW Hne Hs).
Qed.

Lemma pad_rejects_witness :
  pad 3 (face_filled 1) = Raise InvalidArgument
  /\ pad 1 (Tensor5 1 1 2 3 6 (fun _ _ _ _ f => f)) = Raise InvalidArgument.
Proof.
  split.
  - apply (@pad_rejects Z 3 1 1 1 1 (face_filled 1)); [reflexivity | lia | right; lia].
  - apply (@pad_rejects Z 1 2 3 1 1); [reflexivity | lia | left; lia].
Defined.

(** ** The constructor of the padder *)

Lemma normalize_data_format_raises cfg v e :
  K_normalize_data_format cfg v = Raise e -> exists msg, e = ValueError msg.
Proof.
  unfold K_normalize_data_format.
  destruct (negb _); intros E; [|discriminate].
  injection E as <-. eauto.
Qed.

Lemma normalize_data_format_fixed cfg d :
  K_normalize_data_format cfg (Some channels_first) = Ok d -> d = channels_first.
Proof. intros E. vm_compute in E. now injection E as <-. Qed.

Lemma pair_eqb_eq x y : CubeSpherePadding2D.pair_eqb x y = true <-> x = y.
Proof.
  destruct x as [a b], y as [c d]. unfold CubeSpherePadding2D.pair_eqb. cbn [fst snd].
  rewrite andb_true_iff, !Z.eqb_eq. split; [intros [-> ->]; reflexivity|].
  intros E. injection E as -> ->. auto.
Qed.

Lemma list_item_0 {X : Type} (a : X) l : list_item (a :: l) 0 = Ok a.
Proof. reflexivity. Qed.

Lemma list_item_1 {X : Type} (a b : X) l : list_item (a :: b :: l) 1 = Ok b.
Proof. reflexivity. Qed.

Lemma ZeroPadding3D_three cfg arg df s0 :
  CubeSpherePadding2D.ZeroPadding3D_init cfg arg df = Ok s0 ->
  exists a b c, CubeSpherePadding2D.padding s0 = [a; b; c].
Proof.
  unfold CubeSpherePadding2D.ZeroPadding3D_init.
  destruct arg as [p|l].
  - cbn [bind]. destruct (K_normalize_data_format cfg df); cbn [bind]; [|discriminate].
    intros E. injection E as <-. cbn. eauto.
  - destruct (negb _); cbn [bind]; [discriminate|].
    destruct (v <- list_item l 0 ;; _) as [d1|]; cbn [bind]; [|discriminate].
    destruct (v <- list_item l 1 ;; _) as [d2|]; cbn [bind]; [|discriminate].
    destruct (v <- list_item l 2 ;; _) as [d3|]; cbn [bind]; [|discriminate].
    destruct (K_normalize_data_format cfg df); cbn [bind]; [|discriminate].
    intros E. injection E as <-. cbn. eauto.
Qed.

Section SixFaces.
Context {A : Type}.

Lemma concat5_faces_m4 (u v w : tensor5 A) :
    concat5 (-1) u v = Ok w -> m4 w = m4 u + m4 v.
  Proof.
    rewrite concat5_faces. destruct (_ && _); intros E; [|discriminate].
    injection E as <-. reflexivity.
  Qed.

Lemma K_expand_dims_last_m4 (r : result (tensor4 A)) u :
    K_expand_dims r (-1) = Ok u -> m4 u = 1.
  Proof.
    destruct r as [x|e]; [|discriminate].
    rewrite K_expand_dims_last. intros E. injection E as <-. reflexivity.
  Qed.

Lemma K_concatenate5_six (o0 o1 o2 o3 o4 o5 : result (tensor5 A)) out :
    (forall o u, In o [o0; o1; o2; o3; o4; o5] -> o = Ok u -> m4 u = 1) ->
    K_concatenate5 [o0; o1; o2; o3; o4; o5] (-1) = Ok out ->
    m4 out = 6.
  Proof.
    intros Hone.
    destruct o0 as [u0|]; [|discriminate].
    destruct o1 as [u1|]; [|discriminate].
    destruct o2 as [u2|]; [|discriminate].
    destruct o3 as [u3|]; [|discriminate].
    destruct o4 as [u4|]; [|discriminate].
    destruct o5 as [u5|]; [|discriminate].
    rewrite K_concatenate5_faces6.
    destruct (concat5 (-1) u0 u1) as [a1|] eqn:E1; cbn [bind]; [|discriminate].
    destruct (concat5 (-1) a1 u2) as [a2|] eqn:E2; cbn [bind]; [|discriminate].
    destruct (concat5 (-1) a2 u3) as [a3|] eqn:E3; cbn [bind]; [|discriminate].
    destruct (concat5 (-1) a3 u4) as [a4|] eqn:E4; cbn [bind]; [|discriminate].
    intros E5.
    apply concat5_faces_m4 in E1, E2, E3, E4, E5.
    pose proof (Hone _ u0 (or_introl eq_refl) eq_refl).
    pose proof (Hone _ u1 (or_intror (or_introl eq_refl)) eq_refl).
    pose proof (Hone _ u2 (or_intror (or_intror (or_introl eq_refl))) eq_refl).
    pose proof (Hone _ u3 (or_intror (or_intror (or_intror (or_introl eq_refl)))) eq_refl).
    pose proof (Hone _ u4
      (or_intror (or_intror (or_intror (or_intror (or_introl eq_refl))))) eq_refl).
    pose proof (Hone _ u5
      (or_intror (or_intror (or_intror (or_intror (or_intror (or_introl eq_refl)))))) eq_refl).
    lia.
  Qed.

Lemma width_pass_six_faces p (out1 out : tensor5 A) :
    CubeSpherePadding2D.width_pass p out1 = Ok out -> m4 out = 6.
  Proof.
    unfold CubeSpherePadding2D.width_pass. cbv zeta.
    apply K_concatenate5_six.
    intros o u Hin Ho. subst o. cbn [In] in Hin.
    repeat (destruct Hin as [Hin|Hin]; [now apply K_expand_dims_last_m4 in Hin|]).
    contradiction.
  Qed.

Lemma call_six_faces self (T out : tensor5 A) :
    CubeSpherePadding2D.call self T = Ok out -> m4 out = 6.
  Proof.
    unfold CubeSpherePadding2D.call.
    destruct (list_item _ 0) as [p0|]; cbn [bind]; [|discriminate].
    destruct (CubeSpherePadding2D.height_pass (fst p0) T) as [out1|]; cbn [bind];
      [|discriminate].
    apply width_pass_six_faces.
  Qed.

End SixFaces.

(** C10.  The constructor of the padder raises a [ValueError] when the
    normalised height padding differs from the width padding or when the
    padding of the two sides of the height axis is unequal; a layer that it
    accepts has the padding [(p, p), (p, p), (0, 0)], and whatever such a
    layer returns has exactly 6 faces. *)
Theorem padding_init_checks cfg arg df :
  (forall s0 h w rest,
      CubeSpherePadding2D.ZeroPadding3D_init cfg arg (Some channels_first) = Ok s0 ->
      CubeSpherePadding2D.padding s0 = h :: w :: rest ->
      h <> w \/ fst h <> snd h ->
      exists msg, CubeSpherePadding2D.init cfg arg df = Raise (ValueError msg))
  /\
  (forall self,
      CubeSpherePadding2D.init cfg arg df = Ok self ->
      (exists p, CubeSpherePadding2D.padding self = [(p, p); (p, p); (0, 0)])
      /\ forall (A : Type) (T out : tensor5 A),
           CubeSpherePadding2D.call self T = Ok out -> m4 out = 6).
Proof.
  split.
  - intros s0 h w rest E0 Epad Hbad.
    unfold CubeSpherePadding2D.init.
    destruct (K_normalize_data_format cfg df) as [d|e] eqn:Ed; cbn [bind].
    2:{ destruct (normalize_data_format_raises _ _ Ed) as [msg ->]. eauto. }
    destruct (String.eqb_spec d channels_first) as [->|Hd]; cbn [negb]; [|eauto].
    rewrite E0. cbn [bind]. rewrite Epad, list_item_0, list_item_1. cbn [bind].
    destruct (CubeSpherePadding2D.pair_eqb h w) eqn:Ehw; cbn [negb]; [|eauto].
    apply pair_eqb_eq in Ehw. subst w.
    destruct Hbad as [Hbad|Hbad]; [congruence|].
    rewrite (proj2 (Z.eqb_neq _ _) Hbad). cbn [negb]. eauto.
  - intros self E. split; [|intros A T out; apply call_six_faces].
    revert E. unfold CubeSpherePadding2D.init.
    destruct (K_normalize_data_format cfg df) as [d|e]; cbn [bind]; [|discriminate].
    destruct (negb _); [discriminate|].
    destruct (CubeSpherePadding2D.ZeroPadding3D_init cfg arg (Some d)) as [s0|] eqn:E0;
      cbn [bind]; [|discriminate].
    destruct (ZeroPadding3D_three _ _ _ E0) as (a & b & c & Epad).
    rewrite Epad, list_item_0, list_item_1. cbn [bind].
    destruct (CubeSpherePadding2D.pair_eqb a b) eqn:Eab; cbn [negb]; [|discriminate].
    apply pair_eqb_eq in Eab. subst b.
    destruct (Z.eqb_spec (fst a) (snd a)) as [Ea|]; cbn [negb]; [|discriminate].
    intros E. injection E as <-. cbn [CubeSpherePadding2D.padding].
    exists (fst a). destruct a as [a1 a2]. cbn [fst snd] in *. subst a2. reflexivity.
Qed.

Lemma padding_init_checks_witness :
  (exists msg,
      CubeSpherePadding2D.init channels_last
        (CubeSpherePadding2D.PadTuple [PyInt 1; PyInt 2; PyInt 0]) None
      = Raise (ValueError msg))
  /\ (exists msg,
      CubeSpherePadding2D.init channels_last
        (CubeSpherePadding2D.PadTuple [PyTuple [1; 2]; PyTuple [1; 2]; PyInt 0])
        (Some channels_first)
      = Raise (ValueError msg))
  /\ (exists p,
      CubeSpherePadding2D.padding
        {| CubeSpherePadding2D.padding := [(2, 2); (2, 2); (0, 0)];
           CubeSpherePadding2D.data_format := channels_first |}
      = [(p, p); (p, p); (0, 0)]).
Proof.
  split; [|split].
  - apply (proj1 (padding_init_checks channels_last
             (CubeSpherePadding2D.PadTuple [PyInt 1; PyInt 2; PyInt 0]) None)
             {| CubeSpherePadding2D.padding := [(1, 1); (2, 2); (0, 0)];
                CubeSpherePadding2D.data_format := channels_first |}
             (1, 1) (2, 2) [(0, 0)]);
      [reflexivity | reflexivity | left; discriminate].
  - apply (proj1 (padding_init_checks channels_last
             (CubeSpherePadding2D.PadTuple [PyTuple [1; 2]; PyTuple [1; 2]; PyInt 0])
             (Some channels_first))
             {| CubeSpherePadding2D.padding := [(1, 2); (1, 2); (0, 0)];
                CubeSpherePadding2D.data_format := channels_first |}
             (1, 2) (1, 2) [(0, 0)]);
      [reflexivity | reflexivity | right; cbn; lia].
  - apply (proj2 (padding_init_checks channels_last
             (CubeSpherePadding2D.PadTuple [PyInt 2; PyInt 2; PyInt 5])
             (Some channels_first))
             {| CubeSpherePadding2D.padding := [(2, 2); (2, 2); (0, 0)];
                CubeSpherePadding2D.data_format := channels_first |}).
    reflexivity.
Defined.

(** ** The convolution layer, face by face *)

Section ConvFaces.
Context {A : Type} `{Scalar A}.
Implicit Types (self : CubeSphereConv2D.layer A) (inputs pre out : tensor5 A).

Lemma K_expand_dims_last_inv (r : result (tensor4 A)) u :
    K_expand_dims r (-1) = Ok u ->
    exists y, r = Ok y /\
      u = Tensor5 (n0 y) (n1 y) (n2 y) (n3 y) 1 (fun b c r w _ => at4 y b c r w).
  Proof.
    destruct r as [y|e]; [|discriminate].
    rewrite K_expand_dims_last. intros E. injection E as <-. eauto.
  Qed.

Lemma concat5_faces_inv (u v w : tensor5 A) :
    concat5 (-1) u v = Ok w ->
    w = cat5 4 u v /\ m0 v = m0 u /\ m1 v = m1 u /\ m2 v = m2 u /\ m3 v = m3 u.
  Proof.
    rewrite concat5_faces. destruct (_ && _) eqn:E; intros E'; [|discriminate].
    injection E' as <-. rewrite !andb_true_iff, !Z.eqb_eq in E. intuition congruence.
  Qed.

Lemma K_concatenate5_six_inv (o0 o1 o2 o3 o4 o5 : result (tensor5 A)) out :
    K_concatenate5 [o0; o1; o2; o3; o4; o5] (-1) = Ok out ->
    exists u0 u1 u2 u3 u4 u5,
      o0 = Ok u0 /\ o1 = Ok u1 /\ o2 = Ok u2 /\ o3 = Ok u3 /\ o4 = Ok u4 /\ o5 = Ok u5 /\
      out = cat5 4 (cat5 4 (cat5 4 (cat5 4 (cat5 4 u0 u1) u2) u3) u4) u5 /\
      Forall (fun u => m0 u = m0 u0 /\ m1 u = m1 u0 /\ m2 u = m2 u0 /\ m3 u = m3 u0)
        [u1; u2; u3; u4; u5].
  Proof.
    destruct o0 as [u0|]; [|discriminate].
    destruct o1 as [u1|]; [|discriminate].
    destruct o2 as [u2|]; [|discriminate].
    destruct o3 as [u3|]; [|discriminate].
    destruct o4 as [u4|]; [|discriminate].
    destruct o5 as [u5|]; [|discriminate].
    rewrite K_concatenate5_faces6.
    destruct (concat5 (-1) u0 u1) as [a1|] eqn:E1; cbn [bind]; [|discriminate].
    destruct (concat5 (-1) a1 u2) as [a2|] eqn:E2; cbn [bind]; [|discriminate].
    destruct (concat5 (-1) a2 u3) as [a3|] eqn:E3; cbn [bind]; [|discriminate].
    destruct (concat5 (-1) a3 u4) as [a4|] eqn:E4; cbn [bind]; [|discriminate].
    intros E5.
    apply concat5_faces_inv in E1, E2, E3, E4, E5.
    destruct E1 as (-> & ?), E2 as (-> & ?), E3 as (-> & ?), E4 as (-> & ?), E5 as (-> & ?).
    cbn [cat5 m0 m1 m2 m3] in *.
    exists u0, u1, u2, u3, u4, u5. repeat (split; [reflexivity|]).
    repeat constructor; intuition congruence.
  Qed.

  (** The faces that [call] joins are the per-face results, in face order. *)
Lemma call_faces self inputs :
    CubeSphereConv2D.call self inputs =
    (outputs <- K_concatenate5
       [K_expand_dims (CubeSphereConv2D.face_result self inputs 0) (-1);
        K_expand_dims (CubeSphereConv2D.face_result self inputs 1) (-1);
        K_expand_dims (CubeSphereConv2D.face_result self inputs 2) (-1);
        K_expand_dims (CubeSphereConv2D.face_result self inputs 3) (-1);
        K_expand_dims (CubeSphereConv2D.face_result self inputs 4) (-1);
        K_expand_dims (CubeSphereConv2D.face_result self inputs 5) (-1)] (-1) ;;
     Ok (CubeSphereConv2D.activation self outputs)).
  Proof.
    unfold CubeSphereConv2D.call, CubeSphereConv2D.face_result,
      CubeSphereConv2D.north_conv_height, CubeSphereConv2D.plain_conv,
      CubeSphereConv2D.north_kernel, CubeSphereConv2D.north_bias.
    cbn [map app]. 
    change (0 <? 4) with true. change (1 <? 4) with true. change (2 <? 4) with true.
    change (3 <? 4) with true. change (4 <? 4) with false. change (5 <? 4) with false.
    change (4 =? 4) with true. change (5 =? 4) with false. cbv iota.
    destruct (CubeSphereConv2D.flip_north_pole self),
      (CubeSphereConv2D.use_bias self); reflexivity.
  Qed.

Lemma call_inv self inputs out :
    CubeSphereConv2D.call self inputs = Ok out ->
    exists pre,
      out = CubeSphereConv2D.activation self pre /\
      m4 pre = 6 /\
      forall f, 0 <= f < 6 ->
        exists y,
          CubeSphereConv2D.face_result self inputs f = Ok y /\
          shape4 y = [m0 pre; m1 pre; m2 pre; m3 pre] /\
          forall b c r w, at5 pre b c r w f = at4 y b c r w.
  Proof.
    rewrite call_faces.
    destruct (K_concatenate5 _ _) as [pre|] eqn:E; cbn [bind]; [|discriminate].
    intros E'. injection E' as <-. exists pre. split; [reflexivity|].
    apply K_concatenate5_six_inv in E.
    destruct E as (u0 & u1 & u2 & u3 & u4 & u5 & E0 & E1 & E2 & E3 & E4 & E5 & -> & HF).
    apply K_expand_dims_last_inv in E0, E1, E2, E3, E4, E5.
    destruct E0 as (y0 & E0 & ->), E1 as (y1 & E1 & ->), E2 as (y2 & E2 & ->),
      E3 as (y3 & E3 & ->), E4 as (y4 & E4 & ->), E5 as (y5 & E5 & ->).
    repeat match goal with
           | HF' : Forall _ (_ :: _) |- _ => inversion HF' ; clear HF' ; subst
           end.
    cbn [m0 m1 m2 m3] in *.
    split; [reflexivity|].
    intros f Hf.
    assert (f = 0 \/ f = 1 \/ f = 2 \/ f = 3 \/ f = 4 \/ f = 5) as Hc by lia.
    destruct Hc as [->|[->|[->|[->|[->| ->]]]]];
      [exists y0 | exists y1 | exists y2 | exists y3 | exists y4 | exists y5];
      (split; [assumption|]); (split; [|reflexivity]);
      unfold shape4; cbn [cat5 m0 m1 m2 m3]; intuition congruence.
  Qed.

Lemma call_of_faces self inputs y0 y1 y2 y3 y4 y5 s :
    CubeSphereConv2D.face_result self inputs 0 = Ok y0 ->
    CubeSphereConv2D.face_result self inputs 1 = Ok y1 ->
    CubeSphereConv2D.face_result self inputs 2 = Ok y2 ->
    CubeSphereConv2D.face_result self inputs 3 = Ok y3 ->
    CubeSphereConv2D.face_result self inputs 4 = Ok y4 ->
    CubeSphereConv2D.face_result self inputs 5 = Ok y5 ->
    Forall (fun y => shape4 y = s) [y0; y1; y2; y3; y4; y5] ->
    exists pre,
      CubeSphereConv2D.call self inputs = Ok (CubeSphereConv2D.activation self pre) /\
      shape5 pre = (s ++ [6])%list.
  Proof.
    intros E0 E1 E2 E3 E4 E5 HF.
    rewrite call_faces, E0, E1, E2, E3, E4, E5.
    inversion HF as [|? ? S0 HF1]; subst.
    inversion HF1 as [|? ? S1 HF2]; subst.
    inversion HF2 as [|? ? S2 HF3]; subst.
    inversion HF3 as [|? ? S3 HF4]; subst.
    inversion HF4 as [|? ? S4 HF5]; subst.
    inversion HF5 as [|? ? S5 _]; subst.
    unfold shape4 in S1, S2, S3, S4, S5.
    injection S1 as ? ? ? ?. injection S2 as ? ? ? ?. injection S3 as ? ? ? ?.
    injection S4 as ? ? ? ?. injection S5 as ? ? ? ?.
    rewrite !K_expand_dims_last, K_concatenate5_faces6.
    repeat (rewrite concat5_faces; fields;
            repeat match goal with
                   | |- context [?a =? ?b] => rewrite (proj2 (Z.eqb_eq a b)) by congruence
                   end;
            cbn [andb bind]).
    eexists. split; [reflexivity|]. reflexivity.
  Qed.

  (** C7 (as amended).  What [call] returns is the configured activation
      applied to the joined faces; in the joined tensor each of the faces
      0-3 is exactly the plain 2D convolution of that input face alone with
      the equatorial kernel (plus the equatorial bias when [use_bias] is
      set).  When no activation is configured, the joined tensor is the
      output itself. *)
Theorem equatorial_faces_plain_convolution self inputs out :
    CubeSphereConv2D.call self inputs = Ok out ->
    exists pre,
      out = CubeSphereConv2D.activation self pre /\
      (CubeSphereConv2D.activation self = CubeSphereConv2D.linear -> out = pre) /\
      forall f, 0 <= f < 4 ->
        exists y z,
          CubeSphereConv2D.plain_conv self
            (CubeSphereConv2D.equatorial_kernel self)
            (CubeSphereConv2D.equatorial_bias self) (ellipsis inputs f) = Ok y /\
          ellipsis pre f = Ok z /\
          same4 z y.
  Proof.
    intros E. destruct (call_inv _ _ E) as (pre & -> & H6 & HF).
    exists pre. split; [reflexivity|]. split; [intros ->; reflexivity|].
    intros f Hf. destruct (HF f ltac:(lia)) as (y & Ey & Sy & Py).
    unfold CubeSphereConv2D.face_result in Ey.
    rewrite (proj2 (Z.ltb_lt f 4)) in Ey by lia.
    exists y. eexists. split; [exact Ey|]. unfold ellipsis.
    rewrite getitem_ok by lia. split; [reflexivity|].
    split; [exact (eq_sym Sy)|]. intros b c r w. cbn [at4]. apply Py.
  Qed.

  (** C6 (as amended).  In the joined tensor, face 5 is: with
      [flip_north_pole], the input face reversed along its height axis (axis
      [-2]), convolved with the north-pole kernel (the polar kernel unless
      [independent_north_pole]) plus the matching bias, and reversed along
      the height axis again; without [flip_north_pole], the same convolution
      with no reversal.  The output of [call] is the activation of the joined
      tensor. *)
Theorem north_face_height_flip self inputs out :
    CubeSphereConv2D.call self inputs = Ok out ->
    exists pre,
      out = CubeSphereConv2D.activation self pre /\
      exists y z,
        CubeSphereConv2D.north_conv_height self (ellipsis inputs 5) = Ok y /\
        (CubeSphereConv2D.flip_north_pole self = false ->
         CubeSphereConv2D.plain_conv self (CubeSphereConv2D.north_kernel self)
           (CubeSphereConv2D.north_bias self) (ellipsis inputs 5) = Ok y) /\
        ellipsis pre 5 = Ok z /\
        same4 z y.
  Proof.
    intros E. destruct (call_inv _ _ E) as (pre & -> & H6 & HF).
    exists pre. split; [reflexivity|].
    destruct (HF 5 ltac:(lia)) as (y & Ey & Sy & Py).
    change (CubeSphereConv2D.face_result self inputs 5)
      with (CubeSphereConv2D.north_conv_height self (ellipsis inputs 5)) in Ey.
    exists y. eexists. split; [exact Ey|].
    split. { intros Hflip. unfold CubeSphereConv2D.north_conv_height in Ey.
             now rewrite Hflip in Ey. }
    unfold ellipsis. rewrite getitem_ok by lia. split; [reflexivity|].
    split; [exact (eq_sym Sy)|]. intros b c r w. cbn [at4]. apply Py.
  Qed.

End ConvFaces.

(** C7 (claim as stated, refuted).  With a rectifier configured as
    activation, a 1 x 1 kernel of weight 1 and no bias, face 0 of the layer
    output on faces [[-1, -2], [-3, -4]] is all zeros, while the plain
    convolution of that face returns the face itself. *)
Lemma equatorial_output_is_activated :
  exists out y,
    CubeSphereConv2D.call relu_layer negative_input = Ok out /\
    CubeSphereConv2D.plain_conv relu_layer
      (CubeSphereConv2D.equatorial_kernel relu_layer)
      (CubeSphereConv2D.equatorial_bias relu_layer) (ellipsis negative_input 0) = Ok y /\
    face_rows out 0 0 0 = [[0; 0]; [0; 0]] /\
    rows4 y 0 0 = [[-1; -2]; [-3; -4]] /\
    at5 out 0 0 0 0 0 <> at4 y 0 0 0 0.
Proof.
  exists (returned negative_input (CubeSphereConv2D.call relu_layer negative_input)).
  exists (returned (Tensor4 0 0 0 0 (fun _ _ _ _ => 0))
            (CubeSphereConv2D.plain_conv relu_layer
               (CubeSphereConv2D.equatorial_kernel relu_layer)
               (CubeSphereConv2D.equatorial_bias relu_layer) (ellipsis negative_input 0))).
  split; [apply returned_ok; vm_compute; reflexivity|].
  split; [apply returned_ok; vm_compute; reflexivity|].
  split; [vm_compute; reflexivity|]. split; [vm_compute; reflexivity|].
  vm_compute. discriminate.
Qed.

Lemma equatorial_faces_plain_convolution_witness :
  exists pre,
    returned example_input (CubeSphereConv2D.call example_layer example_input)
      = CubeSphereConv2D.activation example_layer pre /\
    (CubeSphereConv2D.activation example_layer = CubeSphereConv2D.linear ->
     returned example_input (CubeSphereConv2D.call example_layer example_input) = pre) /\
    forall f, 0 <= f < 4 ->
      exists y z,
        CubeSphereConv2D.plain_conv example_layer
          (CubeSphereConv2D.equatorial_kernel example_layer)
          (CubeSphereConv2D.equatorial_bias example_layer) (ellipsis example_input f) = Ok y /\
        ellipsis pre f = Ok z /\
        same4 z y.
Proof.
  apply (@equatorial_faces_plain_convolution Z Z_scalar example_layer example_input).
  apply returned_ok. vm_compute. reflexivity.
Defined.

(** C6 (claim as stated, refuted).  With a 1 x 2 kernel (2, 3) on the face
    [[1, 2], [3, 4]], face 5 of the layer output is [[8], [18]]; reversing
    along the width axis before and after the convolution would give
    [[7], [17]]. *)
Lemma north_face_not_width_flip :
  exists out y,
    CubeSphereConv2D.call example_layer example_input = Ok out /\
    CubeSphereConv2D.north_conv_width example_layer (ellipsis example_input 5) = Ok y /\
    face_rows out 0 0 5 = [[8]; [18]] /\
    rows4 y 0 0 = [[7]; [17]] /\
    at5 out 0 0 0 0 5 <> at4 y 0 0 0 0.
Proof.
  exists (returned example_input (CubeSphereConv2D.call example_layer example_input)).
  exists (returned (Tensor4 0 0 0 0 (fun _ _ _ _ => 0))
            (CubeSphereConv2D.north_conv_width example_layer (ellipsis example_input 5))).
  split; [apply returned_ok; vm_compute; reflexivity|].
  split; [apply returned_ok; vm_compute; reflexivity|].
  split; [vm_compute; reflexivity|]. split; [vm_compute; reflexivity|].
  vm_compute. discriminate.
Qed.

Lemma north_face_height_flip_witness :
  exists pre,
    returned example_input (CubeSphereConv2D.call example_layer example_input)
      = CubeSphereConv2D.activation example_layer pre /\
    exists y z,
      CubeSphereConv2D.north_conv_height example_layer (ellipsis example_input 5) = Ok y /\
      (CubeSphereConv2D.flip_north_pole example_layer = false ->
       CubeSphereConv2D.plain_conv example_layer (CubeSphereConv2D.north_kernel example_layer)
         (CubeSphereConv2D.north_bias example_layer) (ellipsis example_input 5) = Ok y) /\
      ellipsis pre 5 = Ok z /\
      same4 z y.
Proof.
  apply (@north_face_height_flip Z Z_scalar example_layer example_input).
  apply returned_ok. vm_compute. reflexivity.
Defined.

(** ** Construction of the convolution layer *)

Lemma normalize_tuple_raises v n name e :
  normalize_tuple v n name = Raise e -> exists msg, e = ValueError msg.
Proof.
  destruct v as [k|l]; cbn [normalize_tuple]; [discriminate|].
  destruct (negb _); intros E; [|discriminate]. injection E as <-. eauto.
Qed.

Lemma normalize_tuple_two v name l :
  normalize_tuple v 2 name = Ok l -> exists a b, l = [a; b].
Proof.
  destruct v as [k|l']; cbn [normalize_tuple].
  - intros E. injection E as <-. cbn. eauto.
  - destruct (Nat.eqb_spec (List.length l') 2) as [Hl|]; cbn [negb]; intros E;
      [|discriminate].
    injection E as <-.
    destruct l' as [|a [|b [|c l']]]; try discriminate. eauto.
Qed.

Lemma normalize_padding_raises v e :
  normalize_padding v = Raise e -> exists msg, e = ValueError msg.
Proof.
  unfold normalize_padding. destruct (negb _); intros E; [|discriminate].
  injection E as <-. eauto.
Qed.

Section ConvConstruction.
Context {A : Type}.
Implicit Types (args : CubeSphereConv2D.arguments A) (l : CubeSphereConv2D.layer A).

Lemma init_inv cfg args l :
    CubeSphereConv2D.init cfg args = Ok l ->
    CubeSphereConv2D.data_format l = channels_first
    /\ K_normalize_data_format cfg (CubeSphereConv2D.arg_data_format args) = Ok channels_first
    /\ (exists kh kw, CubeSphereConv2D.kernel_size l = [kh; kw])
    /\ (exists sh sw, CubeSphereConv2D.strides l = [sh; sw])
    /\ (exists dh dw, CubeSphereConv2D.dilation_rate l = [dh; dw])
    /\ CubeSphereConv2D.filters l = CubeSphereConv2D.arg_filters args
    /\ CubeSphereConv2D.built l = false
    /\ CubeSphereConv2D.equatorial_kernel l = None
    /\ CubeSphereConv2D.polar_kernel l = None
    /\ CubeSphereConv2D.north_pole_kernel l = None.
  Proof.
    unfold CubeSphereConv2D.init.
    destruct (normalize_tuple _ 2 "kernel_size") as [ks|] eqn:Ek; cbn [bind]; [|discriminate].
    destruct (normalize_tuple _ 2 "strides") as [st|] eqn:Es; cbn [bind]; [|discriminate].
    destruct (normalize_padding _) as [pd|]; cbn [bind]; [|discriminate].
    destruct (K_normalize_data_format _ _) as [d|]; cbn [bind]; [|discriminate].
    destruct (String.eqb_spec d channels_first) as [->|]; cbn [negb]; [|discriminate].
    destruct (normalize_tuple _ 2 "dilation_rate") as [dl|] eqn:Ed; cbn [bind];
      [|discriminate].
    intros E. injection E as <-. cbn.
    apply normalize_tuple_two in Ek, Es, Ed. intuition.
  Qed.

Lemma build_inv l0 l input_shape C :
    CubeSphereConv2D.data_format l0 = channels_first ->
    list_item input_shape 1 = Ok (Some C) ->
    forall kh kw, CubeSphereConv2D.kernel_size l0 = [kh; kw] ->
    CubeSphereConv2D.build l0 input_shape = Ok l ->
    well_built l C kh kw
    /\ CubeSphereConv2D.filters l = CubeSphereConv2D.filters l0
    /\ CubeSphereConv2D.strides l = CubeSphereConv2D.strides l0
    /\ CubeSphereConv2D.padding l = CubeSphereConv2D.padding l0
    /\ CubeSphereConv2D.dilation_rate l = CubeSphereConv2D.dilation_rate l0
    /\ CubeSphereConv2D.activation l = CubeSphereConv2D.activation l0
    /\ CubeSphereConv2D.built l = true.
  Proof.
    intros Hdf Hc kh kw Hks. unfold CubeSphereConv2D.build.
    rewrite Hdf. change (channels_first =? channels_first)%string with true. cbv iota.
    rewrite Hc. cbn [bind]. rewrite Hks. cbn [app].
    unfold CubeSphereConv2D.add_kernel.
    change (list_item [kh; kw; C; CubeSphereConv2D.filters l0] 0) with (Ok kh).
    change (list_item [kh; kw; C; CubeSphereConv2D.filters l0] 1) with (Ok kw).
    change (list_item [kh; kw; C; CubeSphereConv2D.filters l0] 2) with (Ok C).
    change (list_item [kh; kw; C; CubeSphereConv2D.filters l0] 3)
      with (Ok (CubeSphereConv2D.filters l0)).
    cbn [bind].
    destruct (CubeSphereConv2D.independent_north_pole l0) eqn:Hind; cbn [bind];
      intros E; injection E as <-;
      unfold well_built, CubeSphereConv2D.north_kernel, CubeSphereConv2D.north_bias;
      cbn [CubeSphereConv2D.data_format CubeSphereConv2D.kernel_size
           CubeSphereConv2D.equatorial_kernel CubeSphereConv2D.polar_kernel
           CubeSphereConv2D.north_pole_kernel CubeSphereConv2D.filters
           CubeSphereConv2D.use_bias CubeSphereConv2D.equatorial_bias
           CubeSphereConv2D.polar_bias CubeSphereConv2D.north_pole_bias
           CubeSphereConv2D.independent_north_pole CubeSphereConv2D.strides
           CubeSphereConv2D.padding CubeSphereConv2D.dilation_rate
           CubeSphereConv2D.activation CubeSphereConv2D.built kernel_ok];
      (repeat split; try reflexivity; try assumption);
      match goal with
      | Hub : CubeSphereConv2D.use_bias l0 = true |- _ => rewrite Hub
      end; reflexivity.
  Qed.

End ConvConstruction.

(** C9.  The constructor raises a [ValueError] for every data format other
    than channels-first, and a layer that it returns is channels-first,
    unbuilt and without weights; [build] raises a [ValueError], and returns
    no layer, when the channel dimension of the input shape is [None]. *)
Theorem conv_layout_checks (A : Type) cfg (args : CubeSphereConv2D.arguments A) :
  (K_normalize_data_format cfg (CubeSphereConv2D.arg_data_format args) <> Ok channels_first ->
   exists msg, CubeSphereConv2D.init cfg args = Raise (ValueError msg))
  /\ (forall l,
        CubeSphereConv2D.init cfg args = Ok l ->
        CubeSphereConv2D.data_format l = channels_first
        /\ CubeSphereConv2D.built l = false
        /\ CubeSphereConv2D.equatorial_kernel l = None
        /\ CubeSphereConv2D.polar_kernel l = None)
  /\ (forall (l : CubeSphereConv2D.layer A) input_shape,
        list_item input_shape
          (if (CubeSphereConv2D.data_format l =? channels_first)%string then 1 else -1)
        = Ok None ->
        exists msg, CubeSphereConv2D.build l input_shape = Raise (ValueError msg)).
Proof.
  split; [|split].
  - intros Hdf. unfold CubeSphereConv2D.init.
    destruct (normalize_tuple _ 2 "kernel_size") as [ks|e] eqn:Ek; cbn [bind].
    2:{ destruct (normalize_tuple_raises _ _ _ Ek) as [msg ->]. eauto. }
    destruct (normalize_tuple _ 2 "strides") as [st|e] eqn:Es; cbn [bind].
    2:{ destruct (normalize_tuple_raises _ _ _ Es) as [msg ->]. eauto. }
    destruct (normalize_padding _) as [pd|e] eqn:Ep; cbn [bind].
    2:{ destruct (normalize_padding_raises _ Ep) as [msg ->]. eauto. }
    destruct (K_normalize_data_format _ _) as [d|e] eqn:Ed; cbn [bind].
    2:{ destruct (normalize_data_format_raises _ _ Ed) as [msg ->]. eauto. }
    destruct (String.eqb_spec d channels_first) as [->|]; cbn [negb]; [congruence|eauto].
  - intros l E. apply init_inv in E. intuition.
  - intros l input_shape Hnone. unfold CubeSphereConv2D.build.
    rewrite Hnone. cbn [bind]. eauto.
Qed.

Lemma conv_layout_checks_witness :
  (exists msg,
      CubeSphereConv2D.init channels_first
        {| CubeSphereConv2D.arg_filters := 4;
           CubeSphereConv2D.arg_kernel_size := PyInt 3;
           CubeSphereConv2D.arg_strides := PyInt 1;
           CubeSphereConv2D.arg_padding := "valid";
           CubeSphereConv2D.arg_data_format := Some "Channels_Last";
           CubeSphereConv2D.arg_dilation_rate := PyInt 1;
           CubeSphereConv2D.arg_activation := None;
           CubeSphereConv2D.arg_use_bias := true;
           CubeSphereConv2D.arg_flip_north_pole := true;
           CubeSphereConv2D.arg_independent_north_pole := false;
           CubeSphereConv2D.arg_kernel_initializer := fun _ _ _ _ _ => 0;
           CubeSphereConv2D.arg_bias_initializer := fun _ _ => 0 |}
      = Raise (ValueError msg))
  /\ (exists msg,
      CubeSphereConv2D.build example_layer [Some 1; None; Some 2; Some 2; Some 6]
      = Raise (ValueError msg)).
Proof.
  split.
  - apply (proj1 (conv_layout_checks channels_first _)). vm_compute. discriminate.
  - apply (proj2 (proj2 (conv_layout_checks channels_first end_to_end_args))
             example_layer [Some 1; None; Some 2; Some 2; Some 6]).
    reflexivity.
Defined.

(** ** Output shape of the convolution layer *)

Section ConvShape.
Context {A : Type} {SA : Scalar A}.
Implicit Types (l : CubeSphereConv2D.layer A) (x kernel : tensor4 A).

Lemma K_conv2d_ok x kernel sh sw dh dw pad :
    pad = "valid" \/ pad = "same" ->
    1 <= sh -> 1 <= sw -> 1 <= dh -> 1 <= dw ->
    (sh = 1 /\ sw = 1) \/ (dh = 1 /\ dw = 1) ->
    n1 x = n2 kernel ->
    0 <= window_out (pad =? "same")%string (n2 x) (n0 kernel) sh dh ->
    0 <= window_out (pad =? "same")%string (n3 x) (n1 kernel) sw dw ->
    K_conv2d (Ok x) (Some kernel) [sh; sw] pad channels_first [dh; dw] =
    Ok (conv_nchw x kernel (pad =? "same")%string sh sw dh dw).
  Proof.
    intros Hpad Hsh Hsw Hdh Hdw Hsd Hc Hoh How.
    unfold K_conv2d. cbn [bind].
    change (str_in channels_first [channels_first; channels_last]) with true.
    assert (str_in pad ["same"; "valid"] = true) as ->
      by (destruct Hpad as [->| ->]; reflexivity).
    cbn [negb]. rewrite !list_item_0, !list_item_1. cbn [bind].
    change (channels_first =? channels_first)%string with true. cbn [bind].
    rewrite (proj2 (Z.leb_gt sh 0)), (proj2 (Z.leb_gt sw 0)),
      (proj2 (Z.leb_gt dh 0)), (proj2 (Z.leb_gt dw 0)) by lia.
    cbn [orb].
    assert (negb ((sh =? 1) && (sw =? 1)) && negb ((dh =? 1) && (dw =? 1)) = false) as ->.
    { destruct Hsd as [[-> ->]|[-> ->]]; cbn; [reflexivity|].
      now rewrite andb_false_r. }
    rewrite (proj2 (Z.eqb_eq _ _) Hc). cbn [negb].
    rewrite (proj2 (Z.ltb_ge _ 0) Hoh), (proj2 (Z.ltb_ge _ 0) How). cbn [orb].
    reflexivity.
  Qed.

Lemma K_bias_add_ok x (bias : tensor1 A) :
    n1 x = k0 bias ->
    K_bias_add (Ok x) (Some bias) channels_first =
    Ok (Tensor4 (n0 x) (n1 x) (n2 x) (n3 x)
          (fun b c r w => add (at4 x b c r w) (at1 bias c))).
  Proof.
    intros Hc. unfold K_bias_add. cbn [bind].
    change (str_in channels_first [channels_first; channels_last]) with true.
    change (channels_first =? channels_first)%string with true. cbn [negb].
    now rewrite (proj2 (Z.eqb_eq _ _) Hc).
  Qed.

Lemma plain_conv_ok l (k : option (tensor4 A)) (b : option (tensor1 A)) x
      C kh kw sh sw dh dw :
    CubeSphereConv2D.data_format l = channels_first ->
    kernel_ok k [kh; kw; C; CubeSphereConv2D.filters l] ->
    (CubeSphereConv2D.use_bias l = true -> bias_ok b (CubeSphereConv2D.filters l)) ->
    CubeSphereConv2D.strides l = [sh; sw] ->
    CubeSphereConv2D.dilation_rate l = [dh; dw] ->
    CubeSphereConv2D.padding l = "valid" \/ CubeSphereConv2D.padding l = "same" ->
    1 <= sh -> 1 <= sw -> 1 <= dh -> 1 <= dw ->
    (sh = 1 /\ sw = 1) \/ (dh = 1 /\ dw = 1) ->
    n1 x = C ->
    0 <= window_out (CubeSphereConv2D.padding l =? "same")%string (n2 x) kh sh dh ->
    0 <= window_out (CubeSphereConv2D.padding l =? "same")%string (n3 x) kw sw dw ->
    exists y,
      CubeSphereConv2D.plain_conv l k b (Ok x) = Ok y /\
      shape4 y = [n0 x; CubeSphereConv2D.filters l;
                  window_out (CubeSphereConv2D.padding l =? "same")%string (n2 x) kh sh dh;
                  window_out (CubeSphereConv2D.padding l =? "same")%string (n3 x) kw sw dw].
  Proof.
    intros Hdf Hk Hb Hst Hdl Hpad Hsh Hsw Hdh Hdw Hsd Hc Hoh How.
    destruct k as [kernel|]; [|contradiction]. cbn [kernel_ok] in Hk.
    unfold shape4 in Hk. injection Hk as K0 K1 K2 K3.
    unfold CubeSphereConv2D.plain_conv. rewrite Hdf, Hst, Hdl.
    rewrite K_conv2d_ok; try assumption; try congruence.
    destruct (CubeSphereConv2D.use_bias l) eqn:Hub.
    - specialize (Hb eq_refl). destruct b as [bias|]; [|contradiction]. cbn [bias_ok] in Hb.
      rewrite K_bias_add_ok by (cbn [conv_nchw n1]; congruence).
      eexists. split; [reflexivity|]. unfold shape4. cbn [conv_nchw n0 n1 n2 n3].
      now rewrite K0, K1, K3.
    - eexists. split; [reflexivity|]. unfold shape4. cbn [conv_nchw n0 n1 n2 n3].
      now rewrite K0, K1, K3.
  Qed.

Lemma K_reverse_height x :
    K_reverse (Ok x) (-2) =
    Ok (Tensor4 (n0 x) (n1 x) (n2 x) (n3 x) (fun b c r w => at4 x b c (n2 x - 1 - r) w)).
  Proof. reflexivity. Qed.

Lemma conv_output_length_window pad n k s d :
    pad = "valid" \/ pad = "same" ->
    1 <= s ->
    conv_output_length (Some n) k pad s d
    = Ok (Some (window_out (pad =? "same")%string n k s d)).
  Proof.
    intros Hpad Hs. unfold conv_output_length.
    assert (str_in pad ["same"; "valid"; "full"; "causal"] = true) as ->
      by (destruct Hpad as [->| ->]; reflexivity).
    cbn [negb]. rewrite (proj2 (Z.eqb_neq s 0)) by lia.
    destruct Hpad as [->| ->].
    - change ("valid" =? "same")%string with false.
      change ("valid" =? "valid")%string with true. cbv iota.
      unfold window_out. do 3 f_equal. ring.
    - change ("same" =? "same")%string with true. cbv iota. reflexivity.
  Qed.

Lemma call_defined l (inputs : tensor5 A) B C H W kh kw sh sw dh dw :
    well_built l C kh kw ->
    shape5 inputs = [B; C; H; W; 6] ->
    CubeSphereConv2D.strides l = [sh; sw] ->
    CubeSphereConv2D.dilation_rate l = [dh; dw] ->
    CubeSphereConv2D.padding l = "valid" \/ CubeSphereConv2D.padding l = "same" ->
    1 <= sh -> 1 <= sw -> 1 <= dh -> 1 <= dw ->
    (sh = 1 /\ sw = 1) \/ (dh = 1 /\ dw = 1) ->
    0 <= window_out (CubeSphereConv2D.padding l =? "same")%string H kh sh dh ->
    0 <= window_out (CubeSphereConv2D.padding l =? "same")%string W kw sw dw ->
    exists pre,
      CubeSphereConv2D.call l inputs = Ok (CubeSphereConv2D.activation l pre) /\
      shape5 pre = [B; CubeSphereConv2D.filters l;
                    window_out (CubeSphereConv2D.padding l =? "same")%string H kh sh dh;
                    window_out (CubeSphereConv2D.padding l =? "same")%string W kw sw dw; 6].
  Proof.
    intros (Hdf & Hks & Ke & Kp & Kn & Hbias) Hs Hst Hdl Hpad Hsh Hsw Hdh Hdw Hsd Hoh How.
    rewrite (shape5_inv Hs). generalize (at5 inputs) as g. intros g.
    set (s := [B; CubeSphereConv2D.filters l;
               window_out (CubeSphereConv2D.padding l =? "same")%string H kh sh dh;
               window_out (CubeSphereConv2D.padding l =? "same")%string W kw sw dw]).
    assert (Hplain : forall k b f, 0 <= f < 6 ->
              kernel_ok k [kh; kw; C; CubeSphereConv2D.filters l] ->
              (CubeSphereConv2D.use_bias l = true -> bias_ok b (CubeSphereConv2D.filters l)) ->
              exists y, CubeSphereConv2D.plain_conv l k b
                          (ellipsis (Tensor5 B C H W 6 g) f) = Ok y /\ shape4 y = s).
    { intros k b f Hf Hk Hb. unfold ellipsis. rewrite getitem_ok by (fields; lia).
      fields. cbn [slice_len].
      eapply plain_conv_ok; eauto. }
    assert (Hnorth : exists y, CubeSphereConv2D.north_conv_height l
                          (ellipsis (Tensor5 B C H W 6 g) 5) = Ok y /\ shape4 y = s).
    { unfold CubeSphereConv2D.north_conv_height.
      destruct (CubeSphereConv2D.flip_north_pole l).
      - unfold ellipsis. rewrite getitem_ok by (fields; lia).
        fields. cbn [slice_len]. rewrite K_reverse_height.
        match goal with
        | |- context [CubeSphereConv2D.plain_conv l _ _ (Ok ?x)] =>
            destruct (@plain_conv_ok l (CubeSphereConv2D.north_kernel l)
                        (CubeSphereConv2D.north_bias l) x C kh kw sh sw dh dw)
              as (y & Ey & Sy); try assumption; try reflexivity;
              [intros Hub; now apply Hbias|]
        end.
        rewrite Ey, K_reverse_height.
        eexists. split; [reflexivity|]. exact Sy.
      - apply Hplain; [lia|assumption|]. intros Hub. now apply Hbias. }
    destruct (Hplain (CubeSphereConv2D.equatorial_kernel l)
                (CubeSphereConv2D.equatorial_bias l) 0) as (y0 & E0 & S0);
      [lia|assumption|intros Hub; now apply Hbias|].
    destruct (Hplain (CubeSphereConv2D.equatorial_kernel l)
                (CubeSphereConv2D.equatorial_bias l) 1) as (y1 & E1 & S1);
      [lia|assumption|intros Hub; now apply Hbias|].
    destruct (Hplain (CubeSphereConv2D.equatorial_kernel l)
                (CubeSphereConv2D.equatorial_bias l) 2) as (y2 & E2 & S2);
      [lia|assumption|intros Hub; now apply Hbias|].
    destruct (Hplain (CubeSphereConv2D.equatorial_kernel l)
                (CubeSphereConv2D.equatorial_bias l) 3) as (y3 & E3 & S3);
      [lia|assumption|intros Hub; now apply Hbias|].
    destruct (Hplain (CubeSphereConv2D.polar_kernel l)
                (CubeSphereConv2D.polar_bias l) 4) as (y4 & E4 & S4);
      [lia|assumption|intros Hub; now apply Hbias|].
    destruct Hnorth as (y5 & E5 & S5).
    apply (@call_of_faces A _ l (Tensor5 B C H W 6 g) y0 y1 y2 y3 y4 y5 s);
      try assumption.
    repeat constructor; assumption.
  Qed.

End ConvShape.

Section ConvOutputShape.
Context {A : Type} {SA : Scalar A}.

Lemma window_out_nonneg (same : bool) n k s d :
    1 <= s ->
    (if same then 0 <= n else (k - 1) * d + 1 <= n) ->
    0 <= window_out same n k s d.
  Proof.
    intros Hs Hn. unfold window_out. destruct same; apply Z.div_pos; lia.
  Qed.

Lemma compute_output_shape_eq (l : CubeSphereConv2D.layer A) B C H W kh kw sh sw dh dw :
    CubeSphereConv2D.data_format l = channels_first ->
    CubeSphereConv2D.kernel_size l = [kh; kw] ->
    CubeSphereConv2D.strides l = [sh; sw] ->
    CubeSphereConv2D.dilation_rate l = [dh; dw] ->
    CubeSphereConv2D.padding l = "valid" \/ CubeSphereConv2D.padding l = "same" ->
    1 <= sh -> 1 <= sw ->
    CubeSphereConv2D.compute_output_shape l (map Some [B; C; H; W; 6]) =
    Ok (Some (map Some
                [B; CubeSphereConv2D.filters l;
                 window_out (CubeSphereConv2D.padding l =? "same")%string H kh sh dh;
                 window_out (CubeSphereConv2D.padding l =? "same")%string W kw sw dw; 6])).
  Proof.
    intros Hdf Hks Hst Hdl Hpad Hsh Hsw.
    unfold CubeSphereConv2D.compute_output_shape. rewrite Hdf, Hks, Hst, Hdl.
    change (channels_first =? channels_last)%string with false.
    change (channels_first =? channels_first)%string with true. cbv iota.
    cbn [map]. rewrite list_item_0. cbn [bind].
    change (list_slice (Range 2 (-1)) [Some B; Some C; Some H; Some W; Some 6])
      with [Some H; Some W].
    change (zrange (Z.of_nat (List.length [Some H; Some W]))) with [0; 1].
    cbn [map sequence]. rewrite !list_item_0, !list_item_1. cbn [bind].
    rewrite !conv_output_length_window by assumption. cbn [bind]. reflexivity.
  Qed.

Lemma conv_output_shape_general cfg (args : CubeSphereConv2D.arguments A) l0 l
      input_shape B C H W kh kw sh sw dh dw (inputs : tensor5 A) :
    CubeSphereConv2D.init cfg args = Ok l0 ->
    list_item input_shape 1 = Ok (Some C) ->
    CubeSphereConv2D.build l0 input_shape = Ok l ->
    shape5 inputs = [B; C; H; W; 6] ->
    CubeSphereConv2D.kernel_size l = [kh; kw] ->
    CubeSphereConv2D.strides l = [sh; sw] ->
    CubeSphereConv2D.dilation_rate l = [dh; dw] ->
    (CubeSphereConv2D.padding l = "valid" /\ (kh - 1) * dh + 1 <= H /\ (kw - 1) * dw + 1 <= W)
    \/ (CubeSphereConv2D.padding l = "same" /\ 0 <= H /\ 0 <= W) ->
    1 <= sh -> 1 <= sw -> 1 <= dh -> 1 <= dw ->
    (sh = 1 /\ sw = 1) \/ (dh = 1 /\ dw = 1) ->
    (forall x, shape5 (CubeSphereConv2D.activation l x) = shape5 x) ->
    exists out oh ow,
      CubeSphereConv2D.call l inputs = Ok out /\
      conv_output_length (Some H) kh (CubeSphereConv2D.padding l) sh dh = Ok (Some oh) /\
      conv_output_length (Some W) kw (CubeSphereConv2D.padding l) sw dw = Ok (Some ow) /\
      shape5 out = [B; CubeSphereConv2D.filters l; oh; ow; 6] /\
      CubeSphereConv2D.compute_output_shape l (map Some (shape5 inputs))
        = Ok (Some (map Some (shape5 out))) /\
      exists pre,
        out = CubeSphereConv2D.activation l pre /\
        forall f, 0 <= f < 6 ->
          exists y,
            CubeSphereConv2D.face_result l inputs f = Ok y /\
            forall b c r w, at5 pre b c r w f = at4 y b c r w.
  Proof.
    intros Ei Hc Eb Hs Hks Hst Hdl Hpad Hsh Hsw Hdh Hdw Hsd Hact.
    destruct (init_inv _ _ Ei) as (Hdf0 & _ & (kh0 & kw0 & Hks0) & _).
    destruct (@build_inv A l0 l input_shape C Hdf0 Hc kh0 kw0 Hks0 Eb) as (Hwb & _).
    assert (kh0 = kh /\ kw0 = kw) as [-> ->].
    { destruct Hwb as (_ & Hks' & _). rewrite Hks in Hks'. injection Hks' as -> ->. auto. }
    assert (Hpad' : CubeSphereConv2D.padding l = "valid" \/ CubeSphereConv2D.padding l = "same")
      by (destruct Hpad as [(? & _)|(? & _)]; auto).
    assert (Hoh : 0 <= window_out (CubeSphereConv2D.padding l =? "same")%string H kh sh dh).
    { apply window_out_nonneg; [assumption|].
      destruct Hpad as [(-> & ? & ?)|(-> & ? & ?)]; assumption. }
    assert (How : 0 <= window_out (CubeSphereConv2D.padding l =? "same")%string W kw sw dw).
    { apply window_out_nonneg; [assumption|].
      destruct Hpad as [(-> & ? & ?)|(-> & ? & ?)]; assumption. }
    destruct (@call_defined A SA l inputs B C H W kh kw sh sw dh dw) as (pre & Ecall & Spre);
      try assumption.
    exists (CubeSphereConv2D.activation l pre).
    exists (window_out (CubeSphereConv2D.padding l =? "same")%string H kh sh dh).
    exists (window_out (CubeSphereConv2D.padding l =? "same")%string W kw sw dw).
    split; [exact Ecall|].
    split; [apply conv_output_length_window; assumption|].
    split; [apply conv_output_length_window; assumption|].
    split; [rewrite Hact; exact Spre|].
    split.
    { rewrite Hact, Spre, Hs. destruct Hwb as (Hdf & _).
      apply compute_output_shape_eq; assumption. }
    destruct (call_inv _ _ Ecall) as (pre' & Epre & _ & HF).
    exists pre'. split; [exact Epre|].
    intros f Hf. destruct (HF f Hf) as (y & Ey & _ & Py). eauto.
  Qed.

End ConvOutputShape.

(** C8.  The end-to-end example: an input of shape (1, 2, 8, 8, 6), padded
    with a halo of 1 and convolved with a 3 x 3 kernel, 4 filters, valid
    padding and stride 1, gives an output of shape (1, 4, 8, 8, 6).  In
    general, for a layer built for the channel count of its input, with valid
    or same padding, strides and dilations of at least 1 that are not both
    different from 1, a kernel that fits the face under valid padding, and an
    activation that keeps the shape, [call] returns a tensor whose spatial
    sizes are those of [conv_output_length], whose channel size is [filters]
    and whose face axis has length 6, which is the shape that
    [compute_output_shape] gives, and whose faces are the six per-face
    results in face order. *)
Theorem conv_output_shape :
  (exists padded l out,
      pad 1 end_to_end_input = Ok padded /\
      shape5 padded = [1; 2; 10; 10; 6] /\
      end_to_end_layer = Ok l /\
      CubeSphereConv2D.call l padded = Ok out /\
      shape5 out = [1; 4; 8; 8; 6])
  /\
  (forall (A : Type) (SA : Scalar A) cfg (args : CubeSphereConv2D.arguments A) l0 l
          input_shape B C H W kh kw sh sw dh dw (inputs : tensor5 A),
      CubeSphereConv2D.init cfg args = Ok l0 ->
      list_item input_shape 1 = Ok (Some C) ->
      CubeSphereConv2D.build l0 input_shape = Ok l ->
      shape5 inputs = [B; C; H; W; 6] ->
      CubeSphereConv2D.kernel_size l = [kh; kw] ->
      CubeSphereConv2D.strides l = [sh; sw] ->
      CubeSphereConv2D.dilation_rate l = [dh; dw] ->
      (CubeSphereConv2D.padding l = "valid" /\ (kh - 1) * dh + 1 <= H /\ (kw - 1) * dw + 1 <= W)
      \/ (CubeSphereConv2D.padding l = "same" /\ 0 <= H /\ 0 <= W) ->
      1 <= sh -> 1 <= sw -> 1 <= dh -> 1 <= dw ->
      (sh = 1 /\ sw = 1) \/ (dh = 1 /\ dw = 1) ->
      (forall x, shape5 (CubeSphereConv2D.activation l x) = shape5 x) ->
      exists out oh ow,
        CubeSphereConv2D.call l inputs = Ok out /\
        conv_output_length (Some H) kh (CubeSphereConv2D.padding l) sh dh = Ok (Some oh) /\
        conv_output_length (Some W) kw (CubeSphereConv2D.padding l) sw dw = Ok (Some ow) /\
        shape5 out = [B; CubeSphereConv2D.filters l; oh; ow; 6] /\
        CubeSphereConv2D.compute_output_shape l (map Some (shape5 inputs))
          = Ok (Some (map Some (shape5 out))) /\
        exists pre,
          out = CubeSphereConv2D.activation l pre /\
          forall f, 0 <= f < 6 ->
            exists y,
              CubeSphereConv2D.face_result l inputs f = Ok y /\
              forall b c r w, at5 pre b c r w f = at4 y b c r w).
Proof.
  split; [|intros; eapply conv_output_shape_general; eassumption].
  destruct (@pad_shape Z 1 8 1 2 end_to_end_input ltac:(lia) eq_refl) as (padded & Ep & Sp).
  set (l0 := returned example_layer (CubeSphereConv2D.init channels_last end_to_end_args)).
  assert (Ei : CubeSphereConv2D.init channels_last end_to_end_args = Ok l0)
    by (apply returned_ok; vm_compute; reflexivity).
  set (l := returned example_layer
              (CubeSphereConv2D.build l0 [None; Some 2; Some 10; Some 10; Some 6])).
  assert (Eb : CubeSphereConv2D.build l0 [None; Some 2; Some 10; Some 10; Some 6] = Ok l)
    by (apply returned_ok; vm_compute; reflexivity).
  assert (Hks : CubeSphereConv2D.kernel_size l = [3; 3]) by (vm_compute; reflexivity).
  assert (Hst : CubeSphereConv2D.strides l = [1; 1]) by (vm_compute; reflexivity).
  assert (Hdl : CubeSphereConv2D.dilation_rate l = [1; 1]) by (vm_compute; reflexivity).
  assert (Hpd : CubeSphereConv2D.padding l = "valid") by (vm_compute; reflexivity).
  assert (Hfl : CubeSphereConv2D.filters l = 4) by (vm_compute; reflexivity).
  assert (Hact : forall x, shape5 (CubeSphereConv2D.activation l x) = shape5 x)
    by (intros x; reflexivity).
  assert (Hfit : (3 - 1) * 1 + 1 <= 10) by lia.
  assert (Hone : 1 <= 1) by lia.
  destruct (@conv_output_shape_general Z Z_scalar channels_last end_to_end_args l0 l
              [None; Some 2; Some 10; Some 10; Some 6] 1 2 10 10 3 3 1 1 1 1 padded
              Ei eq_refl Eb Sp Hks Hst Hdl
              (or_introl (conj Hpd (conj Hfit Hfit)))
              Hone Hone Hone Hone
              (or_introl (conj eq_refl eq_refl)) Hact)
    as (out & oh & ow & Ec & Eoh & Eow & So & _).
  exists padded, l, out. split; [exact Ep|]. split; [exact Sp|].
  split. { unfold end_to_end_layer. rewrite Ei. cbn [bind]. exact Eb. }
  split; [exact Ec|]. rewrite So, Hfl.
  rewrite Hpd in Eoh, Eow.
  assert (oh = 8) as -> by (vm_compute in Eoh; congruence).
  assert (ow = 8) as -> by (vm_compute in Eow; congruence).
  reflexivity.
Qed.

Lemma conv_output_shape_witness :
  exists out oh ow,
    CubeSphereConv2D.call built_example example_input = Ok out /\
    conv_output_length (Some 2) 1 (CubeSphereConv2D.padding built_example) 1 1 = Ok (Some oh) /\
    conv_output_length (Some 2) 2 (CubeSphereConv2D.padding built_example) 1 1 = Ok (Some ow) /\
    shape5 out = [1; CubeSphereConv2D.filters built_example; oh; ow; 6] /\
    CubeSphereConv2D.compute_output_shape built_example (map Some (shape5 example_input))
      = Ok (Some (map Some (shape5 out))) /\
    exists pre,
      out = CubeSphereConv2D.activation built_example pre /\
      forall f, 0 <= f < 6 ->
        exists y,
          CubeSphereConv2D.face_result built_example example_input f = Ok y /\
          forall b c r w, at5 pre b c r w f = at4 y b c r w.
Proof.
  apply (proj2 conv_output_shape Z Z_scalar channels_last example_args
           (returned example_layer (CubeSphereConv2D.init channels_last example_args))
           built_example [None; Some 1; Some 2; Some 2; Some 6] 1 1 2 2 1 2 1 1 1 1
           example_input).
  - apply returned_ok. vm_compute. reflexivity.
  - reflexivity.
  - apply returned_ok. vm_compute. reflexivity.
  - reflexivity.
  - vm_compute. reflexivity.
  - vm_compute. reflexivity.
  - vm_compute. reflexivity.
  - left. split; [vm_compute; reflexivity|lia].
  - lia.
  - lia.
  - lia.
  - lia.
  - left. lia.
  - intros x. reflexivity.
Defined.

(** * Further layers and callbacks: properties *)

(** ** The periodic padding layers *)

Lemma wrap_mod n a :
  0 < n -> - n <= a < 2 * n ->
  a mod n = if a <? 0 then a + n else if a <? n then a else a - n.
Proof.
  intros Hn Ha.
  destruct (Z.ltb_spec a 0); [|destruct (Z.ltb_spec a n)]; symmetry.
  - apply Z.mod_unique with (q := -1); lia.
  - apply Z.mod_unique with (q := 0); lia.
  - apply Z.mod_unique with (q := 1); lia.
Qed.

Lemma slice_len_whole len : slice_len len All = len.
Proof. reflexivity. Qed.

Lemma list_item_2 {X : Type} (a b c : X) l : list_item (a :: b :: c :: l) 2 = Ok c.
Proof. reflexivity. Qed.

Lemma list_item_3 {X : Type} (a b c d : X) l :
  list_item (a :: b :: c :: d :: l) 3 = Ok d.
Proof. reflexivity. Qed.

Lemma list_item_4 {X : Type} (a b c d e : X) l :
  list_item (a :: b :: c :: d :: e :: l) 4 = Ok e.
Proof. reflexivity. Qed.

Section PaddingLayerEval.
Context {A : Type}.
Implicit Types (x y z : tensor4 A) (u v : tensor5 A).

Lemma shape4_inv x a0 a1 a2 a3 :
    shape4 x = [a0; a1; a2; a3] -> x = Tensor4 a0 a1 a2 a3 (at4 x).
  Proof.
    destruct x as [b0 b1 b2 b3 g]. unfold shape4. cbn [n0 n1 n2 n3 at4].
    intros E. injection E as E0 E1 E2 E3. now subst.
  Qed.

Lemma concat4_axis1 x y :
    concat4 1 x y =
    if (n0 x =? n0 y) && (n2 x =? n2 y) && (n3 x =? n3 y)
    then Ok (cat4 1 x y) else Raise InvalidArgument.
  Proof.
    unfold concat4, agree. cbn.
    destruct (n0 x =? n0 y), (n2 x =? n2 y), (n3 x =? n3 y); reflexivity.
  Qed.

Lemma K_concatenate_axis1 x y z :
    K_concatenate [Ok x; Ok y; Ok z] 1 = (a <- concat4 1 x y ;; concat4 1 a z).
  Proof. reflexivity. Qed.

Lemma concat5_axis1 u v :
    concat5 1 u v =
    if (m0 u =? m0 v) && (m2 u =? m2 v) && (m3 u =? m3 v) && (m4 u =? m4 v)
    then Ok (cat5 1 u v) else Raise InvalidArgument.
  Proof.
    unfold concat5, agree; cbn.
    destruct (m0 u =? m0 v), (m2 u =? m2 v), (m3 u =? m3 v), (m4 u =? m4 v);
      reflexivity.
  Qed.

Lemma concat5_axis2 u v :
    concat5 2 u v =
    if (m0 u =? m0 v) && (m1 u =? m1 v) && (m3 u =? m3 v) && (m4 u =? m4 v)
    then Ok (cat5 2 u v) else Raise InvalidArgument.
  Proof.
    unfold concat5, agree; cbn.
    destruct (m0 u =? m0 v), (m1 u =? m1 v), (m3 u =? m3 v), (m4 u =? m4 v);
      reflexivity.
  Qed.

Lemma concat5_axis3 u v :
    concat5 3 u v =
    if (m0 u =? m0 v) && (m1 u =? m1 v) && (m2 u =? m2 v) && (m4 u =? m4 v)
    then Ok (cat5 3 u v) else Raise InvalidArgument.
  Proof.
    unfold concat5, agree; cbn.
    destruct (m0 u =? m0 v), (m1 u =? m1 v), (m2 u =? m2 v), (m4 u =? m4 v);
      reflexivity.
  Qed.

Lemma concat5_axis4 u v :
    concat5 4 u v =
    if (m0 u =? m0 v) && (m1 u =? m1 v) && (m2 u =? m2 v) && (m3 u =? m3 v)
    then Ok (cat5 4 u v) else Raise InvalidArgument.
  Proof.
    unfold concat5, agree; cbn.
    destruct (m0 u =? m0 v), (m1 u =? m1 v), (m2 u =? m2 v), (m3 u =? m3 v);
      reflexivity.
  Qed.

Lemma K_concatenate5_three k u v w :
    K_concatenate5 [Ok u; Ok v; Ok w] k = (a <- concat5 k u v ;; concat5 k a w).
  Proof. reflexivity. Qed.

End PaddingLayerEval.

Ltac fields4 :=
  cbn [n0 n1 n2 n3 at4 m0 m1 m2 m3 m4 at5 getitem4 getitem5 cat4 cat5 bind fst snd].

Ltac ranges :=
  rewrite ?slice_len_whole; rewrite ?slice_len_range by lia.

Ltac range_srcs :=
  rewrite ?slice_src_all; rewrite ?slice_src_range by lia.

Ltac concat_step :=
  first [ rewrite K_concatenate_axis1
        | rewrite K_concatenate_rows3
        | rewrite K_concatenate_cols3
        | rewrite K_concatenate5_three
        | rewrite concat4_axis1
        | rewrite concat4_rows
        | rewrite concat4_cols
        | rewrite concat5_axis1
        | rewrite concat5_axis2
        | rewrite concat5_axis3
        | rewrite concat5_axis4 ];
  fields4; ranges; decide_shapes.

Ltac pads Hpad :=
  unfold padding_low, padding_high; rewrite Hpad;
  rewrite ?list_item_0, ?list_item_1, ?list_item_2; cbn [bind fst snd].

(** X1. [PeriodicPadding2D.call], channels first: with paddings no larger than
    the axes, the output has [t + H + b] rows and [l + W + r] columns, and
    its cell (i, j) is the input cell ((i - t) mod H, (j - l) mod W): the
    image is continued periodically in both directions. *)
Theorem periodic_padding_2d_wraps {A : Type} self (x : tensor4 A) B C H W t b l r :
  pl_data_format self = "channels_first" ->
  pl_padding self = [(t, b); (l, r)] ->
  shape4 x = [B; C; H; W] ->
  0 <= t <= H -> 0 <= b <= H -> 0 <= l <= W -> 0 <= r <= W ->
  exists out,
    PeriodicPadding2D.call self x = Ok out /\
    shape4 out = [B; C; t + H + b; l + W + r] /\
    forall n c i j,
      0 <= i < t + H + b -> 0 <= j < l + W + r ->
      at4 out n c i j = at4 x n c ((i - t) mod H) ((j - l) mod W).
Proof.
  intros Hdf Hpad Hs Ht Hb Hl Hr.
  unfold PeriodicPadding2D.call. rewrite Hdf, Hs.
  change ("channels_first" =? "channels_first")%string with true. cbv iota.
  rewrite list_item_2, list_item_3. pads Hpad.
  rewrite (shape4_inv Hs). generalize (at4 x) as g. intros g.
  repeat concat_step.
  eexists. split; [reflexivity|].
  split; [unfold shape4; fields4; repeat (f_equal; try lia)|].
  intros n c i j Hi Hj. fields4.
  assert (HH : H = 0 \/ 0 < H) by lia. assert (HW : W = 0 \/ 0 < W) by lia.
  destruct HH as [->|HH]; [lia|]. destruct HW as [->|HW]; [lia|].
  rewrite (@wrap_mod H (i - t)), (@wrap_mod W (j - l)) by lia.
  range_srcs; zcase; range_srcs; f_equal; lia.
Qed.

Lemma periodic_padding_2d_wraps_witness :
  exists out,
    PeriodicPadding2D.call (padding_2d 1 1 1 1 "channels_first") image_2x3 = Ok out /\
    shape4 out = [1; 1; 1 + 2 + 1; 1 + 3 + 1] /\
    forall n c i j,
      0 <= i < 1 + 2 + 1 -> 0 <= j < 1 + 3 + 1 ->
      at4 out n c i j = at4 image_2x3 n c ((i - 1) mod 2) ((j - 1) mod 3).
Proof.
  apply (@periodic_padding_2d_wraps Z (padding_2d 1 1 1 1 "channels_first")
           image_2x3 1 1 2 3 1 1 1 1);
    first [reflexivity | lia].
Defined.

(** X2. [PeriodicPadding2D.call], any other data format (channels last): the
    same periodic continuation on axes 1 and 2. *)
Theorem periodic_padding_2d_wraps_channels_last {A : Type} self (x : tensor4 A)
    B H W C t b l r :
  pl_data_format self <> "channels_first" ->
  pl_padding self = [(t, b); (l, r)] ->
  shape4 x = [B; H; W; C] ->
  0 <= t <= H -> 0 <= b <= H -> 0 <= l <= W -> 0 <= r <= W ->
  exists out,
    PeriodicPadding2D.call self x = Ok out /\
    shape4 out = [B; t + H + b; l + W + r; C] /\
    forall n i j c,
      0 <= i < t + H + b -> 0 <= j < l + W + r ->
      at4 out n i j c = at4 x n ((i - t) mod H) ((j - l) mod W) c.
Proof.
  intros Hdf Hpad Hs Ht Hb Hl Hr.
  unfold PeriodicPadding2D.call. rewrite (proj2 (String.eqb_neq _ _) Hdf), Hs.
  rewrite list_item_1, list_item_2. pads Hpad.
  rewrite (shape4_inv Hs). generalize (at4 x) as g. intros g.
  repeat concat_step.
  eexists. split; [reflexivity|].
  split; [unfold shape4; fields4; repeat (f_equal; try lia)|].
  intros n i j c Hi Hj. fields4.
  assert (HH : H = 0 \/ 0 < H) by lia. assert (HW : W = 0 \/ 0 < W) by lia.
  destruct HH as [->|HH]; [lia|]. destruct HW as [->|HW]; [lia|].
  rewrite (@wrap_mod H (i - t)), (@wrap_mod W (j - l)) by lia.
  range_srcs; zcase; range_srcs; f_equal; lia.
Qed.

Lemma periodic_padding_2d_wraps_channels_last_witness :
  exists out,
    PeriodicPadding2D.call (padding_2d 1 0 1 2 "channels_last") image_2x3 = Ok out /\
    shape4 out = [1; 1 + 1 + 0; 1 + 2 + 2; 3] /\
    forall n i j c,
      0 <= i < 1 + 1 + 0 -> 0 <= j < 1 + 2 + 2 ->
      at4 out n i j c = at4 image_2x3 n ((i - 1) mod 1) ((j - 1) mod 2) c.
Proof.
  apply (@periodic_padding_2d_wraps_channels_last Z
           (padding_2d 1 0 1 2 "channels_last") image_2x3 1 1 2 3 1 0 1 2).
  - discriminate.
  - reflexivity.
  - reflexivity.
  - lia.
  - lia.
  - lia.
  - lia.
Defined.

Lemma slice_len_range_beyond len t :
  0 <= len < t -> slice_len len (Range (len - t) len) = Z.min t (2 * len) - len.
Proof.
  unfold slice_len, slice_stop, slice_start, clamp. intros.
  destruct (Z.ltb_spec (len - t) 0), (Z.ltb_spec len 0); lia.
Qed.

(** X3. [PeriodicPadding2D.call], channels first: a top padding [t] larger than
    the image height [H] is not rejected.  The slice [H - t : H] then starts
    at a negative position, which counts from the end of the axis, so only
    [min(t, 2H) - H] rows are put on top instead of [t]. *)
Theorem periodic_padding_2d_oversize {A : Type} self (x : tensor4 A) B C H W t b l r :
  pl_data_format self = "channels_first" ->
  pl_padding self = [(t, b); (l, r)] ->
  shape4 x = [B; C; H; W] ->
  0 <= H < t -> 0 <= b <= H -> 0 <= l <= W -> 0 <= r <= W ->
  exists out,
    PeriodicPadding2D.call self x = Ok out /\
    shape4 out = [B; C; (Z.min t (2 * H) - H) + H + b; l + W + r].
Proof.
  intros Hdf Hpad Hs Ht Hb Hl Hr.
  unfold PeriodicPadding2D.call. rewrite Hdf, Hs.
  change ("channels_first" =? "channels_first")%string with true. cbv iota.
  rewrite list_item_2, list_item_3. pads Hpad.
  rewrite (shape4_inv Hs). generalize (at4 x) as g. intros g.
  do 3 concat_step.
  rewrite K_concatenate_rows3, concat4_rows. fields4.
  rewrite ?slice_len_whole, slice_len_range_beyond by lia. decide_shapes.
  rewrite concat4_rows. fields4. ranges. decide_shapes.
  eexists. split; [reflexivity|].
  unfold shape4; fields4; repeat (f_equal; try lia).
Qed.

Lemma periodic_padding_2d_oversize_witness :
  exists out,
    PeriodicPadding2D.call (padding_2d 3 0 0 0 "channels_first") image_2x3 = Ok out /\
    shape4 out = [1; 1; (Z.min 3 (2 * 2) - 2) + 2 + 0; 0 + 3 + 0].
Proof.
  apply (@periodic_padding_2d_oversize Z (padding_2d 3 0 0 0 "channels_first")
           image_2x3 1 1 2 3 3 0 0 0);
    first [reflexivity | lia].
Defined.

(** X4. [PeriodicPadding3D.call], channels first: the volume is continued
    periodically along its three spatial axes (2, 3 and 4). *)
Theorem periodic_padding_3d_wraps {A : Type} self (x : tensor5 A)
    B C D H W lo hi t b l r :
  pl_data_format self = "channels_first" ->
  pl_padding self = [(lo, hi); (t, b); (l, r)] ->
  shape5 x = [B; C; D; H; W] ->
  0 <= lo <= D -> 0 <= hi <= D ->
  0 <= t <= H -> 0 <= b <= H -> 0 <= l <= W -> 0 <= r <= W ->
  exists out,
    PeriodicPadding3D.call self x = Ok out /\
    shape5 out = [B; C; lo + D + hi; t + H + b; l + W + r] /\
    forall n c k i j,
      0 <= k < lo + D + hi -> 0 <= i < t + H + b -> 0 <= j < l + W + r ->
      at5 out n c k i j =
      at5 x n c ((k - lo) mod D) ((i - t) mod H) ((j - l) mod W).
Proof.
  intros Hdf Hpad Hs Hlo Hhi Ht Hb Hl Hr.
  unfold PeriodicPadding3D.call. rewrite Hdf, Hs.
  change ("channels_first" =? "channels_first")%string with true. cbv iota.
  rewrite list_item_2, list_item_3, list_item_4. pads Hpad.
  rewrite (shape5_inv Hs). generalize (at5 x) as g. intros g.
  repeat concat_step.
  eexists. split; [reflexivity|].
  split; [unfold shape5; fields4; repeat (f_equal; try lia)|].
  intros n c k i j Hk Hi Hj. fields4.
  assert (HD : D = 0 \/ 0 < D) by lia.
  assert (HH : H = 0 \/ 0 < H) by lia. assert (HW : W = 0 \/ 0 < W) by lia.
  destruct HD as [->|HD]; [lia|].
  destruct HH as [->|HH]; [lia|]. destruct HW as [->|HW]; [lia|].
  rewrite (@wrap_mod D (k - lo)), (@wrap_mod H (i - t)), (@wrap_mod W (j - l)) by lia.
  range_srcs; zcase; range_srcs; f_equal; lia.
Qed.

Lemma periodic_padding_3d_wraps_witness :
  exists out,
    PeriodicPadding3D.call (padding_3d 1 2 0 1 3 1 "channels_first") volume_2x2x3
    = Ok out /\
    shape5 out = [1; 1; 1 + 2 + 2; 0 + 2 + 1; 3 + 3 + 1] /\
    forall n c k i j,
      0 <= k < 1 + 2 + 2 -> 0 <= i < 0 + 2 + 1 -> 0 <= j < 3 + 3 + 1 ->
      at5 out n c k i j =
      at5 volume_2x2x3 n c ((k - 1) mod 2) ((i - 0) mod 2) ((j - 3) mod 3).
Proof.
  apply (@periodic_padding_3d_wraps Z (padding_3d 1 2 0 1 3 1 "channels_first")
           volume_2x2x3 1 1 2 2 3 1 2 0 1 3 1);
    first [reflexivity | lia].
Defined.

(** X5. [PeriodicPadding3D.call], any other data format (channels last): the
    same periodic continuation on axes 1, 2 and 3. *)
Theorem periodic_padding_3d_wraps_channels_last {A : Type} self (x : tensor5 A)
    B D H W C lo hi t b l r :
  pl_data_format self <> "channels_first" ->
  pl_padding self = [(lo, hi); (t, b); (l, r)] ->
  shape5 x = [B; D; H; W; C] ->
  0 <= lo <= D -> 0 <= hi <= D ->
  0 <= t <= H -> 0 <= b <= H -> 0 <= l <= W -> 0 <= r <= W ->
  exists out,
    PeriodicPadding3D.call self x = Ok out /\
    shape5 out = [B; lo + D + hi; t + H + b; l + W + r; C] /\
    forall n k i j c,
      0 <= k < lo + D + hi -> 0 <= i < t + H + b -> 0 <= j < l + W + r ->
      at5 out n k i j c =
      at5 x n ((k - lo) mod D) ((i - t) mod H) ((j - l) mod W) c.
Proof.
  intros Hdf Hpad Hs Hlo Hhi Ht Hb Hl Hr.
  unfold PeriodicPadding3D.call. rewrite (proj2 (String.eqb_neq _ _) Hdf), Hs.
  rewrite list_item_1, list_item_2, list_item_3. pads Hpad.
  rewrite (shape5_inv Hs). generalize (at5 x) as g. intros g.
  repeat concat_step.
  eexists. split; [reflexivity|].
  split; [unfold shape5; fields4; repeat (f_equal; try lia)|].
  intros n k i j c Hk Hi Hj. fields4.
  assert (HD : D = 0 \/ 0 < D) by lia.
  assert (HH : H = 0 \/ 0 < H) by lia. assert (HW : W = 0 \/ 0 < W) by lia.
  destruct HD as [->|HD]; [lia|].
  destruct HH as [->|HH]; [lia|]. destruct HW as [->|HW]; [lia|].
  rewrite (@wrap_mod D (k - lo)), (@wrap_mod H (i - t)), (@wrap_mod W (j - l)) by lia.
  range_srcs; zcase; range_srcs; f_equal; lia.
Qed.

Lemma periodic_padding_3d_wraps_channels_last_witness :
  exists out,
    PeriodicPadding3D.call (padding_3d 1 0 2 1 0 2 "channels_last") volume_2x2x3
    = Ok out /\
    shape5 out = [1; 1 + 1 + 0; 2 + 2 + 1; 0 + 2 + 2; 3] /\
    forall n k i j c,
      0 <= k < 1 + 1 + 0 -> 0 <= i < 2 + 2 + 1 -> 0 <= j < 0 + 2 + 2 ->
      at5 out n k i j c =
      at5 volume_2x2x3 n ((k - 1) mod 1) ((i - 2) mod 2) ((j - 0) mod 2) c.
Proof.
  apply (@periodic_padding_3d_wraps_channels_last Z
           (padding_3d 1 0 2 1 0 2 "channels_last") volume_2x2x3
           1 1 2 2 3 1 0 2 1 0 2);
    first [discriminate | reflexivity | lia].
Defined.

(** ** The fill padding layers *)

Lemma sequence_repeat {X : Type} (t : X) m :
  sequence (repeat (Ok t) m) = Ok (repeat t m).
Proof. induction m as [|m IH]; [reflexivity|]. cbn. rewrite IH. reflexivity. Qed.

Lemma forallb_repeat {X : Type} (f : X -> bool) t m :
  f t = true -> forallb f (repeat t m) = true.
Proof. intros E. induction m as [|m IH]; [reflexivity|]. cbn. now rewrite E, IH. Qed.

Lemma agree_refl axis s : agree axis s s = true.
Proof.
  unfold agree. rewrite Nat.eqb_refl. cbn [andb].
  apply forallb_forall. intros k _. rewrite Z.eqb_refl. apply orb_true_r.
Qed.

Lemma nth_repeat_same {X : Type} (t : X) m i : nth i (repeat t m) t = t.
Proof.
  revert i. induction m as [|m IH]; intros [|i]; cbn; try reflexivity. apply IH.
Qed.

Ltac stack_times Hn n t :=
  unfold times; rewrite sequence_repeat; cbn [bind];
  let m := fresh "m" in
  let Em := fresh "Em" in
  remember (Z.to_nat n) as m eqn:Em; destruct m as [|m]; [lia|];
  cbn [repeat]; rewrite forallb_repeat by apply agree_refl; cbn [negb];
  match goal with
  | |- context [t :: repeat t ?k] => change (t :: repeat t k) with (repeat t (S k))
  end;
  rewrite repeat_length, Em, Z2Nat.id by lia;
  eexists; split; [reflexivity|]; split; [reflexivity|]; intros; cbn [at4 at5];
  now rewrite nth_repeat_same.

Section FillEval.
Context {A : Type}.
Implicit Types (x : tensor4 A) (u : tensor5 A).

Lemma K_stack_times_1 (t : tensor3 A) n :
    0 < n ->
    exists e,
      K_stack (times (Ok t) n) 1 = Ok e /\
      shape4 e = [j0 t; n; j1 t; j2 t] /\
      forall a k b c, at4 e a k b c = at3 t a b c.
  Proof. intros Hn. unfold K_stack. stack_times Hn n t. Qed.

Lemma K_stack_times_2 (t : tensor3 A) n :
    0 < n ->
    exists e,
      K_stack (times (Ok t) n) 2 = Ok e /\
      shape4 e = [j0 t; j1 t; n; j2 t] /\
      forall a b k c, at4 e a b k c = at3 t a b c.
  Proof. intros Hn. unfold K_stack. stack_times Hn n t. Qed.

Lemma K_stack_times_3 (t : tensor3 A) n :
    0 < n ->
    exists e,
      K_stack (times (Ok t) n) 3 = Ok e /\
      shape4 e = [j0 t; j1 t; j2 t; n] /\
      forall a b c k, at4 e a b c k = at3 t a b c.
  Proof. intros Hn. unfold K_stack. stack_times Hn n t. Qed.

End FillEval.

Lemma slice_len_empty len : 0 <= len -> slice_len len (Range 0 0) = 0.
Proof. intros. rewrite slice_len_range; lia. Qed.

Ltac index_edge Hx Hi :=
  unfold index4, index5, shape4, shape5, norm_axis;
  match goal with
  | |- context [nth (Z.to_nat ?k) ?l 0] =>
      let v := eval cbv in (Z.to_nat k) in
      change (nth (Z.to_nat k) l 0) with (nth v l 0); cbn [nth]
  end;
  destruct Hi as [[-> ->]|[-> ->]];
  [ change (0 <? 0) with false | change (-1 <? 0) with true ]; cbv iota;
  (rewrite (proj2 (Z.leb_le _ _)), (proj2 (Z.ltb_lt _ _)) by lia);
  cbn [andb]; eexists; (split; [reflexivity|]);
  cbn [j0 j1 j2 at3 n0 n1 n2 n3 at4]; repeat (split; [reflexivity|]);
  intros; f_equal; lia.

Ltac fill_edge Hx Hi Hidx Hstack n :=
  destruct (Z.ltb_spec 0 n) as [Hn|Hn];
  [ let t := fresh "t" in
    let Et := fresh "Et" in
    let e := fresh "e" in
    let Ee := fresh "Ee" in
    let Se := fresh "Se" in
    let Ce := fresh "Ce" in
    destruct (Hidx Hx Hi) as (t & Et & ? & ? & ? & ?);
    rewrite Et;
    destruct (Hstack t n Hn) as (e & Ee & Se & Ce);
    exists e; split; [exact Ee|];
    unfold shape4 in Se; injection Se as ? ? ? ?;
    repeat (split; [lia|]);
    intros; rewrite Ce; auto
  | eexists; split; [reflexivity|];
    cbn [getitem4 n0 n1 n2 n3 at4];
    rewrite ?slice_len_whole, ?slice_len_empty by lia;
    repeat (split; [lia|]); intros; lia ].

Section FillEdges.
Context {A : Type}.
Implicit Types (x : tensor4 A).

Lemma index4_edge_1 x i0 s0 :
    1 <= n1 x -> (i0 = 0 /\ s0 = 0) \/ (i0 = -1 /\ s0 = n1 x - 1) ->
    exists t,
      index4 x 1 i0 = Ok t /\
      j0 t = n0 x /\ j1 t = n2 x /\ j2 t = n3 x /\
      forall b r w, at3 t b r w = at4 x b s0 r w.
  Proof. intros Hx Hi. index_edge Hx Hi. Qed.

Lemma index4_edge_2 x i0 s0 :
    1 <= n2 x -> (i0 = 0 /\ s0 = 0) \/ (i0 = -1 /\ s0 = n2 x - 1) ->
    exists t,
      index4 x 2 i0 = Ok t /\
      j0 t = n0 x /\ j1 t = n1 x /\ j2 t = n3 x /\
      forall b c w, at3 t b c w = at4 x b c s0 w.
  Proof. intros Hx Hi. index_edge Hx Hi. Qed.

Lemma index4_edge_3 x i0 s0 :
    1 <= n3 x -> (i0 = 0 /\ s0 = 0) \/ (i0 = -1 /\ s0 = n3 x - 1) ->
    exists t,
      index4 x 3 i0 = Ok t /\
      j0 t = n0 x /\ j1 t = n1 x /\ j2 t = n2 x /\
      forall b c r, at3 t b c r = at4 x b c r s0.
  Proof. intros Hx Hi. index_edge Hx Hi. Qed.

Lemma fill_edge_1 x n i0 s0 :
    1 <= n1 x -> (i0 = 0 /\ s0 = 0) \/ (i0 = -1 /\ s0 = n1 x - 1) ->
    exists e,
      (if 0 <? n then K_stack (times (index4 x 1 i0) n) 1
       else Ok (getitem4 x All (Range 0 0) All All)) = Ok e /\
      n0 e = n0 x /\ n1 e = Z.max n 0 /\ n2 e = n2 x /\ n3 e = n3 x /\
      forall b c r w, 0 <= c < Z.max n 0 -> at4 e b c r w = at4 x b s0 r w.
  Proof.
    intros Hx Hi.
    fill_edge Hx Hi (@index4_edge_1 x i0 s0) (@K_stack_times_1 A) n.
  Qed.

Lemma fill_edge_2 x n i0 s0 :
    1 <= n2 x -> (i0 = 0 /\ s0 = 0) \/ (i0 = -1 /\ s0 = n2 x - 1) ->
    exists e,
      (if 0 <? n then K_stack (times (index4 x 2 i0) n) 2
       else Ok (getitem4 x All All (Range 0 0) All)) = Ok e /\
      n0 e = n0 x /\ n1 e = n1 x /\ n2 e = Z.max n 0 /\ n3 e = n3 x /\
      forall b c r w, 0 <= r < Z.max n 0 -> at4 e b c r w = at4 x b c s0 w.
  Proof.
    intros Hx Hi.
    fill_edge Hx Hi (@index4_edge_2 x i0 s0) (@K_stack_times_2 A) n.
  Qed.

Lemma fill_edge_3 x n i0 s0 :
    1 <= n3 x -> (i0 = 0 /\ s0 = 0) \/ (i0 = -1 /\ s0 = n3 x - 1) ->
    exists e,
      (if 0 <? n then K_stack (times (index4 x 3 i0) n) 3
       else Ok (getitem4 x All All All (Range 0 0))) = Ok e /\
      n0 e = n0 x /\ n1 e = n1 x /\ n2 e = n2 x /\ n3 e = Z.max n 0 /\
      forall b c r w, 0 <= w < Z.max n 0 -> at4 e b c r w = at4 x b c r s0.
  Proof.
    intros Hx Hi.
    fill_edge Hx Hi (@index4_edge_3 x i0 s0) (@K_stack_times_3 A) n.
  Qed.

End FillEdges.

Ltac unfold_local :=
  repeat match goal with o := _ |- _ => subst o end; cbn [n0 n1 n2 n3 m0 m1 m2 m3 m4].

Ltac use_edge L x n i0 s0 top :=
  let E := fresh "E" top in
  let C := fresh "C" top in
  destruct (@L _ x n i0 s0) as (top & E & ? & ? & ? & ? & C);
  [ unfold_local; lia
  | first [ left; split; [reflexivity|unfold_local; reflexivity]
          | right; split; [reflexivity|unfold_local; reflexivity] ]
  | rewrite E; cbn [bind] ].

(** X6. [FillPadding2D.call], channels first, on a non-empty image: the output
    has [max t 0 + H + max b 0] rows and [max l 0 + W + max r 0] columns, and
    every cell repeats the nearest cell of the image.  A padding that is
    zero or negative adds nothing. *)
Theorem fill_padding_2d_nearest {A : Type} self (x : tensor4 A) B C H W t b l r :
  pl_data_format self = "channels_first" ->
  pl_padding self = [(t, b); (l, r)] ->
  shape4 x = [B; C; H; W] ->
  1 <= H -> 1 <= W ->
  exists out,
    FillPadding2D.call self x = Ok out /\
    shape4 out = [B; C; Z.max t 0 + H + Z.max b 0; Z.max l 0 + W + Z.max r 0] /\
    forall n c i j,
      0 <= i < Z.max t 0 + H + Z.max b 0 ->
      0 <= j < Z.max l 0 + W + Z.max r 0 ->
      at4 out n c i j =
      at4 x n c (nearest H (i - Z.max t 0)) (nearest W (j - Z.max l 0)).
Proof.
  intros Hdf Hpad Hs HH HW.
  unfold FillPadding2D.call. rewrite Hdf.
  change ("channels_first" =? "channels_first")%string with true. cbv iota.
  pads Hpad.
  rewrite (shape4_inv Hs). generalize (at4 x) as g. intros g.
  use_edge @fill_edge_2 (Tensor4 B C H W g) t 0 0 top.
  use_edge @fill_edge_2 (Tensor4 B C H W g) b (-1) (H - 1) bottom.
  cbn [n0 n1 n2 n3 at4] in *.
  do 3 concat_step.
  match goal with
  | |- context [index4 ?o 3 0] => set (outputs := o)
  end.
  use_edge @fill_edge_3 outputs l 0 0 lft.
  use_edge @fill_edge_3 outputs r (-1) (n3 outputs - 1) rgt.
  subst outputs. cbn [n0 n1 n2 n3 at4] in *.
  do 3 concat_step.
  eexists. split; [reflexivity|].
  split; [unfold shape4; fields4; repeat (f_equal; try lia)|].
  intros n c i j Hi Hj. fields4. unfold nearest.
  repeat match goal with
         | E : n0 _ = _ |- _ => rewrite E
         | E : n1 _ = _ |- _ => rewrite E
         | E : n2 _ = _ |- _ => rewrite E
         | E : n3 _ = _ |- _ => rewrite E
         end.
  zcase;
    rewrite ?Clft, ?Crgt by lia; zcase;
    rewrite ?Ctop, ?Cbottom by lia; f_equal; lia.
Qed.

Lemma fill_padding_2d_nearest_witness :
  exists out,
    FillPadding2D.call (padding_2d 2 0 (-1) 1 "channels_first") image_2x3 = Ok out /\
    shape4 out = [1; 1; Z.max 2 0 + 2 + Z.max 0 0; Z.max (-1) 0 + 3 + Z.max 1 0] /\
    forall n c i j,
      0 <= i < Z.max 2 0 + 2 + Z.max 0 0 ->
      0 <= j < Z.max (-1) 0 + 3 + Z.max 1 0 ->
      at4 out n c i j =
      at4 image_2x3 n c (nearest 2 (i - Z.max 2 0)) (nearest 3 (j - Z.max (-1) 0)).
Proof.
  apply (@fill_padding_2d_nearest Z (padding_2d 2 0 (-1) 1 "channels_first")
           image_2x3 1 1 2 3 2 0 (-1) 1);
    first [reflexivity | lia].
Defined.

(** X7. [FillPadding2D.call], any other data format (channels last): the same
    edge replication on axes 1 and 2. *)
Theorem fill_padding_2d_nearest_channels_last {A : Type} self (x : tensor4 A)
    B H W C t b l r :
  pl_data_format self <> "channels_first" ->
  pl_padding self = [(t, b); (l, r)] ->
  shape4 x = [B; H; W; C] ->
  1 <= H -> 1 <= W ->
  exists out,
    FillPadding2D.call self x = Ok out /\
    shape4 out = [B; Z.max t 0 + H + Z.max b 0; Z.max l 0 + W + Z.max r 0; C] /\
    forall n i j c,
      0 <= i < Z.max t 0 + H + Z.max b 0 ->
      0 <= j < Z.max l 0 + W + Z.max r 0 ->
      at4 out n i j c =
      at4 x n (nearest H (i - Z.max t 0)) (nearest W (j - Z.max l 0)) c.
Proof.
  intros Hdf Hpad Hs HH HW.
  unfold FillPadding2D.call. rewrite (proj2 (String.eqb_neq _ _) Hdf).
  pads Hpad.
  rewrite (shape4_inv Hs). generalize (at4 x) as g. intros g.
  use_edge @fill_edge_1 (Tensor4 B H W C g) t 0 0 top.
  use_edge @fill_edge_1 (Tensor4 B H W C g) b (-1) (H - 1) bottom.
  cbn [n0 n1 n2 n3 at4] in *.
  do 3 concat_step.
  match goal with
  | |- context [index4 ?o 2 0] => set (outputs := o)
  end.
  use_edge @fill_edge_2 outputs l 0 0 lft.
  use_edge @fill_edge_2 outputs r (-1) (n2 outputs - 1) rgt.
  subst outputs. cbn [n0 n1 n2 n3 at4] in *.
  do 3 concat_step.
  eexists. split; [reflexivity|].
  split; [unfold shape4; fields4; repeat (f_equal; try lia)|].
  intros n i j c Hi Hj. fields4. unfold nearest.
  repeat match goal with
         | E : n0 _ = _ |- _ => rewrite E
         | E : n1 _ = _ |- _ => rewrite E
         | E : n2 _ = _ |- _ => rewrite E
         | E : n3 _ = _ |- _ => rewrite E
         end.
  zcase;
    rewrite ?Clft, ?Crgt by lia; zcase;
    rewrite ?Ctop, ?Cbottom by lia; f_equal; lia.
Qed.

Lemma fill_padding_2d_nearest_channels_last_witness :
  exists out,
    FillPadding2D.call (padding_2d 1 2 0 3 "channels_last") image_2x3 = Ok out /\
    shape4 out = [1; Z.max 1 0 + 1 + Z.max 2 0; Z.max 0 0 + 2 + Z.max 3 0; 3] /\
    forall n i j c,
      0 <= i < Z.max 1 0 + 1 + Z.max 2 0 ->
      0 <= j < Z.max 0 0 + 2 + Z.max 3 0 ->
      at4 out n i j c =
      at4 image_2x3 n (nearest 1 (i - Z.max 1 0)) (nearest 2 (j - Z.max 0 0)) c.
Proof.
  apply (@fill_padding_2d_nearest_channels_last Z (padding_2d 1 2 0 3 "channels_last")
           image_2x3 1 1 2 3 1 2 0 3);
    first [discriminate | reflexivity | lia].
Defined.

(** X8. [FillPadding2D.call], channels first, on an image without rows: a
    positive top or bottom padding has no edge row to repeat, and the call
    raises instead of returning a tensor. *)
Theorem fill_padding_2d_empty_raises {A : Type} self (x : tensor4 A) B C W t b l r :
  pl_data_format self = "channels_first" ->
  pl_padding self = [(t, b); (l, r)] ->
  shape4 x = [B; C; 0; W] ->
  0 < t \/ 0 < b ->
  exists e, FillPadding2D.call self x = Raise e.
Proof.
  intros Hdf Hpad Hs Htb.
  unfold FillPadding2D.call. rewrite Hdf.
  change ("channels_first" =? "channels_first")%string with true. cbv iota.
  pads Hpad.
  rewrite (shape4_inv Hs). generalize (at4 x) as g. intros g.
  assert (Hraise : forall i n, 0 < n ->
            K_stack (times (index4 (Tensor4 B C 0 W g) 2 i) n) 2 = Raise IndexError).
  { intros i n Hn. unfold index4, shape4, norm_axis. cbn [n0 n1 n2 n3].
    change (nth (Z.to_nat 2) [B; C; 0; W] 0) with 0.
    replace ((0 <=? (if i <? 0 then i + 0 else i)) && ((if i <? 0 then i + 0 else i) <? 0))
      with false
      by (destruct (Z.ltb_spec i 0); symmetry; apply andb_false_iff;
          rewrite Z.leb_gt, Z.ltb_ge; lia).
    unfold K_stack, times.
    destruct (Z.to_nat n) as [|m] eqn:Em; [lia|]. reflexivity. }
  destruct (Z.ltb_spec 0 t) as [Ht|Ht].
  - rewrite Hraise by lia. eexists. reflexivity.
  - destruct (Z.ltb_spec 0 b) as [Hb|Hb]; [|lia].
    rewrite Hraise by lia. eexists. reflexivity.
Qed.

Lemma fill_padding_2d_empty_raises_witness :
  exists e,
    FillPadding2D.call (padding_2d 0 1 0 0 "channels_first")
      (Tensor4 1 1 0 3 (fun _ _ _ _ => 0)) = Raise e.
Proof.
  apply (@fill_padding_2d_empty_raises Z (padding_2d 0 1 0 0 "channels_first")
           (Tensor4 1 1 0 3 (fun _ _ _ _ => 0)) 1 1 3 0 1 0 0);
    first [reflexivity | right; lia].
Defined.

Ltac fill_edge5 Hx Hi Hidx Hstack n :=
  destruct (Z.ltb_spec 0 n) as [Hn|Hn];
  [ let t := fresh "t" in
    let Et := fresh "Et" in
    let e := fresh "e" in
    let Ee := fresh "Ee" in
    let Se := fresh "Se" in
    let Ce := fresh "Ce" in
    destruct (Hidx Hx Hi) as (t & Et & ? & ? & ? & ? & ?);
    rewrite Et;
    destruct (Hstack t n Hn) as (e & Ee & Se & Ce);
    exists e; split; [exact Ee|];
    unfold shape5 in Se; injection Se as ? ? ? ? ?;
    repeat (split; [lia|]);
    intros; rewrite Ce; auto
  | eexists; split; [reflexivity|];
    cbn [getitem5 m0 m1 m2 m3 m4 at5];
    rewrite ?slice_len_whole, ?slice_len_empty by lia;
    repeat (split; [lia|]); intros; lia ].

Section FillEdges5.
Context {A : Type}.
Implicit Types (u : tensor5 A).

Lemma K_stack5_times_1 (t : tensor4 A) n :
    0 < n ->
    exists e,
      K_stack5 (times (Ok t) n) 1 = Ok e /\
      shape5 e = [n0 t; n; n1 t; n2 t; n3 t] /\
      forall a k b c d, at5 e a k b c d = at4 t a b c d.
  Proof. intros Hn. unfold K_stack5. stack_times Hn n t. Qed.

Lemma K_stack5_times_2 (t : tensor4 A) n :
    0 < n ->
    exists e,
      K_stack5 (times (Ok t) n) 2 = Ok e /\
      shape5 e = [n0 t; n1 t; n; n2 t; n3 t] /\
      forall a b k c d, at5 e a b k c d = at4 t a b c d.
  Proof. intros Hn. unfold K_stack5. stack_times Hn n t. Qed.

Lemma K_stack5_times_3 (t : tensor4 A) n :
    0 < n ->
    exists e,
      K_stack5 (times (Ok t) n) 3 = Ok e /\
      shape5 e = [n0 t; n1 t; n2 t; n; n3 t] /\
      forall a b c k d, at5 e a b c k d = at4 t a b c d.
  Proof. intros Hn. unfold K_stack5. stack_times Hn n t. Qed.

Lemma K_stack5_times_4 (t : tensor4 A) n :
    0 < n ->
    exists e,
      K_stack5 (times (Ok t) n) 4 = Ok e /\
      shape5 e = [n0 t; n1 t; n2 t; n3 t; n] /\
      forall a b c d k, at5 e a b c d k = at4 t a b c d.
  Proof. intros Hn. unfold K_stack5. stack_times Hn n t. Qed.

Lemma index5_edge_1 u i0 s0 :
    1 <= m1 u -> (i0 = 0 /\ s0 = 0) \/ (i0 = -1 /\ s0 = m1 u - 1) ->
    exists t,
      index5 u 1 i0 = Ok t /\
      n0 t = m0 u /\ n1 t = m2 u /\ n2 t = m3 u /\ n3 t = m4 u /\
      forall b r w f, at4 t b r w f = at5 u b s0 r w f.
  Proof. intros Hx Hi. index_edge Hx Hi. Qed.

Lemma index5_edge_2 u i0 s0 :
    1 <= m2 u -> (i0 = 0 /\ s0 = 0) \/ (i0 = -1 /\ s0 = m2 u - 1) ->
    exists t,
      index5 u 2 i0 = Ok t /\
      n0 t = m0 u /\ n1 t = m1 u /\ n2 t = m3 u /\ n3 t = m4 u /\
      forall b c w f, at4 t b c w f = at5 u b c s0 w f.
  Proof. intros Hx Hi. index_edge Hx Hi. Qed.

Lemma index5_edge_3 u i0 s0 :
    1 <= m3 u -> (i0 = 0 /\ s0 = 0) \/ (i0 = -1 /\ s0 = m3 u - 1) ->
    exists t,
      index5 u 3 i0 = Ok t /\
      n0 t = m0 u /\ n1 t = m1 u /\ n2 t = m2 u /\ n3 t = m4 u /\
      forall b c r f, at4 t b c r f = at5 u b c r s0 f.
  Proof. intros Hx Hi. index_edge Hx Hi. Qed.

Lemma index5_edge_4 u i0 s0 :
    1 <= m4 u -> (i0 = 0 /\ s0 = 0) \/ (i0 = -1 /\ s0 = m4 u - 1) ->
    exists t,
      index5 u 4 i0 = Ok t /\
      n0 t = m0 u /\ n1 t = m1 u /\ n2 t = m2 u /\ n3 t = m3 u /\
      forall b c r w, at4 t b c r w = at5 u b c r w s0.
  Proof. intros Hx Hi. index_edge Hx Hi. Qed.

Lemma fill_edge5_1 u n i0 s0 :
    1 <= m1 u -> (i0 = 0 /\ s0 = 0) \/ (i0 = -1 /\ s0 = m1 u - 1) ->
    exists e,
      (if 0 <? n then K_stack5 (times (index5 u 1 i0) n) 1
       else Ok (getitem5 u All (Range 0 0) All All All)) = Ok e /\
      m0 e = m0 u /\ m1 e = Z.max n 0 /\ m2 e = m2 u /\ m3 e = m3 u /\ m4 e = m4 u /\
      forall b c r w f, 0 <= c < Z.max n 0 -> at5 e b c r w f = at5 u b s0 r w f.
  Proof.
    intros Hx Hi.
    fill_edge5 Hx Hi (@index5_edge_1 u i0 s0) (@K_stack5_times_1) n.
  Qed.

Lemma fill_edge5_2 u n i0 s0 :
    1 <= m2 u -> (i0 = 0 /\ s0 = 0) \/ (i0 = -1 /\ s0 = m2 u - 1) ->
    exists e,
      (if 0 <? n then K_stack5 (times (index5 u 2 i0) n) 2
       else Ok (getitem5 u All All (Range 0 0) All All)) = Ok e /\
      m0 e = m0 u /\ m1 e = m1 u /\ m2 e = Z.max n 0 /\ m3 e = m3 u /\ m4 e = m4 u /\
      forall b c r w f, 0 <= r < Z.max n 0 -> at5 e b c r w f = at5 u b c s0 w f.
  Proof.
    intros Hx Hi.
    fill_edge5 Hx Hi (@index5_edge_2 u i0 s0) (@K_stack5_times_2) n.
  Qed.

Lemma fill_edge5_3 u n i0 s0 :
    1 <= m3 u -> (i0 = 0 /\ s0 = 0) \/ (i0 = -1 /\ s0 = m3 u - 1) ->
    exists e,
      (if 0 <? n then K_stack5 (times (index5 u 3 i0) n) 3
       else Ok (getitem5 u All All All (Range 0 0) All)) = Ok e /\
      m0 e = m0 u /\ m1 e = m1 u /\ m2 e = m2 u /\ m3 e = Z.max n 0 /\ m4 e = m4 u /\
      forall b c r w f, 0 <= w < Z.max n 0 -> at5 e b c r w f = at5 u b c r s0 f.
  Proof.
    intros Hx Hi.
    fill_edge5 Hx Hi (@index5_edge_3 u i0 s0) (@K_stack5_times_3) n.
  Qed.

Lemma fill_edge5_4 u n i0 s0 :
    1 <= m4 u -> (i0 = 0 /\ s0 = 0) \/ (i0 = -1 /\ s0 = m4 u - 1) ->
    exists e,
      (if 0 <? n then K_stack5 (times (index5 u 4 i0) n) 4
       else Ok (getitem5 u All All All All (Range 0 0))) = Ok e /\
      m0 e = m0 u /\ m1 e = m1 u /\ m2 e = m2 u /\ m3 e = m3 u /\ m4 e = Z.max n 0 /\
      forall b c r w f, 0 <= f < Z.max n 0 -> at5 e b c r w f = at5 u b c r w s0.
  Proof.
    intros Hx Hi.
    fill_edge5 Hx Hi (@index5_edge_4 u i0 s0) (@K_stack5_times_4) n.
  Qed.

End FillEdges5.

Ltac dims :=
  repeat match goal with
         | E : n0 _ = _ |- _ => rewrite E
         | E : n1 _ = _ |- _ => rewrite E
         | E : n2 _ = _ |- _ => rewrite E
         | E : n3 _ = _ |- _ => rewrite E
         | E : m0 _ = _ |- _ => rewrite E
         | E : m1 _ = _ |- _ => rewrite E
         | E : m2 _ = _ |- _ => rewrite E
         | E : m3 _ = _ |- _ => rewrite E
         | E : m4 _ = _ |- _ => rewrite E
         end.

Ltac fill_axis L u lo hi :=
  let low := fresh "low" in
  let high := fresh "high" in
  let Clow := fresh "Clow" in
  let Chigh := fresh "Chigh" in
  let Elow := fresh "Elow" in
  let Ehigh := fresh "Ehigh" in
  destruct (@L _ u lo 0 0) as (low & Elow & ? & ? & ? & ? & ? & Clow);
  [ lia | left; split; reflexivity | ];
  match goal with
  | |- context [index5 u _ (-1)] =>
      match goal with
      | H : 1 <= ?d |- _ =>
          destruct (@L _ u hi (-1) (d - 1)) as (high & Ehigh & ? & ? & ? & ? & ? & Chigh);
          [ lia | right; split; reflexivity | ]
      end
  end;
  rewrite Elow, Ehigh; cbn [bind];
  do 3 concat_step;
  eexists; split; [reflexivity|]; split; [intros; reflexivity|];
  cbn [m0 m1 m2 m3 m4 at5]; repeat (split; [lia|]);
  intros; unfold nearest; dims;
  zcase; rewrite ?Clow, ?Chigh by lia; f_equal; lia.

Section FillAxes5.
Context {A : Type}.
Implicit Types (u : tensor5 A).

Lemma fill_axis5_2 u lo hi :
    1 <= m2 u ->
    exists out,
      (low <- (if 0 <? lo then K_stack5 (times (index5 u 2 0) lo) 2
               else Ok (getitem5 u All All (Range 0 0) All All)) ;;
       high <- (if 0 <? hi then K_stack5 (times (index5 u 2 (-1)) hi) 2
                else Ok (getitem5 u All All (Range 0 0) All All)) ;;
       K_concatenate5 [Ok low; Ok u; Ok high] 2) = Ok out /\
      (forall (Y : Type) (K : tensor5 A -> result Y),
         (low <- (if 0 <? lo then K_stack5 (times (index5 u 2 0) lo) 2
                  else Ok (getitem5 u All All (Range 0 0) All All)) ;;
          high <- (if 0 <? hi then K_stack5 (times (index5 u 2 (-1)) hi) 2
                   else Ok (getitem5 u All All (Range 0 0) All All)) ;;
          outputs <- K_concatenate5 [Ok low; Ok u; Ok high] 2 ;;
          K outputs) = K out) /\
      m0 out = m0 u /\ m1 out = m1 u /\
      m2 out = Z.max lo 0 + m2 u + Z.max hi 0 /\
      m3 out = m3 u /\ m4 out = m4 u /\
      forall n c k i j,
        0 <= k < Z.max lo 0 + m2 u + Z.max hi 0 ->
        at5 out n c k i j = at5 u n c (nearest (m2 u) (k - Z.max lo 0)) i j.
  Proof. intros Hu. fill_axis @fill_edge5_2 u lo hi. Qed.

Lemma fill_axis5_3 u lo hi :
    1 <= m3 u ->
    exists out,
      (low <- (if 0 <? lo then K_stack5 (times (index5 u 3 0) lo) 3
               else Ok (getitem5 u All All All (Range 0 0) All)) ;;
       high <- (if 0 <? hi then K_stack5 (times (index5 u 3 (-1)) hi) 3
                else Ok (getitem5 u All All All (Range 0 0) All)) ;;
       K_concatenate5 [Ok low; Ok u; Ok high] 3) = Ok out /\
      (forall (Y : Type) (K : tensor5 A -> result Y),
         (low <- (if 0 <? lo then K_stack5 (times (index5 u 3 0) lo) 3
                  else Ok (getitem5 u All All All (Range 0 0) All)) ;;
          high <- (if 0 <? hi then K_stack5 (times (index5 u 3 (-1)) hi) 3
                   else Ok (getitem5 u All All All (Range 0 0) All)) ;;
          outputs <- K_concatenate5 [Ok low; Ok u; Ok high] 3 ;;
          K outputs) = K out) /\
      m0 out = m0 u /\ m1 out = m1 u /\ m2 out = m2 u /\
      m3 out = Z.max lo 0 + m3 u + Z.max hi 0 /\
      m4 out = m4 u /\
      forall n c k i j,
        0 <= i < Z.max lo 0 + m3 u + Z.max hi 0 ->
        at5 out n c k i j = at5 u n c k (nearest (m3 u) (i - Z.max lo 0)) j.
  Proof. intros Hu. fill_axis @fill_edge5_3 u lo hi. Qed.

Lemma fill_axis5_4 u lo hi :
    1 <= m4 u ->
    exists out,
      (low <- (if 0 <? lo then K_stack5 (times (index5 u 4 0) lo) 4
               else Ok (getitem5 u All All All All (Range 0 0))) ;;
       high <- (if 0 <? hi then K_stack5 (times (index5 u 4 (-1)) hi) 4
                else Ok (getitem5 u All All All All (Range 0 0))) ;;
       K_concatenate5 [Ok low; Ok u; Ok high] 4) = Ok out /\
      (forall (Y : Type) (K : tensor5 A -> result Y),
         (low <- (if 0 <? lo then K_stack5 (times (index5 u 4 0) lo) 4
                  else Ok (getitem5 u All All All All (Range 0 0))) ;;
          high <- (if 0 <? hi then K_stack5 (times (index5 u 4 (-1)) hi) 4
                   else Ok (getitem5 u All All All All (Range 0 0))) ;;
          outputs <- K_concatenate5 [Ok low; Ok u; Ok high] 4 ;;
          K outputs) = K out) /\
      m0 out = m0 u /\ m1 out = m1 u /\ m2 out = m2 u /\ m3 out = m3 u /\
      m4 out = Z.max lo 0 + m4 u + Z.max hi 0 /\
      forall n c k i j,
        0 <= j < Z.max lo 0 + m4 u + Z.max hi 0 ->
        at5 out n c k i j = at5 u n c k i (nearest (m4 u) (j - Z.max lo 0)).
  Proof. intros Hu. fill_axis @fill_edge5_4 u lo hi. Qed.

Lemma fill_axis5_1 u lo hi :
    1 <= m1 u ->
    exists out,
      (low <- (if 0 <? lo then K_stack5 (times (index5 u 1 0) lo) 1
               else Ok (getitem5 u All (Range 0 0) All All All)) ;;
       high <- (if 0 <? hi then K_stack5 (times (index5 u 1 (-1)) hi) 1
                else Ok (getitem5 u All (Range 0 0) All All All)) ;;
       K_concatenate5 [Ok low; Ok u; Ok high] 1) = Ok out /\
      (forall (Y : Type) (K : tensor5 A -> result Y),
         (low <- (if 0 <? lo then K_stack5 (times (index5 u 1 0) lo) 1
                  else Ok (getitem5 u All (Range 0 0) All All All)) ;;
          high <- (if 0 <? hi then K_stack5 (times (index5 u 1 (-1)) hi) 1
                   else Ok (getitem5 u All (Range 0 0) All All All)) ;;
          outputs <- K_concatenate5 [Ok low; Ok u; Ok high] 1 ;;
          K outputs) = K out) /\
      m0 out = m0 u /\
      m1 out = Z.max lo 0 + m1 u + Z.max hi 0 /\
      m2 out = m2 u /\ m3 out = m3 u /\ m4 out = m4 u /\
      forall n k i j c,
        0 <= k < Z.max lo 0 + m1 u + Z.max hi 0 ->
        at5 out n k i j c = at5 u n (nearest (m1 u) (k - Z.max lo 0)) i j c.
  Proof. intros Hu. fill_axis @fill_edge5_1 u lo hi. Qed.

End FillAxes5.

(** X9. [FillPadding3D.call], channels first, on a non-empty volume: each of the
    three spatial axes grows by its positive paddings, and every cell repeats
    the nearest cell of the volume. *)
Theorem fill_padding_3d_nearest {A : Type} self (x : tensor5 A)
    B C D H W lo hi t b l r :
  pl_data_format self = "channels_first" ->
  pl_padding self = [(lo, hi); (t, b); (l, r)] ->
  shape5 x = [B; C; D; H; W] ->
  1 <= D -> 1 <= H -> 1 <= W ->
  exists out,
    FillPadding3D.call self x = Ok out /\
    shape5 out = [B; C; Z.max lo 0 + D + Z.max hi 0;
                  Z.max t 0 + H + Z.max b 0; Z.max l 0 + W + Z.max r 0] /\
    forall n c k i j,
      0 <= k < Z.max lo 0 + D + Z.max hi 0 ->
      0 <= i < Z.max t 0 + H + Z.max b 0 ->
      0 <= j < Z.max l 0 + W + Z.max r 0 ->
      at5 out n c k i j =
      at5 x n c (nearest D (k - Z.max lo 0)) (nearest H (i - Z.max t 0))
        (nearest W (j - Z.max l 0)).
Proof.
  intros Hdf Hpad Hs HD HH HW.
  unfold FillPadding3D.call. rewrite Hdf.
  change ("channels_first" =? "channels_first")%string with true. cbv iota.
  pads Hpad.
  unfold shape5 in Hs. injection Hs as E0 E1 E2 E3 E4.
  destruct (@fill_axis5_2 _ x lo hi) as (o1 & _ & K1 & ? & ? & ? & ? & ? & C1); [lia|].
  rewrite K1.
  destruct (@fill_axis5_3 _ o1 t b) as (o2 & _ & K2 & ? & ? & ? & ? & ? & C2); [lia|].
  rewrite K2.
  destruct (@fill_axis5_4 _ o2 l r) as (o3 & E3' & _ & ? & ? & ? & ? & ? & C3); [lia|].
  rewrite E3'.
  eexists. split; [reflexivity|].
  split; [unfold shape5; repeat (f_equal; try lia)|].
  intros n c k i j Hk Hi Hj.
  rewrite C3, C2, C1 by lia.
  repeat (f_equal; try lia).
Qed.

Lemma fill_padding_3d_nearest_witness :
  exists out,
    FillPadding3D.call (padding_3d 1 0 0 2 (-3) 1 "channels_first") volume_2x2x3
    = Ok out /\
    shape5 out = [1; 1; Z.max 1 0 + 2 + Z.max 0 0;
                  Z.max 0 0 + 2 + Z.max 2 0; Z.max (-3) 0 + 3 + Z.max 1 0] /\
    forall n c k i j,
      0 <= k < Z.max 1 0 + 2 + Z.max 0 0 ->
      0 <= i < Z.max 0 0 + 2 + Z.max 2 0 ->
      0 <= j < Z.max (-3) 0 + 3 + Z.max 1 0 ->
      at5 out n c k i j =
      at5 volume_2x2x3 n c (nearest 2 (k - Z.max 1 0)) (nearest 2 (i - Z.max 0 0))
        (nearest 3 (j - Z.max (-3) 0)).
Proof.
  apply (@fill_padding_3d_nearest Z (padding_3d 1 0 0 2 (-3) 1 "channels_first")
           volume_2x2x3 1 1 2 2 3 1 0 0 2 (-3) 1);
    first [reflexivity | lia].
Defined.

(** X10. [FillPadding3D.call], any other data format (channels last): the same
    edge replication on axes 1, 2 and 3. *)
Theorem fill_padding_3d_nearest_channels_last {A : Type} self (x : tensor5 A)
    B D H W C lo hi t b l r :
  pl_data_format self <> "channels_first" ->
  pl_padding self = [(lo, hi); (t, b); (l, r)] ->
  shape5 x = [B; D; H; W; C] ->
  1 <= D -> 1 <= H -> 1 <= W ->
  exists out,
    FillPadding3D.call self x = Ok out /\
    shape5 out = [B; Z.max lo 0 + D + Z.max hi 0;
                  Z.max t 0 + H + Z.max b 0; Z.max l 0 + W + Z.max r 0; C] /\
    forall n k i j c,
      0 <= k < Z.max lo 0 + D + Z.max hi 0 ->
      0 <= i < Z.max t 0 + H + Z.max b 0 ->
      0 <= j < Z.max l 0 + W + Z.max r 0 ->
      at5 out n k i j c =
      at5 x n (nearest D (k - Z.max lo 0)) (nearest H (i - Z.max t 0))
        (nearest W (j - Z.max l 0)) c.
Proof.
  intros Hdf Hpad Hs HD HH HW.
  unfold FillPadding3D.call. rewrite (proj2 (String.eqb_neq _ _) Hdf).
  pads Hpad.
  unfold shape5 in Hs. injection Hs as E0 E1 E2 E3 E4.
  destruct (@fill_axis5_1 _ x lo hi) as (o1 & _ & K1 & ? & ? & ? & ? & ? & C1); [lia|].
  rewrite K1.
  destruct (@fill_axis5_2 _ o1 t b) as (o2 & _ & K2 & ? & ? & ? & ? & ? & C2); [lia|].
  rewrite K2.
  destruct (@fill_axis5_3 _ o2 l r) as (o3 & E3' & _ & ? & ? & ? & ? & ? & C3); [lia|].
  rewrite E3'.
  eexists. split; [reflexivity|].
  split; [unfold shape5; repeat (f_equal; try lia)|].
  intros n k i j c Hk Hi Hj.
  rewrite C3, C2, C1 by lia.
  repeat (f_equal; try lia).
Qed.

Lemma fill_padding_3d_nearest_channels_last_witness :
  exists out,
    FillPadding3D.call (padding_3d 0 1 2 0 1 1 "channels_last") volume_2x2x3
    = Ok out /\
    shape5 out = [1; Z.max 0 0 + 1 + Z.max 1 0;
                  Z.max 2 0 + 2 + Z.max 0 0; Z.max 1 0 + 2 + Z.max 1 0; 3] /\
    forall n k i j c,
      0 <= k < Z.max 0 0 + 1 + Z.max 1 0 ->
      0 <= i < Z.max 2 0 + 2 + Z.max 0 0 ->
      0 <= j < Z.max 1 0 + 2 + Z.max 1 0 ->
      at5 out n k i j c =
      at5 volume_2x2x3 n (nearest 1 (k - Z.max 0 0)) (nearest 2 (i - Z.max 2 0))
        (nearest 2 (j - Z.max 1 0)) c.
Proof.
  apply (@fill_padding_3d_nearest_channels_last Z
           (padding_3d 0 1 2 0 1 1 "channels_last") volume_2x2x3
           1 1 2 2 3 0 1 2 0 1 1);
    first [discriminate | reflexivity | lia].
Defined.

(** ** More on the cubed-sphere padding *)

Lemma trace_wf_inside N f i j :
  0 <= i < N -> 0 <= j < N -> trace_wf N (f, (i, j)) = (f, (i, j)).
Proof. intros Hi Hj. traces. reflexivity. Qed.

Lemma face_index_of k : 0 <= k < 6 -> face_index (face_of k) = k.
Proof.
  intros Hk.
  assert (k = 0 \/ k = 1 \/ k = 2 \/ k = 3 \/ k = 4 \/ k = 5) as HK by lia.
  destruct HK as [->|[->|[->|[->|[->| ->]]]]]; reflexivity.
Qed.

(** X11. [CubeSpherePadding2D]: the padding never changes the data of a face.
    Cutting the halo off again (rows and columns [p .. p + N - 1] of every
    face) gives back the input. *)
Theorem pad_keeps_interior {A : Type} p N B C (T : tensor5 A) :
  1 <= p <= N ->
  shape5 T = [B; C; N; N; 6] ->
  exists out,
    pad p T = Ok out /\
    forall b c i j k,
      0 <= i < N -> 0 <= j < N -> 0 <= k < 6 ->
      at5 (getitem5 out All All (Range p (p + N)) (Range p (p + N)) All) b c i j k
      = at5 T b c i j k.
Proof.
  intros Hp Hs. destruct (pad_trace Hp Hs) as (out & E & S & P).
  exists out. split; [exact E|].
  intros b c i j k Hi Hj Hk.
  rewrite (shape5_inv S). cbn [getitem5 at5 m0 m1 m2 m3 m4].
  rewrite !slice_src_all, !slice_src_range by lia.
  rewrite <- (face_index_of Hk), P by lia.
  replace (p + i - p) with i by lia. replace (p + j - p) with j by lia.
  rewrite trace_wf_inside by lia. reflexivity.
Qed.

Lemma pad_keeps_interior_witness :
  exists out,
    pad 1 (cell_named 2) = Ok out /\
    forall b c i j k,
      0 <= i < 2 -> 0 <= j < 2 -> 0 <= k < 6 ->
      at5 (getitem5 out All All (Range 1 (1 + 2)) (Range 1 (1 + 2)) All) b c i j k
      = at5 (cell_named 2) b c i j k.
Proof.
  apply (@pad_keeps_interior Z 1 2 1 1 (cell_named 2)); [lia | reflexivity].
Defined.

(** X12. [CubeSpherePadding2D]: every halo cell of a face is a copy of one stored
    cell of a different face.  Which cell it is depends on the position
    only, not on the data. *)
Theorem pad_halo_from_other_face p N f r w :
  1 <= p <= N ->
  0 <= r < N + 2 * p -> 0 <= w < N + 2 * p ->
  r < p \/ N + p <= r \/ w < p \/ N + p <= w ->
  exists g i j,
    g <> f /\ 0 <= i < N /\ 0 <= j < N /\
    forall (A : Type) (T : tensor5 A) B C out b c,
      shape5 T = [B; C; N; N; 6] ->
      pad p T = Ok out ->
      at5 out b c r w (face_index f) = at5 T b c i j (face_index g).
Proof.
  intros Hp Hr Hw Hhalo.
  pose proof (@trace_wf_in_face p N f r w Hp Hr Hw) as Hin.
  remember (trace_wf N (f, (r - p, w - p))) as q eqn:Eq.
  destruct q as [g [i j]].
  apply in_face_true in Hin.
  exists g, i, j. split; [|split; [lia|split; [lia|]]].
  - revert Eq. destruct f; traces; intros Eq; injection Eq as -> _ _;
      first [discriminate | lia].
  - intros A T B C out b c Hs E.
    destruct (pad_trace Hp Hs) as (out' & E' & _ & P).
    rewrite E in E'. injection E' as <-.
    rewrite P, <- Eq by lia. reflexivity.
Qed.

Lemma pad_halo_from_other_face_witness :
  exists g i j,
    g <> F4 /\ 0 <= i < 3 /\ 0 <= j < 3 /\
    forall (A : Type) (T : tensor5 A) B C out b c,
      shape5 T = [B; C; 3; 3; 6] ->
      pad 2 T = Ok out ->
      at5 out b c 0 6 (face_index F4) = at5 T b c i j (face_index g).
Proof.
  apply (@pad_halo_from_other_face 2 3 F4 0 6); lia.
Defined.

Lemma getitem_six_faces {A : Type} (T : tensor5 A) s2 s3 f :
  6 <= m4 T -> 0 <= f < 6 ->
  getitem T s2 s3 f = getitem (six_faces T) s2 s3 f.
Proof.
  intros HT Hf. rewrite !getitem_ok by (cbn [six_faces m4]; lia). reflexivity.
Qed.

(** X13. [CubeSpherePadding2D]: faces beyond the sixth are never read.  The
    layer, whatever its padding and whatever the face sizes, gives on data
    with more than six faces the result it gives on the first six. *)
Theorem pad_ignores_extra_faces {A : Type} p (T : tensor5 A) :
  6 <= m4 T -> pad p T = pad p (six_faces T).
Proof.
  intros HT. rewrite !pad_unfold. f_equal.
  unfold CubeSpherePadding2D.height_pass, ellipsis.
  rewrite !(@getitem_six_faces A T) by lia. reflexivity.
Qed.

Lemma pad_ignores_extra_faces_witness :
  pad 1 (Tensor5 1 1 2 2 8 (fun _ _ r w f => 100 * f + 10 * r + w))
  = pad 1 (six_faces (Tensor5 1 1 2 2 8 (fun _ _ r w f => 100 * f + 10 * r + w))).
Proof.
  apply (@pad_ignores_extra_faces Z 1
           (Tensor5 1 1 2 2 8 (fun _ _ r w f => 100 * f + 10 * r + w))).
  cbn [m4]. lia.
Defined.

(** X14. [CubeSpherePadding2D]: data with fewer than six faces is rejected,
    whatever the padding: the first pass indexes a face that is not there. *)
Theorem pad_needs_six_faces {A : Type} p (T : tensor5 A) :
  0 <= m4 T < 6 -> exists e, pad p T = Raise e.
Proof.
  intros HT. rewrite pad_unfold.
  unfold CubeSpherePadding2D.height_pass, ellipsis.
  assert (HK : m4 T = 0 \/ m4 T = 1 \/ m4 T = 2 \/ m4 T = 3 \/ m4 T = 4 \/ m4 T = 5) by lia.
  assert (Hbad : forall s2 s3 f, m4 T <= f -> 0 <= f ->
            getitem T s2 s3 f = Raise IndexError)
    by (intros; now apply getitem_out_of_range).
  destruct (Z.leb_spec (m4 T) 4) as [H4|H4].
  - rewrite (Hbad (From (- p)) All 4) by lia. eexists. reflexivity.
  - rewrite (@getitem_ok A T (From (- p)) All 4) by lia.
    unfold ellipsis. rewrite (@getitem_ok A T All All 0) by lia.
    rewrite (Hbad (To p) All 5) by lia. eexists. reflexivity.
Qed.

Lemma pad_needs_six_faces_witness :
  exists e, pad 1 (Tensor5 1 1 2 2 5 (fun _ _ r w f => 100 * f + 10 * r + w)) = Raise e.
Proof.
  apply (@pad_needs_six_faces Z 1
           (Tensor5 1 1 2 2 5 (fun _ _ r w f => 100 * f + 10 * r + w))).
  cbn [m4]. lia.
Defined.

(** ** The padding and the convolution together *)

(** X15. [CubeSpherePadding2D] then [CubeSphereConv2D]: a halo of width [p]
    followed by a valid convolution with a [(2p+1) x (2p+1)] kernel, unit
    strides and no dilation gives back faces of the size of the input. *)
Theorem pad_then_conv_keeps_size {A : Type} {SA : Scalar A} cfg
    (args : CubeSphereConv2D.arguments A) l0 l input_shape (T : tensor5 A) B C N p :
  CubeSphereConv2D.init cfg args = Ok l0 ->
  list_item input_shape 1 = Ok (Some C) ->
  CubeSphereConv2D.build l0 input_shape = Ok l ->
  CubeSphereConv2D.kernel_size l = [2 * p + 1; 2 * p + 1] ->
  CubeSphereConv2D.strides l = [1; 1] ->
  CubeSphereConv2D.dilation_rate l = [1; 1] ->
  CubeSphereConv2D.padding l = "valid" ->
  (forall x, shape5 (CubeSphereConv2D.activation l x) = shape5 x) ->
  1 <= p <= N ->
  shape5 T = [B; C; N; N; 6] ->
  exists padded out,
    pad p T = Ok padded /\
    CubeSphereConv2D.call l padded = Ok out /\
    shape5 out = [B; CubeSphereConv2D.filters l; N; N; 6].
Proof.
  intros Hinit Hc Hbuild Hks Hst Hdl Hpd Hact Hp Hs.
  destruct (pad_shape Hp Hs) as (padded & Epad & Spad).
  exists padded.
  assert (Hfit : (CubeSphereConv2D.padding l = "valid"
                  /\ (2 * p + 1 - 1) * 1 + 1 <= N + 2 * p
                  /\ (2 * p + 1 - 1) * 1 + 1 <= N + 2 * p)
                 \/ (CubeSphereConv2D.padding l = "same"
                     /\ 0 <= N + 2 * p /\ 0 <= N + 2 * p))
    by (left; split; [assumption|lia]).
  assert (Hone : 1 <= 1) by lia.
  assert (Hsd : (1 = 1 /\ 1 = 1) \/ (1 = 1 /\ 1 = 1)) by (left; lia).
  destruct (@conv_output_shape_general A SA cfg args l0 l input_shape
              B C (N + 2 * p) (N + 2 * p) (2 * p + 1) (2 * p + 1) 1 1 1 1 padded
              Hinit Hc Hbuild Spad Hks Hst Hdl Hfit Hone Hone Hone Hone Hsd Hact)
    as (out & oh & ow & Ecall & Eoh & Eow & Sout & _).
  exists out. split; [exact Epad|]. split; [exact Ecall|].
  rewrite Hpd in Eoh, Eow.
  rewrite conv_output_length_window in Eoh, Eow by (auto; lia).
  change ("valid" =? "same")%string with false in Eoh, Eow.
  unfold window_out in Eoh, Eow.
  injection Eoh as <-. injection Eow as <-.
  rewrite Sout. repeat f_equal.
  all: rewrite Z.div_1_r; lia.
Qed.

Lemma pad_then_conv_keeps_size_witness :
  exists padded out,
    pad 1 end_to_end_input = Ok padded /\
    CubeSphereConv2D.call
      (returned example_layer
         (CubeSphereConv2D.build
            (returned example_layer (CubeSphereConv2D.init channels_last end_to_end_args))
            [None; Some 2; Some 10; Some 10; Some 6]))
      padded = Ok out /\
    shape5 out =
      [1; CubeSphereConv2D.filters
            (returned example_layer
               (CubeSphereConv2D.build
                  (returned example_layer
                     (CubeSphereConv2D.init channels_last end_to_end_args))
                  [None; Some 2; Some 10; Some 10; Some 6]));
       8; 8; 6].
Proof.
  apply (@pad_then_conv_keeps_size Z Z_scalar channels_last end_to_end_args
           (returned example_layer (CubeSphereConv2D.init channels_last end_to_end_args))
           (returned example_layer
              (CubeSphereConv2D.build
                 (returned example_layer
                    (CubeSphereConv2D.init channels_last end_to_end_args))
                 [None; Some 2; Some 10; Some 10; Some 6]))
           [None; Some 2; Some 10; Some 10; Some 6] end_to_end_input 1 2 8 1).
  - apply returned_ok. vm_compute. reflexivity.
  - reflexivity.
  - apply returned_ok. vm_compute. reflexivity.
  - vm_compute. reflexivity.
  - vm_compute. reflexivity.
  - vm_compute. reflexivity.
  - vm_compute. reflexivity.
  - intros x. reflexivity.
  - lia.
  - reflexivity.
Defined.

(** ** The history callbacks *)

Section Dictionaries.
Context {V : Type}.
Implicit Types (d : pydict (list V)) (k : string).

Lemma dict_get_setdefault_append k k' v d :
    dict_get k (setdefault_append k' v d) =
    if (k' =? k)%string then grow (dict_get k d) [v] else dict_get k d.
  Proof.
    induction d as [|[k0 l] d IH]; cbn [setdefault_append dict_get grow].
    - destruct (String.eqb_spec k' k); reflexivity.
    - destruct (String.eqb_spec k0 k') as [E|E]; cbn [dict_get].
      + subst k0. destruct (String.eqb_spec k' k); reflexivity.
      + rewrite IH. destruct (String.eqb_spec k0 k) as [E1|E1];
          destruct (String.eqb_spec k' k) as [E2|E2]; try reflexivity.
        congruence.
  Qed.

Lemma grow_nil (o : option (list V)) : grow o [] = o.
  Proof. reflexivity. Qed.

Lemma grow_app (o : option (list V)) a b : grow (grow o a) b = grow o (a ++ b).
  Proof.
    destruct a as [|x a]; [reflexivity|].
    destruct b as [|y b]; cbn [grow app].
    - now rewrite app_nil_r.
    - destruct o; cbn; now rewrite <- ?app_assoc.
  Qed.

Lemma entry_grow (vs : list V) : entry vs = grow None vs.
  Proof. destruct vs; reflexivity. Qed.

Lemma values_of_cons k (kv : string * V) logs :
    values_of k (kv :: logs) =
    ((if (fst kv =? k)%string then [snd kv] else []) ++ values_of k logs)%list.
  Proof.
    unfold values_of. cbn [filter]. destruct (fst kv =? k)%string; reflexivity.
  Qed.

Lemma dict_get_items k (items : pydict V) d :
    dict_get k (fold_left (fun d kv => setdefault_append (fst kv) (snd kv) d) items d)
    = grow (dict_get k d) (values_of k items).
  Proof.
    revert d. induction items as [|kv items IH]; intros d; [reflexivity|].
    cbn [fold_left]. rewrite IH, dict_get_setdefault_append, values_of_cons.
    destruct (fst kv =? k)%string; [now rewrite grow_app|reflexivity].
  Qed.

End Dictionaries.

Section ListItems.
Context {X : Type}.
Implicit Types (l : list X).

Lemma list_item_nth l i dflt :
    0 <= i < Z.of_nat (List.length l) ->
    list_item l i = Ok (nth (Z.to_nat i) l dflt).
  Proof.
    intros Hi. unfold list_item, norm_axis.
    rewrite (proj2 (Z.ltb_ge i 0)) by lia.
    rewrite (proj2 (Z.ltb_ge i 0)) by lia.
    destruct (nth_error l (Z.to_nat i)) as [x|] eqn:E.
    - now rewrite (nth_error_nth _ _ dflt E).
    - apply nth_error_None in E. lia.
  Qed.

Lemma list_item_beyond l i :
    Z.of_nat (List.length l) <= i -> list_item l i = Raise IndexError.
  Proof.
    intros Hi. unfold list_item, norm_axis.
    rewrite (proj2 (Z.ltb_ge i 0)) by lia.
    rewrite (proj2 (Z.ltb_ge i 0)) by lia.
    destruct (nth_error l (Z.to_nat i)) as [x|] eqn:E; [|reflexivity].
    assert (nth_error l (Z.to_nat i) <> None) as Hn by congruence.
    apply nth_error_Some in Hn. lia.
  Qed.

Lemma list_replace_length l i x :
    0 <= i < Z.of_nat (List.length l) ->
    List.length (list_replace l i x) = List.length l.
  Proof.
    intros Hi. unfold list_replace, norm_axis.
    rewrite (proj2 (Z.ltb_ge i 0)) by lia.
    rewrite length_app. cbn [List.length]. rewrite length_firstn, length_skipn. lia.
  Qed.

Lemma list_replace_nth l i x dflt n :
    0 <= i < Z.of_nat (List.length l) ->
    nth n (list_replace l i x) dflt =
    if Nat.eqb n (Z.to_nat i) then x else nth n l dflt.
  Proof.
    intros Hi. unfold list_replace, norm_axis.
    rewrite (proj2 (Z.ltb_ge i 0)) by lia.
    set (m := Z.to_nat i). assert (Hm : (m < List.length l)%nat) by lia.
    clearbody m. clear Hi.
    destruct (Nat.eqb_spec n m) as [->|Hn].
    - rewrite app_nth2; rewrite length_firstn; [|lia].
      replace (m - Nat.min m (List.length l))%nat with 0%nat by lia. reflexivity.
    - destruct (Nat.lt_ge_cases n m) as [Hlt|Hge].
      + rewrite app_nth1 by (rewrite length_firstn; lia).
        rewrite <- (firstn_skipn m l) at 2.
        rewrite app_nth1 by (rewrite length_firstn; lia). reflexivity.
      + rewrite app_nth2; rewrite length_firstn; [|lia].
        replace (Nat.min m (List.length l)) with m by lia.
        destruct (n - m)%nat as [|q] eqn:Eq; [lia|]. cbn [nth].
        rewrite <- (firstn_skipn (S m) l) at 2.
        rewrite app_nth2; rewrite length_firstn; [|lia].
        f_equal. lia.
  Qed.

End ListItems.
Section BatchHistoryProofs.
Context {V : Type}.
Implicit Types (self st : BatchHistory.callback V).

Lemma on_batch_end_spec self logs :
    0 <= BatchHistory.epoch self < Z.of_nat (List.length (BatchHistory.history self)) ->
    exists st,
      BatchHistory.on_batch_end self logs = Ok st /\
      BatchHistory.epoch st = BatchHistory.epoch self /\
      List.length (BatchHistory.history st) = List.length (BatchHistory.history self) /\
      (forall i, i <> Z.to_nat (BatchHistory.epoch self) ->
         nth i (BatchHistory.history st) [] = nth i (BatchHistory.history self) []) /\
      forall k,
        dict_get k (nth (Z.to_nat (BatchHistory.epoch self)) (BatchHistory.history st) [])
        = grow (dict_get k (nth (Z.to_nat (BatchHistory.epoch self))
                              (BatchHistory.history self) []))
            (values_of k (logs_or_empty logs)).
  Proof.
    unfold BatchHistory.on_batch_end. generalize (logs_or_empty logs) as items.
    intros items. revert self.
    induction items as [|kv items IH]; intros self He.
    - exists self. cbn [fold_left]. repeat split; reflexivity.
    - cbn [fold_left bind].
      pose proof (@list_item_nth (pydict (list V)) (BatchHistory.history self)
                    (BatchHistory.epoch self) [] He) as Eli.
      set (self1 :=
             {| BatchHistory.history :=
                  list_replace (BatchHistory.history self) (BatchHistory.epoch self)
                    (setdefault_append (fst kv) (snd kv)
                       (nth (Z.to_nat (BatchHistory.epoch self))
                          (BatchHistory.history self) []));
                BatchHistory.epoch := BatchHistory.epoch self |}).
      assert (He1 : 0 <= BatchHistory.epoch self1
                    < Z.of_nat (List.length (BatchHistory.history self1))).
      { subst self1. cbn [BatchHistory.epoch BatchHistory.history].
        rewrite list_replace_length by exact He. exact He. }
      destruct (IH self1 He1) as (st & E & Ee & El & Ho & Hk).
      exists st. rewrite Eli. cbn [bind]. fold self1.
      split; [exact E|].
      subst self1. cbn [BatchHistory.epoch BatchHistory.history] in *.
      rewrite list_replace_length in El by exact He.
      split; [exact Ee|]. split; [exact El|]. split.
      + intros i Hi. rewrite Ho by exact Hi.
        rewrite list_replace_nth by exact He.
        destruct (Nat.eqb_spec i (Z.to_nat (BatchHistory.epoch self))); [contradiction|reflexivity].
      + intros k. rewrite Hk, list_replace_nth by exact He.
        rewrite Nat.eqb_refl, dict_get_setdefault_append, values_of_cons.
        destruct (fst kv =? k)%string; [now rewrite grow_app|reflexivity].
  Qed.

Lemma on_batches_spec self (batches : list (option (pydict V))) :
    0 <= BatchHistory.epoch self < Z.of_nat (List.length (BatchHistory.history self)) ->
    exists st,
      fold_left (fun acc logs => s <- acc ;; BatchHistory.on_batch_end s logs)
        batches (Ok self) = Ok st /\
      BatchHistory.epoch st = BatchHistory.epoch self /\
      List.length (BatchHistory.history st) = List.length (BatchHistory.history self) /\
      (forall i, i <> Z.to_nat (BatchHistory.epoch self) ->
         nth i (BatchHistory.history st) [] = nth i (BatchHistory.history self) []) /\
      forall k,
        dict_get k (nth (Z.to_nat (BatchHistory.epoch self)) (BatchHistory.history st) [])
        = grow (dict_get k (nth (Z.to_nat (BatchHistory.epoch self))
                              (BatchHistory.history self) []))
            (series k batches).
  Proof.
    revert self. induction batches as [|logs batches IH]; intros self He.
    - exists self. cbn [fold_left]. repeat split; reflexivity.
    - cbn [fold_left bind].
      destruct (@on_batch_end_spec self logs He) as (s1 & E1 & Ee1 & El1 & Ho1 & Hk1).
      assert (He1 : 0 <= BatchHistory.epoch s1
                    < Z.of_nat (List.length (BatchHistory.history s1)))
        by (rewrite Ee1, El1; exact He).
      destruct (IH s1 He1) as (st & E & Ee & El & Ho & Hk).
      exists st. rewrite E1. split; [exact E|].
      rewrite Ee1 in *. rewrite El1 in *.
      split; [exact Ee|]. split; [exact El|]. split.
      + intros i Hi. now rewrite Ho, Ho1.
      + intros k. rewrite Hk, Hk1, grow_app. reflexivity.
  Qed.

Lemma batch_history_epoch_spec self batches :
    BatchHistory.epoch self = Z.of_nat (List.length (BatchHistory.history self)) ->
    exists st,
      batch_history_epoch self batches = Ok st /\
      BatchHistory.epoch st = BatchHistory.epoch self + 1 /\
      List.length (BatchHistory.history st) = S (List.length (BatchHistory.history self)) /\
      (forall i, (i < List.length (BatchHistory.history self))%nat ->
         nth i (BatchHistory.history st) [] = nth i (BatchHistory.history self) []) /\
      forall k,
        dict_get k (nth (List.length (BatchHistory.history self)) (BatchHistory.history st) [])
        = entry (series k batches).
  Proof.
    intros He. unfold batch_history_epoch.
    set (s0 := BatchHistory.on_epoch_begin self).
    assert (He0 : 0 <= BatchHistory.epoch s0
                  < Z.of_nat (List.length (BatchHistory.history s0))).
    { subst s0. cbn [BatchHistory.on_epoch_begin BatchHistory.epoch BatchHistory.history].
      rewrite length_app. cbn [List.length]. lia. }
    destruct (@on_batches_spec s0 batches He0) as (st & E & Ee & El & Ho & Hk).
    rewrite E. cbn [bind]. eexists. split; [reflexivity|].
    subst s0.
    cbn [BatchHistory.on_epoch_begin BatchHistory.on_epoch_end
         BatchHistory.epoch BatchHistory.history] in *.
    rewrite length_app in El. cbn [List.length] in El.
    assert (Hz : Z.to_nat (BatchHistory.epoch self)
                 = List.length (BatchHistory.history self)) by lia.
    rewrite Hz in *.
    split; [lia|]. split; [lia|]. split.
    - intros i Hi. rewrite Ho by lia. now rewrite app_nth1 by exact Hi.
    - intros k. rewrite Hk, app_nth2 by lia.
      rewrite Nat.sub_diag. cbn [nth dict_get]. now rewrite entry_grow.
  Qed.

Lemma batch_history_train_from st (done epochs : list (list (option (pydict V)))) :
    BatchHistory.epoch st = Z.of_nat (List.length done) ->
    List.length (BatchHistory.history st) = List.length done ->
    (forall e k, (e < List.length done)%nat ->
       dict_get k (nth e (BatchHistory.history st) []) = entry (series k (nth e done []))) ->
    exists st',
      fold_left (fun acc batches => s <- acc ;; batch_history_epoch s batches)
        epochs (Ok st) = Ok st' /\
      BatchHistory.epoch st' = Z.of_nat (List.length (done ++ epochs)) /\
      List.length (BatchHistory.history st') = List.length (done ++ epochs) /\
      forall e k, (e < List.length (done ++ epochs))%nat ->
        dict_get k (nth e (BatchHistory.history st') [])
        = entry (series k (nth e (done ++ epochs) [])).
  Proof.
    revert st done. induction epochs as [|batches epochs IH]; intros st done He Hl Hd.
    - exists st. rewrite app_nil_r. cbn [fold_left]. auto.
    - cbn [fold_left bind].
      assert (He' : BatchHistory.epoch st
                    = Z.of_nat (List.length (BatchHistory.history st))) by lia.
      destruct (@batch_history_epoch_spec st batches He') as (s1 & E1 & Ee1 & El1 & Ho1 & Hk1).
      rewrite E1.
      destruct (IH s1 (done ++ [batches])%list) as (st' & E & Ee & El & Hk).
      + rewrite length_app. cbn [List.length]. lia.
      + rewrite length_app. cbn [List.length]. lia.
      + intros e k Hlt. rewrite length_app in Hlt. cbn [List.length] in Hlt.
        destruct (Nat.eq_dec e (List.length done)) as [->|Hne].
        * rewrite <- Hl at 1. rewrite Hk1.
          rewrite app_nth2 by lia. rewrite Nat.sub_diag. reflexivity.
        * rewrite Ho1 by lia. rewrite app_nth1 by lia. apply Hd. lia.
      + rewrite <- app_assoc in Ee, El, Hk. cbn [app] in Ee, El, Hk.
        exists st'. auto.
  Qed.

End BatchHistoryProofs.

(** X16. [BatchHistory]: after a training, [history[e][k]] is the list of the
    values that the batches of epoch [e] logged under [k], in the order of
    the batches; a key that no batch of the epoch logged has no entry.  The
    counter [epoch] and the length of [history] are the number of epochs. *)
Theorem batch_history_records {V : Type} (self : BatchHistory.callback V)
    (epochs : list (list (option (pydict V)))) :
  exists st,
    batch_history_train self epochs = Ok st /\
    BatchHistory.epoch st = Z.of_nat (List.length epochs) /\
    List.length (BatchHistory.history st) = List.length epochs /\
    forall e k, (e < List.length epochs)%nat ->
      dict_get k (nth e (BatchHistory.history st) []) = entry (series k (nth e epochs [])).
Proof.
  unfold batch_history_train.
  destruct (@batch_history_train_from V (BatchHistory.on_train_begin self) [] epochs)
    as (st & E & Ee & El & Hk); try reflexivity.
  - intros e k Hlt. cbn in Hlt. lia.
  - exists st. cbn [app] in *. auto.
Qed.

Lemma fold_left_raise {X Y : Type} (f : result X -> Y -> result X) e (l : list Y) :
  (forall y, f (Raise e) y = Raise e) -> fold_left f l (Raise e) = Raise e.
Proof. intros Hf. induction l as [|y l IH]; cbn [fold_left]; [reflexivity|]. now rewrite Hf. Qed.

(** X17. [BatchHistory.on_batch_end] outside an epoch, that is when [history] has
    no dictionary for the current epoch yet (before the first
    [on_epoch_begin], or after [on_epoch_end]): a batch that logs anything
    raises [IndexError], and the callback is left as it was only when the
    logs are empty or missing. *)
Theorem batch_history_outside_epoch {V : Type} (self : BatchHistory.callback V) logs :
  Z.of_nat (List.length (BatchHistory.history self)) <= BatchHistory.epoch self ->
  BatchHistory.on_batch_end self logs =
  match logs_or_empty logs with
  | [] => Ok self
  | _ => Raise IndexError
  end.
Proof.
  intros He. unfold BatchHistory.on_batch_end.
  destruct (logs_or_empty logs) as [|kv items]; [reflexivity|].
  cbn [fold_left bind].
  rewrite (@list_item_beyond (pydict (list V)) _ _ He). cbn [bind].
  apply fold_left_raise. reflexivity.
Qed.

Lemma batch_history_outside_epoch_witness :
  BatchHistory.on_batch_end
    (BatchHistory.on_train_begin {| BatchHistory.history := []; BatchHistory.epoch := 0 |})
    (Some [("loss", 1)])
  = match logs_or_empty (Some [("loss", 1)]) with
    | [] => Ok (BatchHistory.on_train_begin
                  {| BatchHistory.history := []; BatchHistory.epoch := 0 |})
    | _ => Raise IndexError
    end.
Proof.
  apply (@batch_history_outside_epoch Z
           (BatchHistory.on_train_begin
              {| BatchHistory.history := []; BatchHistory.epoch := 0 |})
           (Some [("loss", 1)])).
  cbn. lia.
Defined.

Section RunHistoryProofs.
Context {V : Type}.
Implicit Types (self st : RunHistory.callback V).

Lemma run_history_items st (items : pydict V) :
    let st' :=
      fold_left
        (fun self kv =>
           {| RunHistory.epoch := RunHistory.epoch self;
              RunHistory.history :=
                setdefault_append (fst kv) (snd kv) (RunHistory.history self);
              RunHistory.run_log := (RunHistory.run_log self ++ [(fst kv, snd kv)])%list |})
        items st in
    RunHistory.epoch st' = RunHistory.epoch st /\
    RunHistory.run_log st' = (RunHistory.run_log st ++ items)%list /\
    forall k,
      dict_get k (RunHistory.history st')
      = grow (dict_get k (RunHistory.history st)) (values_of k items).
  Proof.
    revert st. induction items as [|kv items IH]; intros st; cbn zeta.
    - cbn [fold_left]. rewrite app_nil_r. repeat split; reflexivity.
    - cbn [fold_left].
      destruct (IH {| RunHistory.epoch := RunHistory.epoch st;
                      RunHistory.history :=
                        setdefault_append (fst kv) (snd kv) (RunHistory.history st);
                      RunHistory.run_log :=
                        (RunHistory.run_log st ++ [(fst kv, snd kv)])%list |})
        as (Ee & Er & Hk).
      cbn [RunHistory.epoch RunHistory.history RunHistory.run_log] in *.
      split; [exact Ee|]. split.
      + rewrite Er, <- app_assoc. cbn [app]. now destruct kv.
      + intros k. rewrite Hk, dict_get_setdefault_append, values_of_cons.
        destruct (fst kv =? k)%string; [now rewrite grow_app|reflexivity].
  Qed.

Lemma run_history_epoch_end st e logs :
    RunHistory.epoch (RunHistory.on_epoch_end st e logs) = (RunHistory.epoch st ++ [e])%list /\
    RunHistory.run_log (RunHistory.on_epoch_end st e logs)
    = (RunHistory.run_log st ++ logs_or_empty logs)%list /\
    forall k,
      dict_get k (RunHistory.history (RunHistory.on_epoch_end st e logs))
      = grow (dict_get k (RunHistory.history st)) (values_of k (logs_or_empty logs)).
  Proof.
    unfold RunHistory.on_epoch_end.
    apply (run_history_items
             {| RunHistory.epoch := (RunHistory.epoch st ++ [e])%list;
                RunHistory.history := RunHistory.history st;
                RunHistory.run_log := RunHistory.run_log st |}).
  Qed.

Lemma run_history_from st (epochs : list (Z * option (pydict V))) :
    let st' := fold_left (fun s c => RunHistory.on_epoch_end s (fst c) (snd c)) epochs st in
    RunHistory.epoch st' = (RunHistory.epoch st ++ map fst epochs)%list /\
    RunHistory.run_log st'
    = (RunHistory.run_log st ++ flat_map (fun c => logs_or_empty (snd c)) epochs)%list /\
    forall k,
      dict_get k (RunHistory.history st')
      = grow (dict_get k (RunHistory.history st)) (series k (map snd epochs)).
  Proof.
    revert st. induction epochs as [|[e logs] epochs IH]; intros st; cbn zeta.
    - cbn [fold_left map flat_map]. rewrite !app_nil_r. repeat split; reflexivity.
    - cbn [fold_left fst snd].
      destruct (IH (RunHistory.on_epoch_end st e logs)) as (Ee & Er & Hk).
      destruct (run_history_epoch_end st e logs) as (Ee1 & Er1 & Hk1).
      rewrite Ee, Er, Ee1, Er1, <- !app_assoc. cbn [map flat_map fst snd app].
      repeat split.
      intros k. rewrite Hk, Hk1, grow_app. reflexivity.
  Qed.

End RunHistoryProofs.

(** X18. [RunHistory]: after a training, [epoch] lists the epoch numbers it was
    given, [history[k]] is the list of the values logged under [k] (shorter
    than [epoch] when an epoch did not log [k]), and every logged item was
    passed to [run.log] once, in order. *)
Theorem run_history_records {V : Type} (self : RunHistory.callback V)
    (epochs : list (Z * option (pydict V))) :
  RunHistory.epoch (run_history_train self epochs) = map fst epochs /\
  RunHistory.run_log (run_history_train self epochs)
  = (RunHistory.run_log self ++ flat_map (fun c => logs_or_empty (snd c)) epochs)%list /\
  forall k,
    dict_get k (RunHistory.history (run_history_train self epochs))
    = entry (series k (map snd epochs)).
Proof.
  unfold run_history_train.
  destruct (run_history_from (RunHistory.on_train_begin self) epochs) as (Ee & Er & Hk).
  cbn [RunHistory.on_train_begin RunHistory.epoch RunHistory.history
       RunHistory.run_log app dict_get] in *.
  split; [exact Ee|]. split; [exact Er|].
  intros k. rewrite Hk. now rewrite entry_grow.
Qed.

(** ** [EarlyStoppingMin] *)

Section EarlyStoppingProofs.
Context {V W : Type}.
Implicit Types (self : EarlyStoppingMin.callback V W).

Lemma stop_events_stop self msg :
    In (@EarlyStoppingMin.StopTraining W) (EarlyStoppingMin.stop_events self msg).
  Proof. left. reflexivity. Qed.

End EarlyStoppingProofs.

(** X19. [EarlyStoppingMin.on_epoch_end] asks the training to stop exactly
    when the epoch is not below [min_epochs], the monitored value is in
    the logs, and either the value is no improvement and it is the
    [patience]-th such epoch in a row, or [max_epochs] is reached.  So
    before [min_epochs], or without the monitored value, nothing stops the
    training - not even [max_epochs]. *)
Theorem early_stopping_stops_iff {V W : Type} (sub : V -> V -> V)
    (self : EarlyStoppingMin.callback V W) epoch logs weights :
  In (@EarlyStoppingMin.StopTraining W)
     (snd (EarlyStoppingMin.on_epoch_end sub self epoch logs weights))
  <->
  EarlyStoppingMin.min_epochs self <= epoch /\
  exists current,
    EarlyStoppingMin.get_monitor_value self logs = Some current /\
    ((EarlyStoppingMin.monitor_op self
        (sub current (EarlyStoppingMin.min_delta self))
        (EarlyStoppingMin.best self) = false
      /\ EarlyStoppingMin.patience self <= EarlyStoppingMin.wait self + 1)
     \/ exists m, EarlyStoppingMin.max_epochs self = Some m /\ m <= epoch).
Proof.
  unfold EarlyStoppingMin.on_epoch_end.
  destruct (Z.ltb_spec epoch (EarlyStoppingMin.min_epochs self)) as [Hmin|Hmin].
  { cbn [snd In]. split; [contradiction|]. intros [H _]. lia. }
  destruct (EarlyStoppingMin.get_monitor_value self logs) as [current|].
  2:{ cbn [snd In]. split; [contradiction|]. intros [_ [c [H _]]]. discriminate. }
  destruct (EarlyStoppingMin.monitor_op self _ _) eqn:Hop.
  - cbn [EarlyStoppingMin.improved EarlyStoppingMin.waited EarlyStoppingMin.stopped EarlyStoppingMin.max_epochs EarlyStoppingMin.patience EarlyStoppingMin.wait].
    destruct (EarlyStoppingMin.max_epochs self) as [m|].
    + destruct (Z.leb_spec m epoch) as [Hm|Hm]; cbn [snd app].
      * split; [|intros _; apply stop_events_stop].
        intros _. split; [lia|]. exists current. split; [reflexivity|].
        right. exists m. split; [reflexivity|lia].
      * cbn [In]. split; [contradiction|].
        intros [_ [c [Ec [[Hc _]|[m' [Em Hm']]]]]].
        -- injection Ec as <-. congruence.
        -- injection Em as <-. lia.
    + cbn [snd In]. split; [contradiction|].
      intros [_ [c [Ec [[Hc _]|[m' [Em _]]]]]]; [|discriminate].
      injection Ec as <-. congruence.
  - cbn [EarlyStoppingMin.improved EarlyStoppingMin.waited EarlyStoppingMin.stopped EarlyStoppingMin.max_epochs EarlyStoppingMin.patience EarlyStoppingMin.wait].
    destruct (Z.leb_spec (EarlyStoppingMin.patience self)
                (EarlyStoppingMin.wait self + 1)) as [Hp|Hp].
    + cbn [EarlyStoppingMin.improved EarlyStoppingMin.waited EarlyStoppingMin.stopped EarlyStoppingMin.max_epochs EarlyStoppingMin.patience EarlyStoppingMin.wait].
      assert (Hgoal : EarlyStoppingMin.min_epochs self <= epoch /\
                      exists c, Some current = Some c /\
                        ((EarlyStoppingMin.monitor_op self
                            (sub c (EarlyStoppingMin.min_delta self))
                            (EarlyStoppingMin.best self) = false
                          /\ EarlyStoppingMin.patience self
                             <= EarlyStoppingMin.wait self + 1)
                         \/ exists m, EarlyStoppingMin.max_epochs self = Some m
                                      /\ m <= epoch)).
      { split; [lia|]. exists current. split; [reflexivity|]. left. split; assumption. }
      destruct (EarlyStoppingMin.max_epochs self) as [m|];
        [destruct (Z.leb_spec m epoch)|]; cbn [snd];
        (split; [intros _; exact Hgoal|intros _]);
        try (apply in_or_app; left); apply stop_events_stop.
    + cbn [EarlyStoppingMin.improved EarlyStoppingMin.waited EarlyStoppingMin.stopped EarlyStoppingMin.max_epochs EarlyStoppingMin.patience EarlyStoppingMin.wait].
      destruct (EarlyStoppingMin.max_epochs self) as [m|].
      * destruct (Z.leb_spec m epoch) as [Hm|Hm]; cbn [snd app].
        -- split; [|intros _; apply stop_events_stop].
           intros _. split; [lia|]. exists current. split; [reflexivity|].
           right. exists m. split; [reflexivity|lia].
        -- cbn [In]. split; [contradiction|].
           intros [_ [c [Ec [[_ Hc]|[m' [Em Hm']]]]]]; [lia|].
           injection Em as <-. lia.
      * cbn [snd In]. split; [contradiction|].
        intros [_ [c [Ec [[_ Hc]|[m' [Em _]]]]]]; [lia|discriminate].
Qed.


Section EarlyStoppingRuns.
Context {V W : Type}.
Variable sub : V -> V -> V.
Implicit Types (self : EarlyStoppingMin.callback V W).

Lemma on_epoch_end_no_improvement self epoch logs weights current :
    EarlyStoppingMin.min_epochs self <= epoch ->
    (forall m, EarlyStoppingMin.max_epochs self = Some m -> epoch < m) ->
    EarlyStoppingMin.get_monitor_value self logs = Some current ->
    EarlyStoppingMin.monitor_op self (sub current (EarlyStoppingMin.min_delta self))
      (EarlyStoppingMin.best self) = false ->
    EarlyStoppingMin.on_epoch_end sub self epoch logs weights =
    if EarlyStoppingMin.patience self <=? EarlyStoppingMin.wait self + 1 then
      (EarlyStoppingMin.stopped (EarlyStoppingMin.waited self) epoch,
       EarlyStoppingMin.stop_events (EarlyStoppingMin.waited self)
         "Restoring model weights from the end of the best epoch")
    else (EarlyStoppingMin.waited self, []).
  Proof.
    intros Hmin Hmax Ecur Hop. unfold EarlyStoppingMin.on_epoch_end.
    rewrite (proj2 (Z.ltb_ge _ _) Hmin), Ecur, Hop.
    cbn [EarlyStoppingMin.waited EarlyStoppingMin.patience EarlyStoppingMin.wait].
    destruct (EarlyStoppingMin.patience self <=? EarlyStoppingMin.wait self + 1);
      cbn [EarlyStoppingMin.stopped EarlyStoppingMin.waited EarlyStoppingMin.max_epochs];
      destruct (EarlyStoppingMin.max_epochs self) as [m|] eqn:Em; try reflexivity;
      specialize (Hmax m eq_refl);
      rewrite (proj2 (Z.leb_gt m epoch)) by lia; reflexivity.
  Qed.

End EarlyStoppingRuns.

(** X20. [EarlyStoppingMin]: over a run of epochs, none below [min_epochs] and
    none at or beyond [max_epochs], in which the monitored value never
    improves on [best], the counter [wait] goes up by one per epoch, the best
    weights are left alone, and the training is asked to stop in exactly
    those epochs in which [wait] has reached [patience]. *)
Theorem early_stopping_patience {V W : Type} (sub : V -> V -> V) calls :
  forall (self : EarlyStoppingMin.callback V W) epoch,
    EarlyStoppingMin.min_epochs self <= epoch ->
    (forall m, EarlyStoppingMin.max_epochs self = Some m ->
       epoch + Z.of_nat (List.length calls) <= m) ->
    Forall (fun call =>
              exists current,
                EarlyStoppingMin.get_monitor_value self (fst call) = Some current /\
                EarlyStoppingMin.monitor_op self
                  (sub current (EarlyStoppingMin.min_delta self))
                  (EarlyStoppingMin.best self) = false) calls ->
    EarlyStoppingMin.wait (fst (EarlyStoppingMin.on_epochs sub self epoch calls))
    = EarlyStoppingMin.wait self + Z.of_nat (List.length calls) /\
    EarlyStoppingMin.best_weights (fst (EarlyStoppingMin.on_epochs sub self epoch calls))
    = EarlyStoppingMin.best_weights self /\
    forall i, (i < List.length calls)%nat ->
      (In (@EarlyStoppingMin.StopTraining W)
          (nth i (snd (EarlyStoppingMin.on_epochs sub self epoch calls)) [])
       <-> EarlyStoppingMin.patience self <= EarlyStoppingMin.wait self + Z.of_nat i + 1).
Proof.
  induction calls as [|[logs weights] calls IH]; intros self epoch Hmin Hmax HF.
  - cbn [EarlyStoppingMin.on_epochs fst snd List.length]. split; [lia|].
    split; [reflexivity|]. intros i Hi. cbn in Hi. lia.
  - inversion HF as [|? ? (current & Ecur & Hop) HF']; subst.
    cbn [fst] in Ecur. cbn [EarlyStoppingMin.on_epochs].
    cbn [List.length] in Hmax.
    rewrite (@on_epoch_end_no_improvement V W sub self epoch logs weights current)
      by (try assumption; intros m Em; specialize (Hmax m Em); lia).
    set (self1 := if EarlyStoppingMin.patience self <=? EarlyStoppingMin.wait self + 1
                  then EarlyStoppingMin.stopped (EarlyStoppingMin.waited self) epoch
                  else EarlyStoppingMin.waited self).
    set (events1 := if EarlyStoppingMin.patience self <=? EarlyStoppingMin.wait self + 1
                    then EarlyStoppingMin.stop_events (EarlyStoppingMin.waited self)
                           "Restoring model weights from the end of the best epoch"
                    else []).
    replace (if EarlyStoppingMin.patience self <=? EarlyStoppingMin.wait self + 1
             then (EarlyStoppingMin.stopped (EarlyStoppingMin.waited self) epoch,
                   EarlyStoppingMin.stop_events (EarlyStoppingMin.waited self)
                     "Restoring model weights from the end of the best epoch")
             else (EarlyStoppingMin.waited self, []))
      with (self1, events1)
      by (subst self1 events1;
          destruct (EarlyStoppingMin.patience self <=? EarlyStoppingMin.wait self + 1);
          reflexivity).
    assert (Hsame : EarlyStoppingMin.monitor self1 = EarlyStoppingMin.monitor self
                    /\ EarlyStoppingMin.min_delta self1 = EarlyStoppingMin.min_delta self
                    /\ EarlyStoppingMin.monitor_op self1 = EarlyStoppingMin.monitor_op self
                    /\ EarlyStoppingMin.best self1 = EarlyStoppingMin.best self
                    /\ EarlyStoppingMin.patience self1 = EarlyStoppingMin.patience self
                    /\ EarlyStoppingMin.min_epochs self1 = EarlyStoppingMin.min_epochs self
                    /\ EarlyStoppingMin.max_epochs self1 = EarlyStoppingMin.max_epochs self
                    /\ EarlyStoppingMin.best_weights self1
                       = EarlyStoppingMin.best_weights self
                    /\ EarlyStoppingMin.wait self1 = EarlyStoppingMin.wait self + 1).
    { subst self1.
      destruct (EarlyStoppingMin.patience self <=? EarlyStoppingMin.wait self + 1);
        repeat split; reflexivity. }
    destruct Hsame as (Smon & Smd & Sop & Sbest & Spat & Smin & Smax & Sbw & Swait).
    destruct (IH self1 (epoch + 1)) as (Hw & Hbw & Hev).
    + rewrite Smin. lia.
    + intros m Em. rewrite Smax in Em. specialize (Hmax m Em). lia.
    + eapply Forall_impl; [|exact HF'].
      intros call (c & Ec & Oc). exists c.
      unfold EarlyStoppingMin.get_monitor_value in *.
      rewrite Smon, Smd, Sop, Sbest. split; assumption.
    + destruct (EarlyStoppingMin.on_epochs sub self1 (epoch + 1) calls)
        as [self2 later] eqn:E2.
      cbn [fst snd] in *. split; [rewrite Hw, Swait; cbn [List.length]; lia|].
      split; [now rewrite Hbw|].
      intros [|i] Hi.
      * cbn [nth]. subst events1.
        destruct (Z.leb_spec (EarlyStoppingMin.patience self)
                    (EarlyStoppingMin.wait self + 1)).
        -- split; [intros _; lia|intros _; left; reflexivity].
        -- cbn [In]. split; [contradiction|lia].
      * cbn [nth]. cbn [List.length] in Hi. rewrite Hev by lia.
        rewrite Spat, Swait. lia.
Qed.


Lemma early_stopping_patience_witness :
  EarlyStoppingMin.wait
    (fst (EarlyStoppingMin.on_epochs Z.sub early_stopping_example 1 early_stopping_calls))
  = EarlyStoppingMin.wait early_stopping_example
    + Z.of_nat (List.length early_stopping_calls) /\
  EarlyStoppingMin.best_weights
    (fst (EarlyStoppingMin.on_epochs Z.sub early_stopping_example 1 early_stopping_calls))
  = EarlyStoppingMin.best_weights early_stopping_example /\
  forall i, (i < List.length early_stopping_calls)%nat ->
    (In (@EarlyStoppingMin.StopTraining Z)
        (nth i (snd (EarlyStoppingMin.on_epochs Z.sub early_stopping_example 1
                       early_stopping_calls)) [])
     <-> EarlyStoppingMin.patience early_stopping_example
         <= EarlyStoppingMin.wait early_stopping_example + Z.of_nat i + 1).
Proof.
  apply (@early_stopping_patience Z Z Z.sub early_stopping_calls
           early_stopping_example 1).
  - cbn. lia.
  - intros m Em. injection Em as <-. cbn. lia.
  - repeat constructor.
    + exists 7. split; reflexivity.
    + exists 6. split; reflexivity.
Defined.

(** X21. [EarlyStoppingMin.on_epoch_end] never touches the weights of the model
    unless it stops the training and [restore_best_weights] is set; what it
    then passes to [set_weights] is the [best_weights] the callback holds
    after the call (which is [None] while no epoch has improved yet). *)
Theorem early_stopping_restores {V W : Type} (sub : V -> V -> V)
    (self : EarlyStoppingMin.callback V W) epoch logs weights restored :
  In (EarlyStoppingMin.SetWeights restored)
     (snd (EarlyStoppingMin.on_epoch_end sub self epoch logs weights)) ->
  EarlyStoppingMin.restore_best_weights self = true /\
  In (@EarlyStoppingMin.StopTraining W)
     (snd (EarlyStoppingMin.on_epoch_end sub self epoch logs weights)) /\
  restored
  = EarlyStoppingMin.best_weights
      (fst (EarlyStoppingMin.on_epoch_end sub self epoch logs weights)).
Proof.
  unfold EarlyStoppingMin.on_epoch_end.
  assert (Hev : forall (s : EarlyStoppingMin.callback V W) msg,
            In (EarlyStoppingMin.SetWeights restored) (EarlyStoppingMin.stop_events s msg) ->
            EarlyStoppingMin.restore_best_weights s = true /\
            restored = EarlyStoppingMin.best_weights s).
  { intros s msg. unfold EarlyStoppingMin.stop_events.
    destruct (EarlyStoppingMin.restore_best_weights s);
      [|cbn [In]; intros [H|[]]; discriminate].
    destruct (0 <? EarlyStoppingMin.verbose s); cbn [In app];
      intros H; repeat (destruct H as [H|H]; try discriminate; try contradiction);
      injection H as <-; split; reflexivity. }
  destruct (epoch <? EarlyStoppingMin.min_epochs self); [intros []|].
  destruct (EarlyStoppingMin.get_monitor_value self logs) as [current|]; [|intros []].
  destruct (EarlyStoppingMin.monitor_op self _ _);
    [|destruct (EarlyStoppingMin.patience (EarlyStoppingMin.waited self)
                <=? EarlyStoppingMin.wait (EarlyStoppingMin.waited self))];
    cbn [EarlyStoppingMin.improved EarlyStoppingMin.waited EarlyStoppingMin.stopped
         EarlyStoppingMin.max_epochs];
    (destruct (EarlyStoppingMin.max_epochs self) as [m|];
     [destruct (m <=? epoch)|]);
    cbn [fst snd app EarlyStoppingMin.best_weights EarlyStoppingMin.stopped];
    intros H; try contradiction;
    try (apply in_app_or in H; destruct H as [H|H]);
    apply Hev in H; destruct H as [Hr ->];
    cbn [EarlyStoppingMin.restore_best_weights EarlyStoppingMin.best_weights
         EarlyStoppingMin.improved EarlyStoppingMin.waited EarlyStoppingMin.stopped] in *;
    (split; [exact Hr|]); (split; [|reflexivity]);
    try (apply in_or_app; left); left; reflexivity.
Qed.

Lemma early_stopping_restores_witness :
  EarlyStoppingMin.restore_best_weights early_stopping_example = true /\
  In (@EarlyStoppingMin.StopTraining Z)
     (snd (EarlyStoppingMin.on_epoch_end Z.sub early_stopping_example 10
             [("val_loss", 4)] 110)) /\
  Some 110
  = EarlyStoppingMin.best_weights
      (fst (EarlyStoppingMin.on_epoch_end Z.sub early_stopping_example 10
              [("val_loss", 4)] 110)).
Proof.
  apply (@early_stopping_restores Z Z Z.sub early_stopping_example 10
           [("val_loss", 4)] 110 (Some 110)).
  vm_compute. right. left. reflexivity.
Defined.

(** ** [row_conv2d] *)

Lemma in_zrange n i : In i (zrange n) <-> 0 <= i < n.
Proof.
  unfold zrange. rewrite in_map_iff. split.
  - intros (k & <- & Hk). apply in_seq in Hk. lia.
  - intros Hi. exists (Z.to_nat i). split; [lia|]. apply in_seq. lia.
Qed.

Lemma zrange_length n : List.length (zrange n) = Z.to_nat n.
Proof. unfold zrange. now rewrite length_map, length_seq. Qed.

Lemma zrange_nth n i d : 0 <= i < n -> nth (Z.to_nat i) (zrange n) d = i.
Proof.
  intros Hi. unfold zrange.
  rewrite (nth_indep _ d (Z.of_nat 0)) by (rewrite length_map, length_seq; lia).
  rewrite map_nth, seq_nth by lia. lia.
Qed.

Lemma sequence_map_Ok {X : Type} (xs : list X) : sequence (map Ok xs) = Ok xs.
Proof. induction xs as [|x xs IH]; [reflexivity|]. cbn. now rewrite IH. Qed.

Section SumOver.
Context {A : Type} {SA : Scalar A}.

Lemma sum_over_ext n (f g : Z -> A) :
    (forall i, 0 <= i < n -> f i = g i) -> sum_over n f = sum_over n g.
  Proof.
    intros Hfg. unfold sum_over.
    assert (Hin : forall i, In i (zrange n) -> f i = g i)
      by (intros i Hi; apply Hfg, in_zrange, Hi).
    clear Hfg. generalize (zero (A:=A)) as acc.
    induction (zrange n) as [|i l IH]; intros acc; [reflexivity|].
    cbn [fold_left]. rewrite (Hin i) by (left; reflexivity).
    apply IH. intros j Hj. apply Hin. right. exact Hj.
  Qed.

End SumOver.

Section ConcatRows.
Context {A : Type}.
Implicit Types (x a : tensor4 A).

  (** Joining tensors of one row each along the row axis. *)
Lemma concat_unit_rows_from (rest : list (tensor4 A)) B F Wd d :
    forall a n,
      shape4 a = [B; F; n; Wd] -> 0 <= n ->
      (forall x, In x rest -> shape4 x = [B; F; 1; Wd]) ->
      exists out,
        fold_left (fun acc y => a' <- acc ;; concat4 2 a' y) rest (Ok a) = Ok out /\
        shape4 out = [B; F; n + Z.of_nat (List.length rest); Wd] /\
        forall b c r w,
          (r < n -> at4 out b c r w = at4 a b c r w) /\
          (n <= r < n + Z.of_nat (List.length rest) ->
           at4 out b c r w = at4 (nth (Z.to_nat (r - n)) rest d) b c 0 w).
  Proof.
    induction rest as [|y rest IH]; intros a n Sa Hn Hrest.
    - exists a. cbn [fold_left List.length]. split; [reflexivity|].
      split; [rewrite Sa; do 3 f_equal; lia|].
      intros b c r w. split; [reflexivity|lia].
    - cbn [fold_left bind]. rewrite concat4_rows.
      pose proof (Hrest y (or_introl eq_refl)) as Sy.
      unfold shape4 in Sa, Sy. injection Sa as A0 A1 A2 A3. injection Sy as Y0 Y1 Y2 Y3.
      rewrite A0, A1, A3, Y0, Y1, Y3, !Z.eqb_refl. cbn [andb].
      destruct (IH (cat4 2 a y) (n + 1)) as (out & E & So & Co).
      + unfold shape4. cbn [cat4 n0 n1 n2 n3]. now rewrite A0, A1, A2, A3, Y2.
      + lia.
      + intros x Hx. apply Hrest. right. exact Hx.
      + exists out. split; [exact E|]. split.
        * rewrite So. cbn [List.length]. do 3 f_equal. lia.
        * intros b c r w. destruct (Co b c r w) as [Clow Chigh]. split.
          -- intros Hr. rewrite Clow by lia. cbn [cat4 at4]. rewrite A2.
             now rewrite (proj2 (Z.ltb_lt r n)) by lia.
          -- intros Hr. cbn [List.length] in Hr.
             destruct (Z.eq_dec r n) as [->|Hne].
             ++ rewrite Clow by lia. cbn [cat4 at4]. rewrite A2.
                rewrite (proj2 (Z.ltb_ge n n)) by lia.
                rewrite Z.sub_diag. reflexivity.
             ++ rewrite Chigh by lia.
                replace (Z.to_nat (r - n)) with (S (Z.to_nat (r - (n + 1)))) by lia.
                reflexivity.
  Qed.

Lemma K_concatenate_unit_rows (xs : list (tensor4 A)) B F Wd d :
    xs <> [] ->
    (forall x, In x xs -> shape4 x = [B; F; 1; Wd]) ->
    exists out,
      K_concatenate (map Ok xs) 2 = Ok out /\
      shape4 out = [B; F; Z.of_nat (List.length xs); Wd] /\
      forall b c r w,
        0 <= r < Z.of_nat (List.length xs) ->
        at4 out b c r w = at4 (nth (Z.to_nat r) xs d) b c 0 w.
  Proof.
    intros Hne Hxs. unfold K_concatenate. rewrite sequence_map_Ok. cbn [bind].
    destruct xs as [|x0 rest]; [contradiction|].
    destruct (@concat_unit_rows_from rest B F Wd d x0 1) as (out & E & So & Co).
    - apply Hxs. left. reflexivity.
    - lia.
    - intros x Hx. apply Hxs. right. exact Hx.
    - exists out. split; [exact E|]. split.
      + rewrite So. cbn [List.length]. do 3 f_equal. lia.
      + intros b c r w Hr. cbn [List.length] in Hr.
        destruct (Co b c r w) as [Clow Chigh].
        destruct (Z.eq_dec r 0) as [->|Hr0].
        * rewrite Clow by lia. reflexivity.
        * rewrite Chigh by lia.
          replace (Z.to_nat r) with (S (Z.to_nat (r - 1))) by lia. reflexivity.
  Qed.

End ConcatRows.

Section RowConvProofs.
Context {A : Type} {SA : Scalar A}.

Lemma index5_axis0 (u : tensor5 A) i :
    0 <= i < m0 u ->
    index5 u 0 i =
    Ok (Tensor4 (m1 u) (m2 u) (m3 u) (m4 u) (fun c r w f => at5 u i c r w f)).
  Proof.
    intros Hi. unfold index5, norm_axis, shape5.
    change (nth (Z.to_nat 0) [m0 u; m1 u; m2 u; m3 u; m4 u] 0) with (m0 u).
    rewrite (proj2 (Z.ltb_ge i 0)) by lia.
    rewrite (proj2 (Z.leb_le 0 i)), (proj2 (Z.ltb_lt i (m0 u))) by lia.
    reflexivity.
  Qed.

Lemma window_out_valid_unit k s : 1 <= s -> window_out false k k s 1 = 1.
  Proof.
    intros Hs. unfold window_out.
    replace (k - ((k - 1) * 1 + 1) + s) with s by lia.
    apply Z.div_same. lia.
  Qed.

Lemma window_out_valid_1 n k s : window_out false n k s 1 = (n - k + s) / s.
  Proof. unfold window_out. f_equal. lia. Qed.

Lemma window_fits n k s j :
    1 <= s -> 0 <= j < (n - k + s) / s -> j * s + k <= n.
  Proof.
    intros Hs Hj.
    pose proof (Z.mul_div_le (n - k + s) s ltac:(lia)) as Hd. nia.
  Qed.

End RowConvProofs.

(** X22. [row_conv2d], channels first, equal strides [s] along rows and columns,
    every row window inside the input: the result has [R] rows, and its row
    [i] is the valid convolution of the input rows [i*s .. i*s + kh - 1] with
    the kernel of that row, [kernel[i]].  The weights are shared along a
    row and differ from row to row; the second entry of [output_shape] is
    not used. *)
Theorem row_conv2d_rows {A : Type} {SA : Scalar A} cfg (inputs : tensor4 A)
    (kernel : tensor5 A) kernel_size strides output_shape data_format
    B C H W R kh kw F s ow :
  K_normalize_data_format cfg data_format = Ok channels_first ->
  strides = [s; s] -> kernel_size = [kh; kw] -> output_shape = [R; ow] ->
  shape4 inputs = [B; C; H; W] ->
  shape5 kernel = [R; kh; kw; C; F] ->
  1 <= s -> 1 <= R -> 1 <= kh -> 1 <= kw <= W ->
  (R - 1) * s + kh <= H ->
  exists out,
    row_conv2d cfg inputs kernel kernel_size strides output_shape data_format = Ok out /\
    shape4 out = [B; F; R; (W - kw + s) / s] /\
    forall b o i j,
      0 <= i < R -> 0 <= j < (W - kw + s) / s ->
      at4 out b o i j =
      sum_over kh (fun di =>
      sum_over kw (fun dj =>
      sum_over C (fun c =>
        mul (at4 inputs b c (i * s + di) (j * s + dj)) (at5 kernel i di dj c o)))).
Proof.
  intros Hdf -> -> -> Hsi Hsk Hs HR Hkh Hkw Hfit.
  unfold row_conv2d. rewrite Hdf. cbn [bind unpack2 fst snd].
  change (channels_first =? channels_first)%string with true. cbv iota.
  rewrite (shape4_inv Hsi), (shape5_inv Hsk).
  generalize (at4 inputs) as g. generalize (at5 kernel) as kf. intros kf g.
  clear Hsi Hsk inputs kernel.
  set (G := fun i =>
              conv_nchw (getitem4 (Tensor4 B C H W g) All All (Range (i * s) (i * s + kh)) All)
                (Tensor4 kh kw C F (fun c r w f => kf i c r w f)) false s s 1 1).
  rewrite (map_ext_in _ (fun i => Ok (G i))).
  2:{ intros i Hi. apply in_zrange in Hi.
      rewrite list_item_0. cbn [bind].
      rewrite index5_axis0 by (cbn [m0]; lia). cbn [bind m1 m2 m3 m4 at5].
      rewrite K_conv2d_ok; [reflexivity|left; reflexivity| | | | | | | |];
        cbn [getitem4 n0 n1 n2 n3]; rewrite ?slice_len_whole; try lia.
      - rewrite slice_len_range by nia. replace (i * s + kh - i * s) with kh by lia.
        change ("valid" =? "same")%string with false.
        rewrite window_out_valid_unit by lia. lia.
      - change ("valid" =? "same")%string with false.
        rewrite window_out_valid_1. apply Z.div_pos; lia. }
  rewrite <- (map_map G Ok).
  destruct (@K_concatenate_unit_rows A (map G (zrange R)) B F ((W - kw + s) / s) (G 0))
    as (out & E & So & Co).
  - intros Hnil. apply (f_equal (@List.length _)) in Hnil.
    rewrite length_map, zrange_length in Hnil. cbn in Hnil. lia.
  - intros x Hx. apply in_map_iff in Hx. destruct Hx as (i & <- & Hi).
    apply in_zrange in Hi. subst G. unfold shape4. cbn [conv_nchw getitem4 n0 n1 n2 n3].
    rewrite ?slice_len_whole, slice_len_range by nia.
    replace (i * s + kh - i * s) with kh by lia.
    rewrite window_out_valid_unit, window_out_valid_1 by lia. reflexivity.
  - exists out. split; [exact E|]. split.
    + rewrite So, length_map, zrange_length. do 3 f_equal. lia.
    + intros b o i j Hi Hj.
      rewrite Co by (rewrite length_map, zrange_length; lia).
      rewrite (map_nth G), zrange_nth by lia.
      subst G. cbn [conv_nchw getitem4 at4 n0 n1 n2 n3].
      rewrite ?slice_len_whole, slice_len_range by nia.
      unfold window_pad. cbv iota.
      apply sum_over_ext. intros di Hdi.
      apply sum_over_ext. intros dj Hdj.
      apply sum_over_ext. intros c Hc.
      cbv zeta.
      pose proof (@window_fits W kw s j Hs Hj) as Hw.
      replace (0 * s + di * 1 - 0) with di by lia.
      replace (j * s + dj * 1 - 0) with (j * s + dj) by lia.
      rewrite (proj2 (Z.leb_le 0 di)), (proj2 (Z.ltb_lt di _)),
        (proj2 (Z.leb_le 0 (j * s + dj))), (proj2 (Z.ltb_lt (j * s + dj) W)) by nia.
      cbn [andb]. rewrite !slice_src_all, slice_src_range by nia. reflexivity.
Qed.

Lemma row_conv2d_rows_witness :
  exists out,
    row_conv2d channels_last rows_image rows_kernel [2; 1] [1; 1] [3; 2]
      (Some channels_first) = Ok out /\
    shape4 out = [1; 1; 3; (2 - 1 + 1) / 1] /\
    forall b o i j,
      0 <= i < 3 -> 0 <= j < (2 - 1 + 1) / 1 ->
      at4 out b o i j =
      sum_over 2 (fun di =>
      sum_over 1 (fun dj =>
      sum_over 1 (fun c =>
        mul (at4 rows_image b c (i * 1 + di) (j * 1 + dj)) (at5 rows_kernel i di dj c o)))).
Proof.
  apply (@row_conv2d_rows Z Z_scalar channels_last rows_image rows_kernel
           [2; 1] [1; 1] [3; 2] (Some channels_first) 1 1 4 2 3 2 1 1 1 2);
    first [reflexivity | lia].
Defined.

Section ConcatRowsShapes.
Context {A : Type}.

Lemma concat_rows_from (rest : list (tensor4 A)) B F Wd :
    forall hs a n,
      shape4 a = [B; F; n; Wd] ->
      Forall2 (fun x h => shape4 x = [B; F; h; Wd]) rest hs ->
      exists out,
        fold_left (fun acc y => a' <- acc ;; concat4 2 a' y) rest (Ok a) = Ok out /\
        shape4 out = [B; F; n + fold_right Z.add 0 hs; Wd].
  Proof.
    induction rest as [|y rest IH]; intros hs a n Sa HF; inversion HF; subst.
    - exists a. cbn [fold_left fold_right]. split; [reflexivity|].
      rewrite Sa. do 3 f_equal. lia.
    - cbn [fold_left bind fold_right]. rewrite concat4_rows.
      match goal with Hy : shape4 y = _ |- _ => rename Hy into Sy end.
      unfold shape4 in Sa, Sy. injection Sa as A0 A1 A2 A3. injection Sy as Y0 Y1 Y2 Y3.
      rewrite A0, A1, A3, Y0, Y1, Y3, !Z.eqb_refl. cbn [andb].
      match goal with HF' : Forall2 _ rest ?l |- _ =>
        destruct (IH l (cat4 2 a y) (n + n2 y)) as (out & E & So); [|exact HF'|]
      end.
      + unfold shape4. cbn [cat4 n0 n1 n2 n3]. now rewrite A0, A1, A2, A3.
      + exists out. split; [exact E|]. rewrite So, Y2. do 3 f_equal. lia.
  Qed.

Lemma K_concatenate_rows_shape (xs : list (tensor4 A)) hs B F Wd :
    xs <> [] ->
    Forall2 (fun x h => shape4 x = [B; F; h; Wd]) xs hs ->
    exists out,
      K_concatenate (map Ok xs) 2 = Ok out /\
      shape4 out = [B; F; fold_right Z.add 0 hs; Wd].
  Proof.
    intros Hne HF. unfold K_concatenate. rewrite sequence_map_Ok. cbn [bind].
    destruct xs as [|x0 rest]; [contradiction|]. inversion HF; subst.
    match goal with HF' : Forall2 _ rest ?l, Sx : shape4 x0 = _ |- _ =>
      destruct (@concat_rows_from rest B F Wd l x0 _ Sx HF') as (out & E & So)
    end.
    exists out. split; [exact E|]. rewrite So. reflexivity.
  Qed.

End ConcatRowsShapes.

Lemma Forall2_map_both {X Y Z' : Type} (P : Y -> Z' -> Prop) (f : X -> Y) (g : X -> Z')
    (l : list X) :
  (forall x, In x l -> P (f x) (g x)) -> Forall2 P (map f l) (map g l).
Proof.
  induction l as [|x l IH]; intros H; cbn [map]; constructor.
  - apply H. left. reflexivity.
  - apply IH. intros y Hy. apply H. right. exact Hy.
Qed.

Lemma sum_at_least (f : Z -> Z) (l : list Z) :
  (forall x, In x l -> 1 <= f x) ->
  Z.of_nat (List.length l) <= fold_right Z.add 0 (map f l) /\
  ((exists x, In x l /\ 2 <= f x) ->
   Z.of_nat (List.length l) < fold_right Z.add 0 (map f l)).
Proof.
  induction l as [|x l IH]; intros H.
  - cbn. split; [lia|]. intros (x & [] & _).
  - destruct IH as [IH1 IH2]; [intros y Hy; apply H; right; exact Hy|].
    pose proof (H x (or_introl eq_refl)) as Hx.
    cbn [map fold_right List.length]. split; [lia|].
    intros (y & [->|Hy] & H2); [lia|].
    assert (Z.of_nat (List.length l) < fold_right Z.add 0 (map f l))
      by (apply IH2; exists y; split; assumption).
    lia.
Qed.

(** X23. [row_conv2d], channels first, with a row stride [sr] that differs
    from the column stride [sc]: the window of output row [i] starts at row
    [i * sr] but ends at row [i * sc + kh] (or at the end of the input), so
    with [sr < sc] it is higher than the kernel and gives
    [1 + (min(i * sc + kh, H) - i * sr - kh) / sr] output rows instead of
    one.  The result then has more rows than [output_shape] asks for as soon
    as one window is [sr] rows too high. *)
Theorem row_conv2d_unequal_strides {A : Type} {SA : Scalar A} cfg (inputs : tensor4 A)
    (kernel : tensor5 A) kernel_size strides output_shape data_format
    B C H W R kh kw F sr sc ow :
  K_normalize_data_format cfg data_format = Ok channels_first ->
  strides = [sr; sc] -> kernel_size = [kh; kw] -> output_shape = [R; ow] ->
  shape4 inputs = [B; C; H; W] ->
  shape5 kernel = [R; kh; kw; C; F] ->
  1 <= sr <= sc -> 1 <= R -> 1 <= kh -> 1 <= kw <= W ->
  (R - 1) * sr + kh <= H ->
  exists out,
    row_conv2d cfg inputs kernel kernel_size strides output_shape data_format = Ok out /\
    shape4 out =
      [B; F;
       fold_right Z.add 0
         (map (fun i => 1 + (Z.min (i * sc + kh) H - i * sr - kh) / sr) (zrange R));
       (W - kw + sc) / sc] /\
    R <= n2 out /\
    ((exists i, 0 <= i < R /\ sr <= Z.min (i * sc + kh) H - i * sr - kh) -> R < n2 out).
Proof.
  intros Hdf -> -> -> Hsi Hsk Hs HR Hkh Hkw Hfit.
  unfold row_conv2d. rewrite Hdf. cbn [bind unpack2 fst snd].
  change (channels_first =? channels_first)%string with true. cbv iota.
  rewrite (shape4_inv Hsi), (shape5_inv Hsk).
  generalize (at4 inputs) as g. generalize (at5 kernel) as kf. intros kf g.
  clear Hsi Hsk inputs kernel.
  set (G := fun i =>
              conv_nchw (getitem4 (Tensor4 B C H W g) All All (Range (i * sr) (i * sc + kh)) All)
                (Tensor4 kh kw C F (fun c r w f => kf i c r w f)) false sr sc 1 1).
  assert (Hslab : forall i, 0 <= i < R ->
            slice_len H (Range (i * sr) (i * sc + kh)) = Z.min (i * sc + kh) H - i * sr).
  { intros i Hi. rewrite slice_len_range_min by nia.
    rewrite (Z.min_l (i * sr) H) by nia. reflexivity. }
  assert (Hhigh : forall i, 0 <= i < R -> 0 <= Z.min (i * sc + kh) H - i * sr - kh)
    by (intros i Hi; apply Z.min_case_strong; nia).
  assert (Hrows : forall i, 0 <= i < R ->
            window_out false (Z.min (i * sc + kh) H - i * sr) kh sr 1
            = 1 + (Z.min (i * sc + kh) H - i * sr - kh) / sr).
  { intros i Hi. rewrite window_out_valid_1.
    replace (Z.min (i * sc + kh) H - i * sr - kh + sr)
      with (Z.min (i * sc + kh) H - i * sr - kh + 1 * sr) by lia.
    rewrite Z.div_add by lia. lia. }
  assert (Hpos : forall i, 0 <= i < R ->
            0 <= (Z.min (i * sc + kh) H - i * sr - kh) / sr)
    by (intros i Hi; apply Z.div_pos; [apply Hhigh; exact Hi|lia]).
  rewrite (map_ext_in _ (fun i => Ok (G i))).
  2:{ intros i Hi. apply in_zrange in Hi.
      rewrite list_item_0. cbn [bind].
      rewrite index5_axis0 by (cbn [m0]; lia). cbn [bind m1 m2 m3 m4 at5].
      rewrite K_conv2d_ok; [reflexivity|left; reflexivity| | | | | | | |];
        cbn [getitem4 n0 n1 n2 n3]; rewrite ?slice_len_whole; try lia.
      - rewrite Hslab by lia.
        change ("valid" =? "same")%string with false.
        rewrite Hrows by lia. specialize (Hpos i Hi). lia.
      - change ("valid" =? "same")%string with false.
        rewrite window_out_valid_1. apply Z.div_pos; lia. }
  rewrite <- (map_map G Ok).
  destruct (@K_concatenate_rows_shape A (map G (zrange R))
              (map (fun i => 1 + (Z.min (i * sc + kh) H - i * sr - kh) / sr) (zrange R))
              B F ((W - kw + sc) / sc))
    as (out & E & So).
  - intros Hnil. apply (f_equal (@List.length _)) in Hnil.
    rewrite length_map, zrange_length in Hnil. cbn in Hnil. lia.
  - apply Forall2_map_both. intros i Hi. apply in_zrange in Hi.
    subst G. unfold shape4. cbn [conv_nchw getitem4 n0 n1 n2 n3].
    rewrite ?slice_len_whole, Hslab by lia.
    rewrite Hrows, window_out_valid_1 by lia. reflexivity.
  - exists out. split; [exact E|]. split; [exact So|].
    rewrite (shape4_inv So). cbn [n2].
    destruct (@sum_at_least
                (fun i => 1 + (Z.min (i * sc + kh) H - i * sr - kh) / sr) (zrange R))
      as [Hge Hgt].
    + intros i Hi. apply in_zrange in Hi. specialize (Hpos i Hi). lia.
    + rewrite zrange_length in Hge, Hgt. split; [lia|].
      intros (i & Hi & Hbig).
      assert (Z.of_nat (Z.to_nat R) < fold_right Z.add 0
                (map (fun i => 1 + (Z.min (i * sc + kh) H - i * sr - kh) / sr)
                   (zrange R))); [|lia].
      apply Hgt. exists i. split; [apply in_zrange; lia|].
      assert (1 <= (Z.min (i * sc + kh) H - i * sr - kh) / sr); [|lia].
      apply Z.div_le_lower_bound; lia.
Qed.

Lemma row_conv2d_unequal_strides_witness :
  exists out,
    row_conv2d channels_last rows_image rows_kernel [2; 1] [1; 2] [3; 2]
      (Some channels_first) = Ok out /\
    shape4 out =
      [1; 1;
       fold_right Z.add 0
         (map (fun i => 1 + (Z.min (i * 2 + 2) 4 - i * 1 - 2) / 1) (zrange 3));
       (2 - 1 + 2) / 2] /\
    3 <= n2 out /\
    ((exists i, 0 <= i < 3 /\ 1 <= Z.min (i * 2 + 2) 4 - i * 1 - 2) -> 3 < n2 out).
Proof.
  apply (@row_conv2d_unequal_strides Z Z_scalar channels_last rows_image rows_kernel
           [2; 1] [1; 2] [3; 2] (Some channels_first) 1 1 4 2 3 2 1 1 1 2 2);
    first [reflexivity | lia].
Defined.

(** ** More on the cubed-sphere convolution *)

Section ConvLocality.
Context {A : Type} {SA : Scalar A}.
Implicit Types (x y : tensor4 A) (m : result (tensor4 A)).

Lemma same_cells4_dims x y :
    same_cells4 x y -> n0 x = n0 y /\ n1 x = n1 y /\ n2 x = n2 y /\ n3 x = n3 y.
  Proof.
    intros [S _]. unfold shape4 in S. injection S as -> -> -> ->. auto.
  Qed.

Lemma K_reverse_ext m m' axis :
    same_result4 m m' -> same_result4 (K_reverse m axis) (K_reverse m' axis).
  Proof.
    destruct m as [x|e], m' as [y|e']; cbn [same_result4 K_reverse bind]; try tauto.
    intros Hs. destruct (same_cells4_dims Hs) as (E0 & E1 & E2 & E3).
    destruct Hs as [_ Hc]. unfold reverse4.
    destruct (norm_axis 4 axis) as [|[[|[]|]|[]|]|]; cbn [same_result4]; try reflexivity;
      (split; [unfold shape4; cbn [n0 n1 n2 n3]; congruence|]);
      cbn [n0 n1 n2 n3 at4]; intros b c r w Hb Hcc Hr Hw;
      rewrite <- ?E0, <- ?E1, <- ?E2, <- ?E3; apply Hc; lia.
  Qed.

Lemma K_bias_add_ext m m' bias :
    same_result4 m m' ->
    same_result4 (K_bias_add m bias channels_first) (K_bias_add m' bias channels_first).
  Proof.
    destruct m as [x|e], m' as [y|e']; cbn [same_result4 K_bias_add bind]; try tauto.
    intros Hs. destruct (same_cells4_dims Hs) as (E0 & E1 & E2 & E3).
    destruct Hs as [_ Hc]. destruct bias as [bias|]; [|reflexivity].
    change (negb (str_in channels_first [channels_first; channels_last])) with false.
    change (channels_first =? channels_first)%string with true. cbv iota.
    rewrite <- E1. destruct (n1 x =? k0 bias); [|reflexivity].
    cbn [same_result4]. split; [unfold shape4; cbn [n0 n1 n2 n3]; congruence|].
    cbn [n0 n1 n2 n3 at4]. intros b c r w Hb Hcc Hr Hw. now rewrite Hc.
  Qed.

Lemma K_conv2d_ext m m' kernel strides padding dilation_rate :
    same_result4 m m' ->
    same_result4 (K_conv2d m kernel strides padding channels_first dilation_rate)
      (K_conv2d m' kernel strides padding channels_first dilation_rate).
  Proof.
    destruct m as [x|e], m' as [y|e']; cbn [same_result4]; try tauto;
      try (intros ->; reflexivity).
    intros Hs. destruct (same_cells4_dims Hs) as (E0 & E1 & E2 & E3).
    destruct Hs as [_ Hc]. unfold K_conv2d. cbn [bind].
    destruct kernel as [k|]; [|reflexivity].
    change (negb (str_in channels_first [channels_first; channels_last])) with false.
    cbv iota.
    destruct (negb (str_in padding ["same"; "valid"])); [reflexivity|].
    destruct (list_item strides 0) as [sh|]; [|reflexivity]. cbn [bind].
    destruct (list_item strides 1) as [sw|]; [|reflexivity]. cbn [bind].
    destruct (list_item dilation_rate 0) as [dh|]; [|reflexivity]. cbn [bind].
    destruct (list_item dilation_rate 1) as [dw|]; [|reflexivity]. cbn [bind].
    change (channels_first =? channels_first)%string with true. cbn [bind].
    rewrite <- E1, <- E2, <- E3.
    destruct ((sh <=? 0) || (sw <=? 0) || (dh <=? 0) || (dw <=? 0)); [reflexivity|].
    destruct (negb ((sh =? 1) && (sw =? 1)) && negb ((dh =? 1) && (dw =? 1)));
      [reflexivity|].
    destruct (Z.eqb_spec (n1 x) (n2 k)) as [Hk|Hk]; [|reflexivity]. cbn [negb].
    destruct ((window_out _ (n2 x) (n0 k) sh dh <? 0)
              || (window_out _ (n3 x) (n1 k) sw dw <? 0)); [reflexivity|].
    cbn [same_result4]. split.
    - unfold shape4. cbn [conv_nchw n0 n1 n2 n3]. congruence.
    - cbn [conv_nchw n0 n1 n2 n3 at4]. intros b o i j Hb Ho Hi Hj.
      rewrite <- E2, <- E3.
      apply sum_over_ext. intros di Hdi.
      apply sum_over_ext. intros dj Hdj.
      apply sum_over_ext. intros c Hcc. cbv zeta.
      match goal with
      | |- (if ?g then _ else _) = _ => destruct g eqn:Hg; [|reflexivity]
      end.
      rewrite !andb_true_iff, !Z.leb_le, !Z.ltb_lt in Hg.
      rewrite Hc by lia. reflexivity.
  Qed.

Lemma plain_conv_ext (l : CubeSphereConv2D.layer A) kernel bias m m' :
    CubeSphereConv2D.data_format l = channels_first ->
    same_result4 m m' ->
    same_result4 (CubeSphereConv2D.plain_conv l kernel bias m)
      (CubeSphereConv2D.plain_conv l kernel bias m').
  Proof.
    intros Hdf Hs. unfold CubeSphereConv2D.plain_conv. rewrite Hdf.
    destruct (CubeSphereConv2D.use_bias l).
    - apply K_bias_add_ext, K_conv2d_ext, Hs.
    - apply K_conv2d_ext, Hs.
  Qed.

Lemma ellipsis_ext (u v : tensor5 A) f :
    shape5 u = shape5 v ->
    (forall b c r w,
       0 <= b < m0 u -> 0 <= c < m1 u -> 0 <= r < m2 u -> 0 <= w < m3 u ->
       at5 u b c r w f = at5 v b c r w f) ->
    0 <= f ->
    same_result4 (ellipsis u f) (ellipsis v f).
  Proof.
    intros S Hc Hf. unfold shape5 in S. injection S as E0 E1 E2 E3 E4.
    unfold ellipsis, getitem, norm_axis. rewrite <- E0, <- E1, <- E2, <- E3, <- E4.
    rewrite (proj2 (Z.ltb_ge f 0)) by lia.
    destruct ((0 <=? f) && (f <? m4 u)); [|reflexivity].
    cbn [same_result4]. split; [reflexivity|].
    cbn [n0 n1 n2 n3 at4 slice_len]. intros b c r w Hb Hcc Hr Hw.
    rewrite !slice_src_all. apply Hc; assumption.
  Qed.

Lemma face_result_ext (l : CubeSphereConv2D.layer A) (u v : tensor5 A) f :
    CubeSphereConv2D.data_format l = channels_first ->
    shape5 u = shape5 v ->
    0 <= f < 6 ->
    (forall b c r w,
       0 <= b < m0 u -> 0 <= c < m1 u -> 0 <= r < m2 u -> 0 <= w < m3 u ->
       at5 u b c r w f = at5 v b c r w f) ->
    same_result4 (CubeSphereConv2D.face_result l u f) (CubeSphereConv2D.face_result l v f).
  Proof.
    intros Hdf S Hf Hc. unfold CubeSphereConv2D.face_result.
    destruct (Z.ltb_spec f 4) as [H4|H4].
    - apply plain_conv_ext; [exact Hdf|]. apply ellipsis_ext; [exact S|exact Hc|lia].
    - destruct (Z.eqb_spec f 4) as [->|Hn4].
      + apply plain_conv_ext; [exact Hdf|]. apply ellipsis_ext; [exact S|exact Hc|lia].
      + assert (f = 5) as -> by lia.
        unfold CubeSphereConv2D.north_conv_height.
        destruct (CubeSphereConv2D.flip_north_pole l).
        * apply K_reverse_ext, plain_conv_ext; [exact Hdf|].
          apply K_reverse_ext, ellipsis_ext; [exact S|exact Hc|lia].
        * apply plain_conv_ext; [exact Hdf|].
          apply ellipsis_ext; [exact S|exact Hc|lia].
  Qed.

End ConvLocality.

(** X24. [CubeSphereConv2D.call] never mixes faces: the values it computes for
    face [f], before the activation, depend on face [f] of the input only.
    Two inputs of one shape that agree on face [f] give results that agree
    on face [f]. *)
Theorem conv_faces_independent {A : Type} {SA : Scalar A}
    (l : CubeSphereConv2D.layer A) (x x' out out' : tensor5 A) f :
  CubeSphereConv2D.data_format l = channels_first ->
  shape5 x = shape5 x' ->
  0 <= f < 6 ->
  (forall b c r w,
     0 <= b < m0 x -> 0 <= c < m1 x -> 0 <= r < m2 x -> 0 <= w < m3 x ->
     at5 x b c r w f = at5 x' b c r w f) ->
  CubeSphereConv2D.call l x = Ok out ->
  CubeSphereConv2D.call l x' = Ok out' ->
  exists pre pre',
    out = CubeSphereConv2D.activation l pre /\
    out' = CubeSphereConv2D.activation l pre' /\
    shape5 pre = shape5 pre' /\
    forall b c r w,
      0 <= b < m0 pre -> 0 <= c < m1 pre -> 0 <= r < m2 pre -> 0 <= w < m3 pre ->
      at5 pre b c r w f = at5 pre' b c r w f.
Proof.
  intros Hdf S Hf Hc E E'.
  destruct (call_inv _ _ E) as (pre & -> & M & HF).
  destruct (call_inv _ _ E') as (pre' & -> & M' & HF').
  destruct (HF f Hf) as (y & Ey & Sy & Cy).
  destruct (HF' f Hf) as (y' & Ey' & Sy' & Cy').
  pose proof (@face_result_ext A SA l x x' f Hdf S Hf Hc) as Hext.
  rewrite Ey, Ey' in Hext. cbn [same_result4] in Hext.
  destruct Hext as [Syy Cyy].
  exists pre, pre'. split; [reflexivity|]. split; [reflexivity|].
  rewrite Sy, Sy' in Syy.
  unfold shape4 in Sy. injection Sy as Y0 Y1 Y2 Y3.
  injection Syy as P0 P1 P2 P3.
  split; [unfold shape5; congruence|].
  intros b c r w Hb Hcc Hr Hw. rewrite Cy, Cy'. apply Cyy; lia.
Qed.

Lemma conv_faces_independent_witness :
  exists pre pre',
    returned example_input (CubeSphereConv2D.call built_example example_input)
    = CubeSphereConv2D.activation built_example pre /\
    returned example_input (CubeSphereConv2D.call built_example example_input_face2)
    = CubeSphereConv2D.activation built_example pre' /\
    shape5 pre = shape5 pre' /\
    forall b c r w,
      0 <= b < m0 pre -> 0 <= c < m1 pre -> 0 <= r < m2 pre -> 0 <= w < m3 pre ->
      at5 pre b c r w 2 = at5 pre' b c r w 2.
Proof.
  apply (@conv_faces_independent Z Z_scalar built_example example_input
           example_input_face2
           (returned example_input (CubeSphereConv2D.call built_example example_input))
           (returned example_input
              (CubeSphereConv2D.call built_example example_input_face2))
           2).
  - vm_compute. reflexivity.
  - reflexivity.
  - lia.
  - intros b c r w _ _ _ _. reflexivity.
  - apply returned_ok. vm_compute. reflexivity.
  - apply returned_ok. vm_compute. reflexivity.
Defined.

(** X25. [CubeSphereConv2D.call] on a layer as [__init__] leaves it, before
    [build] has created the weights, raises: the kernels are still [None]. *)
Theorem conv_call_needs_build {A : Type} {SA : Scalar A} cfg
    (args : CubeSphereConv2D.arguments A) l (inputs : tensor5 A) :
  CubeSphereConv2D.init cfg args = Ok l ->
  exists e, CubeSphereConv2D.call l inputs = Raise e.
Proof.
  intros Hinit.
  destruct (init_inv _ _ Hinit) as (_ & _ & _ & _ & _ & _ & _ & Hk & _).
  rewrite call_faces.
  assert (Hface : exists e, CubeSphereConv2D.face_result l inputs 0 = Raise e).
  { unfold CubeSphereConv2D.face_result. change (0 <? 4) with true. cbv iota.
    unfold CubeSphereConv2D.plain_conv. rewrite Hk.
    assert (Hconv : exists e,
              K_conv2d (ellipsis inputs 0) None (CubeSphereConv2D.strides l)
                (CubeSphereConv2D.padding l) (CubeSphereConv2D.data_format l)
                (CubeSphereConv2D.dilation_rate l) = Raise e).
    { unfold K_conv2d. destruct (ellipsis inputs 0); cbn [bind]; eexists; reflexivity. }
    destruct Hconv as (e & ->).
    destruct (CubeSphereConv2D.use_bias l); eexists; reflexivity. }
  destruct Hface as (e & ->). exists e. reflexivity.
Qed.

Lemma conv_call_needs_build_witness :
  exists e,
    CubeSphereConv2D.call
      (returned example_layer (CubeSphereConv2D.init channels_last example_args))
      example_input = Raise e.
Proof.
  apply (@conv_call_needs_build Z Z_scalar channels_last example_args
           (returned example_layer (CubeSphereConv2D.init channels_last example_args))
           example_input).
  apply returned_ok. vm_compute. reflexivity.
Defined.

Section ConvSharing.
Context {A : Type} {SA : Scalar A}.

Lemma ellipsis_faces_ext (u : tensor5 A) f g :
    0 <= f < m4 u -> 0 <= g < m4 u ->
    (forall b c r w,
       0 <= b < m0 u -> 0 <= c < m1 u -> 0 <= r < m2 u -> 0 <= w < m3 u ->
       at5 u b c r w f = at5 u b c r w g) ->
    same_result4 (ellipsis u f) (ellipsis u g).
  Proof.
    intros Hf Hg Hc. unfold ellipsis. rewrite !getitem_ok by assumption.
    cbn [same_result4]. split; [reflexivity|].
    cbn [n0 n1 n2 n3 at4 slice_len]. intros b c r w Hb Hcc Hr Hw.
    rewrite !slice_src_all. apply Hc; assumption.
  Qed.

End ConvSharing.

(** X27. [CubeSphereConv2D.call] uses one kernel and one bias for the four
    equatorial faces: when two equatorial faces of the input hold the same
    data, the two faces of the result are the same (before the
    activation). *)
Theorem conv_equatorial_faces_share {A : Type} {SA : Scalar A}
    (l : CubeSphereConv2D.layer A) (x out : tensor5 A) f g B C H W :
  CubeSphereConv2D.data_format l = channels_first ->
  shape5 x = [B; C; H; W; 6] ->
  0 <= f < 4 -> 0 <= g < 4 ->
  (forall b c r w,
     0 <= b < B -> 0 <= c < C -> 0 <= r < H -> 0 <= w < W ->
     at5 x b c r w f = at5 x b c r w g) ->
  CubeSphereConv2D.call l x = Ok out ->
  exists pre,
    out = CubeSphereConv2D.activation l pre /\
    forall b c r w,
      0 <= b < m0 pre -> 0 <= c < m1 pre -> 0 <= r < m2 pre -> 0 <= w < m3 pre ->
      at5 pre b c r w f = at5 pre b c r w g.
Proof.
  intros Hdf S Hf Hg Hc E.
  destruct (call_inv _ _ E) as (pre & -> & M & HF).
  destruct (HF f ltac:(lia)) as (y & Ey & Sy & Cy).
  destruct (HF g ltac:(lia)) as (y' & Ey' & Sy' & Cy').
  exists pre. split; [reflexivity|].
  assert (Hext : same_result4 (CubeSphereConv2D.face_result l x f)
                   (CubeSphereConv2D.face_result l x g)).
  { unfold CubeSphereConv2D.face_result.
    rewrite (proj2 (Z.ltb_lt f 4)), (proj2 (Z.ltb_lt g 4)) by lia.
    apply plain_conv_ext; [exact Hdf|].
    rewrite (shape5_inv S) in *. cbn [at5] in *.
    apply ellipsis_faces_ext; cbn [m0 m1 m2 m3 m4 at5]; try lia. exact Hc. }
  rewrite Ey, Ey' in Hext. destruct Hext as [_ Cyy].
  unfold shape4 in Sy. injection Sy as Y0 Y1 Y2 Y3.
  intros b c r w Hb Hcc Hr Hw. rewrite Cy, Cy'. apply Cyy; lia.
Qed.

Lemma conv_equatorial_faces_share_witness :
  exists pre,
    returned example_input (CubeSphereConv2D.call built_example example_input)
    = CubeSphereConv2D.activation built_example pre /\
    forall b c r w,
      0 <= b < m0 pre -> 0 <= c < m1 pre -> 0 <= r < m2 pre -> 0 <= w < m3 pre ->
      at5 pre b c r w 1 = at5 pre b c r w 3.
Proof.
  apply (@conv_equatorial_faces_share Z Z_scalar built_example example_input
           (returned example_input (CubeSphereConv2D.call built_example example_input))
           1 3 1 1 2 2).
  - vm_compute. reflexivity.
  - reflexivity.
  - lia.
  - lia.
  - intros b c r w _ _ _ _. reflexivity.
  - apply returned_ok. vm_compute. reflexivity.
Defined.

(** X28. [CubeSphereConv2D.call] with [flip_north_pole] and without an
    independent north pole treats the north pole as the mirror image of the
    south pole: when the north face of the input is the south face turned
    upside down (reversed along the height), the north face of the result
    is the south face of the result turned upside down (before the
    activation). *)
Theorem conv_poles_mirror {A : Type} {SA : Scalar A}
    (l : CubeSphereConv2D.layer A) (x out : tensor5 A) B C H W :
  CubeSphereConv2D.data_format l = channels_first ->
  CubeSphereConv2D.flip_north_pole l = true ->
  CubeSphereConv2D.independent_north_pole l = false ->
  shape5 x = [B; C; H; W; 6] ->
  (forall b c r w,
     0 <= b < B -> 0 <= c < C -> 0 <= r < H -> 0 <= w < W ->
     at5 x b c r w 5 = at5 x b c (H - 1 - r) w 4) ->
  CubeSphereConv2D.call l x = Ok out ->
  exists pre,
    out = CubeSphereConv2D.activation l pre /\
    forall b c r w,
      0 <= b < m0 pre -> 0 <= c < m1 pre -> 0 <= r < m2 pre -> 0 <= w < m3 pre ->
      at5 pre b c r w 5 = at5 pre b c (m2 pre - 1 - r) w 4.
Proof.
  intros Hdf Hflip Hind S Hc E.
  destruct (call_inv _ _ E) as (pre & -> & M & HF).
  destruct (HF 4 ltac:(lia)) as (y4 & E4 & S4 & C4).
  destruct (HF 5 ltac:(lia)) as (y5 & E5 & S5 & C5).
  exists pre. split; [reflexivity|].
  unfold CubeSphereConv2D.face_result in E4, E5.
  change (4 <? 4) with false in E4. change (4 =? 4) with true in E4.
  change (5 <? 4) with false in E5. change (5 =? 4) with false in E5.
  cbv iota in E4, E5.
  unfold CubeSphereConv2D.north_conv_height, CubeSphereConv2D.north_kernel,
    CubeSphereConv2D.north_bias in E5.
  rewrite Hflip, Hind in E5.
  assert (Hext : same_result4
                   (CubeSphereConv2D.plain_conv l (CubeSphereConv2D.polar_kernel l)
                      (CubeSphereConv2D.polar_bias l) (K_reverse (ellipsis x 5) (-2)))
                   (CubeSphereConv2D.plain_conv l (CubeSphereConv2D.polar_kernel l)
                      (CubeSphereConv2D.polar_bias l) (ellipsis x 4))).
  { apply plain_conv_ext; [exact Hdf|].
    rewrite (shape5_inv S) in *. cbn [at5] in *.
    unfold ellipsis. rewrite !getitem_ok by (cbn [m4]; lia).
    rewrite K_reverse_height. cbn [same_result4]. split; [reflexivity|].
    cbn [n0 n1 n2 n3 at4 at5 m0 m1 m2 m3 slice_len].
    intros b c r w Hb Hcc Hr Hw. rewrite !slice_src_all.
    rewrite Hc by lia. f_equal. lia. }
  rewrite E4 in Hext.
  destruct (CubeSphereConv2D.plain_conv l (CubeSphereConv2D.polar_kernel l)
              (CubeSphereConv2D.polar_bias l) (K_reverse (ellipsis x 5) (-2)))
    as [z|e]; [|contradiction].
  rewrite K_reverse_height in E5. injection E5 as <-.
  destruct Hext as [Sz Cz]. cbn [n0 n1 n2 n3 at4] in *.
  unfold shape4 in S5. cbn [n0 n1 n2 n3] in S5. injection S5 as Z0 Z1 Z2 Z3.
  intros b c r w Hb Hcc Hr Hw. rewrite C5, C4. cbn [at4].
  rewrite Z2. apply Cz; lia.
Qed.

Lemma conv_poles_mirror_witness :
  exists pre,
    returned mirrored_poles (CubeSphereConv2D.call built_example mirrored_poles)
    = CubeSphereConv2D.activation built_example pre /\
    forall b c r w,
      0 <= b < m0 pre -> 0 <= c < m1 pre -> 0 <= r < m2 pre -> 0 <= w < m3 pre ->
      at5 pre b c r w 5 = at5 pre b c (m2 pre - 1 - r) w 4.
Proof.
  apply (@conv_poles_mirror Z Z_scalar built_example mirrored_poles
           (returned mirrored_poles (CubeSphereConv2D.call built_example mirrored_poles))
           1 1 2 2).
  - vm_compute. reflexivity.
  - vm_compute. reflexivity.
  - vm_compute. reflexivity.
  - reflexivity.
  - intros b c r w _ _ _ _. unfold mirrored_poles. cbn [at5].
    change (5 =? 5) with true. change (4 =? 5) with false. cbv iota. lia.
  - apply returned_ok. vm_compute. reflexivity.
Defined.

(** X26. [EarlyStoppingMin] during the first [min_epochs] epochs does
    nothing at all: whatever the logs say, the callback is left as it was -
    an improvement is not recorded, its weights are not kept - and the
    model is not touched. *)
Theorem early_stopping_warm_up {V W : Type} (sub : V -> V -> V) calls :
  forall (self : EarlyStoppingMin.callback V W) epoch,
    epoch + Z.of_nat (List.length calls) <= EarlyStoppingMin.min_epochs self ->
    EarlyStoppingMin.on_epochs sub self epoch calls = (self, map (fun _ => []) calls).
Proof.
  induction calls as [|[logs weights] calls IH]; intros self epoch Hle.
  - reflexivity.
  - cbn [List.length] in Hle. cbn [EarlyStoppingMin.on_epochs map].
    unfold EarlyStoppingMin.on_epoch_end.
    rewrite (proj2 (Z.ltb_lt epoch (EarlyStoppingMin.min_epochs self))) by lia.
    rewrite IH by lia. reflexivity.
Qed.

Lemma early_stopping_warm_up_witness :
  EarlyStoppingMin.on_epochs Z.sub early_stopping_example 0 [([("val_loss", 1)], 100)]
  = (early_stopping_example, map (fun _ => []) [([("val_loss", 1)], 100)]).
Proof.
  apply (@early_stopping_warm_up Z Z Z.sub [([("val_loss", 1)], 100)]
           early_stopping_example 0).
  cbn. lia.
Defined.
